(** * QuantumHarmony node testing agent and Crypto4A QRNG simulator

    A shallow embedding of [scripts/node_agent.py] (the [NodeAgent] class:
    transport, JSON-RPC client, probes, the two pipelines and the summary
    table) and of [services/crypto4a-simulator/server.py] (the [/v1/random]
    endpoint), followed by the properties proved about them.

    Conventions of the embedding.
    - A Python value that can come out of [json.loads] is a [pyval].
    - A method of [NodeAgent] is a computation in the monad [M]: it takes the
      agent, may raise a Python exception, and returns the agent as the
      method left it (a raise keeps the mutations made before it).
    - The network is a [world]: what a request answers may depend on every
      request sent before it.  The agent keeps the list of requests it sent
      in the ghost field [sent].
    - A text is held as its UTF-8 encoding, one byte per character of a
      [string].
    - Console output ([log], [print]) and the pause of [time.sleep]
      change neither the agent nor the control flow and are left out,
      except the summary, which [print_summary] returns as a value: the
      console is taken to print UTF-8, and the texts and ints that reach
      it to be ones [print] and [str] accept ([well_formed],
      [int_printable]); the properties that say a probe returns state
      this of the responses.
    - The module is taken as loaded without aiohttp, the case in which it
      imports urllib, which the transport uses.
    - Two Python builtins are parameters of the development: the text
      [str] gives for a float, a list or a dict ([py_repr]), and the parser
      behind [int(s)] and [int(s, 16)] ([parse_int]).  The theorems hold
      for every choice of them. *)

From Stdlib Require Import ZArith List String Ascii Bool Lia Floats
  DecimalString Strings.Byte Sorted FinFun.
Import ListNotations.

Set Warnings "-register-all".

Open Scope string_scope.
Open Scope Z_scope.

(** ** Python values *)

(** The values [json.loads] produces.  A dict is kept as a list of bindings;
    a key bound more than once counts with its first binding. *)
Inductive pyval : Type :=
| PNone
| PBool (b : bool)
| PInt (n : Z)
| PFloat (f : float)
| PStr (s : string)
| PList (items : list pyval)
| PDict (members : list (string * pyval)).

(** The exceptions the embedded code can raise. *)
Inductive exn : Type :=
| AttributeError
| KeyError
| TypeError
| ValueError
| OverflowError.

Definition res (A : Type) : Type := (exn + A)%type.

Definition ok {A : Type} (a : A) : res A := inr a.
Definition raise {A : Type} (e : exn) : res A := inl e.

(** *** Strings *)

Fixpoint starts_with (p s : string) : bool :=
  match p with
  | EmptyString => true
  | String a p' =>
      match s with
      | EmptyString => false
      | String b s' => Ascii.eqb a b && starts_with p' s'
      end
  end.

(** [needle in hay] on two [str]. *)
Fixpoint str_contains (needle hay : string) : bool :=
  starts_with needle hay ||
  match hay with
  | EmptyString => false
  | String _ t => str_contains needle t
  end.

(** [s.replace(old, new)] for a non-empty [old]: every occurrence, leftmost
    first, occurrences do not overlap.  [skip] counts the characters of a
    match that are still to be dropped. *)
Fixpoint replace_from (old new : string) (skip : nat) (s : string) : string :=
  match s with
  | EmptyString => EmptyString
  | String c t =>
      match skip with
      | S k => replace_from old new k t
      | O =>
          if starts_with old s
          then new ++ replace_from old new (Nat.pred (String.length old)) t
          else String c (replace_from old new O t)
      end
  end.

Definition str_replace (old new s : string) : string :=
  replace_from old new O s.

(** [s[:n]] of an ASCII text *)
Definition str_take (n : nat) (s : string) : string := substring 0 n s.

(** *** Dicts *)

Fixpoint lookup (k : string) (d : list (string * pyval)) : option pyval :=
  match d with
  | [] => None
  | (k', v) :: d' => if String.eqb k k' then Some v else lookup k d'
  end.

Definition has_key (k : string) (d : list (string * pyval)) : bool :=
  match lookup k d with Some _ => true | None => false end.

Definition dict_len (d : list (string * pyval)) : nat :=
  List.length (nodup string_dec (map fst d)).

(** *** Floats *)

(** The integer a float is worth, when it is worth one ([x == n] between a
    float and an int compares the exact values). *)
Definition float_exact_Z (f : float) : option Z :=
  match Prim2SF f with
  | S754_zero _ => Some 0
  | S754_finite s m e =>
      let sign := if s then -1 else 1 in
      if 0 <=? e then Some (sign * (Zpos m * 2 ^ e))
      else if Zpos m mod 2 ^ (- e) =? 0 then Some (sign * (Zpos m / 2 ^ (- e)))
      else None
  | _ => None
  end.

(** [int(f)]: truncation towards zero; NaN and the infinities raise. *)
Definition float_trunc (f : float) : res Z :=
  match Prim2SF f with
  | S754_zero _ => ok 0
  | S754_finite s m e =>
      let sign := if s then -1 else 1 in
      if 0 <=? e then ok (sign * (Zpos m * 2 ^ e))
      else ok (sign * (Zpos m / 2 ^ (- e)))
  | S754_nan => raise ValueError
  | S754_infinity _ => raise OverflowError
  end.

Definition float_nonzero (f : float) : bool :=
  match Prim2SF f with
  | S754_zero _ => false
  | _ => true
  end.

(** *** Operators and builtins *)

(** [bool(v)] *)
Definition truthy (v : pyval) : bool :=
  match v with
  | PNone => false
  | PBool b => b
  | PInt n => negb (n =? 0)
  | PFloat f => float_nonzero f
  | PStr s => negb (String.eqb s EmptyString)
  | PList l => match l with [] => false | _ => true end
  | PDict d => match d with [] => false | _ => true end
  end.

(** [a or b] *)
Definition py_or (a b : pyval) : pyval := if truthy a then a else b.

(** [v == "lit"] *)
Definition eq_str (lit : string) (v : pyval) : bool :=
  match v with
  | PStr s => String.eqb s lit
  | _ => false
  end.

(** [v == n] for an int literal [n] *)
Definition eq_int (n : Z) (v : pyval) : bool :=
  match v with
  | PInt m => m =? n
  | PBool b => (if b then 1 else 0) =? n
  | PFloat f => match float_exact_Z f with Some m => m =? n | None => false end
  | _ => false
  end.

(** ["key" in v] *)
Definition py_in (key : string) (v : pyval) : res bool :=
  match v with
  | PDict d => ok (has_key key d)
  | PList l => ok (existsb (eq_str key) l)
  | PStr s => ok (str_contains key s)
  | _ => raise TypeError
  end.

(** [v["key"]] *)
Definition py_getitem (v : pyval) (key : string) : res pyval :=
  match v with
  | PDict d => match lookup key d with Some x => ok x | None => raise KeyError end
  | _ => raise TypeError
  end.

(** [v.get("key", default)]: only a dict has the method. *)
Definition py_get (v : pyval) (key : string) (default : pyval) : res pyval :=
  match v with
  | PDict d => match lookup key d with Some x => ok x | None => ok default end
  | _ => raise AttributeError
  end.

(** A text is held as its UTF-8 encoding, one byte per character of the
    [string].  A byte [10xxxxxx] continues the encoding of a code point. *)
Definition continues (c : ascii) : bool :=
  match c with
  | Ascii _ _ _ _ _ _ b6 b7 => b7 && negb b6
  end.

(** [len(s)] of a [str]: the number of its code points. *)
Fixpoint code_points (s : string) : nat :=
  match s with
  | EmptyString => O
  | String c t => if continues c then code_points t else S (code_points t)
  end.

(** [len(v)] *)
Definition py_len (v : pyval) : res Z :=
  match v with
  | PStr s => ok (Z.of_nat (code_points s))
  | PList l => ok (Z.of_nat (List.length l))
  | PDict d => ok (Z.of_nat (dict_len d))
  | _ => raise TypeError
  end.

Definition isinstance_list (v : pyval) : bool :=
  match v with PList _ => true | _ => false end.

(** [isinstance(v, int)]: [bool] is a subclass of [int]. *)
Definition isinstance_int (v : pyval) : bool :=
  match v with PInt _ | PBool _ => true | _ => false end.

Definition str_of_Z (n : Z) : string := NilZero.string_of_int (Z.to_int n).

(** ** The network and the agent *)

Inductive request : Type :=
| Post (url : string) (payload : pyval)
| Get (url : string).

(** What [urlopen], [read] and [json.loads] make of one request: the decoded
    body, or the exception raised on the way ([msg] and [reason] are what the
    exception carries, [text] is its [str]). *)
Inductive outcome : Type :=
| Body (v : pyval)
| HTTPError (code : Z) (msg : string)
| URLError (reason : string)
| OtherException (text : string).

(** [respond] answers a request given the requests sent before it, oldest
    first; [randbelow n] is the index [secrets.choice] draws in a sequence of
    length [n]. *)
Record world : Type := {
  respond : list request -> request -> outcome;
  randbelow : nat -> nat
}.

(** [details] is [PNone] when none is given. *)
Record TestResult : Type := {
  name : string;
  passed : bool;
  message : string;
  details : pyval
}.

Record NodeAgent : Type := {
  node_url : string;
  faucet_url : option string;
  results : list TestResult;
  rpc_id : Z;
  sent : list request
}.

(** The three ways a method changes the agent. *)
Definition push_result (r : TestResult) (s : NodeAgent) : NodeAgent :=
  {| node_url := node_url s; faucet_url := faucet_url s;
     results := results s ++ [r]; rpc_id := rpc_id s; sent := sent s |}.

Definition push_sent (r : request) (s : NodeAgent) : NodeAgent :=
  {| node_url := node_url s; faucet_url := faucet_url s;
     results := results s; rpc_id := rpc_id s; sent := sent s ++ [r] |}.

Definition bump_id (s : NodeAgent) : NodeAgent :=
  {| node_url := node_url s; faucet_url := faucet_url s;
     results := results s; rpc_id := rpc_id s + 1; sent := sent s |}.

(** A method of the agent. *)
Definition M (A : Type) : Type := NodeAgent -> res A * NodeAgent.

Definition ret {A : Type} (a : A) : M A := fun s => (ok a, s).

Definition bind {A B : Type} (m : M A) (f : A -> M B) : M B :=
  fun s =>
    match m s with
    | (inr a, s') => f a s'
    | (inl e, s') => (inl e, s')
    end.

Definition lift {A : Type} (r : res A) : M A := fun s => (r, s).

Notation "x <- m ;; k" := (bind m (fun x => k))
  (at level 61, m at next level, right associativity).
Notation "m ;; k" := (bind m (fun _ => k))
  (at level 61, right associativity).

(** [str(e)] of the two urllib exceptions. *)
Definition str_HTTPError (code : Z) (msg : string) : string :=
  "HTTP Error " ++ str_of_Z code ++ ": " ++ msg.

Definition str_URLError (reason : string) : string :=
  "<urlopen error " ++ reason ++ ">".

Definition error_response (code : pyval) (text : string) : pyval :=
  PDict [("error", PDict [("code", code); ("message", PStr text)])].

(** [not self.faucet_url] *)
Definition url_configured (u : option string) : option string :=
  match u with
  | Some url => if String.eqb url EmptyString then None else Some url
  | None => None
  end.

Definition DEV_ACCOUNTS : list (string * string) :=
  [("Alice", "5GrwvaEF5zXb26Fz9rcQpDWS57CtERHpNehXCPcNoHGKutQY");
   ("Bob", "5FHneW46xGXgs5mUiveU4sbTyGBzmstUspZC92UhjJM694ty");
   ("Charlie", "5FLSigC9HGRKVhB9FiEo4Y3koPsNmBmLJbpXg2mp1hXcS59Y");
   ("Dave", "5DAAnrj7VHTznn2AWBemMuyBwZWs6FNFjdyVXUeYum3PTXFy");
   ("Eve", "5HGjWAeFDfFCWPsjFQdVV2Msvz2XtMktvgocEZcCj68kUMaw");
   ("Ferdie", "5CiPPseXPECbkjWCa6MnjNokrgYjMqmKndv2rSnekmSK2DjL")].

Definition alice : string :=
  "5GrwvaEF5zXb26Fz9rcQpDWS57CtERHpNehXCPcNoHGKutQY".

Fixpoint assoc (k : string) (l : list (string * string)) : option string :=
  match l with
  | [] => None
  | (k', v) :: l' => if String.eqb k k' then Some v else assoc k l'
  end.

(** The dict [generate_test_account] returns, with its three fixed keys. *)
Record account : Type := {
  acc_name : string;
  acc_address : string;
  acc_type : string
}.

(** [NodeAgent.__init__] *)
Definition __init__ (node_url0 : string) (faucet_url0 : option string)
  : NodeAgent :=
  {| node_url :=
       str_replace "wss://" "https://"
         (str_replace "ws://" "http://" node_url0);
     faucet_url := faucet_url0;
     results := [];
     rpc_id := 0;
     sent := [] |}.

Section Embedding.

(** [str(v)] of a float, a list or a dict. *)
Variable py_repr : pyval -> string.

(** [int(s, base)] of a [str]; [None] when Python raises [ValueError]. *)
Variable parse_int : Z -> string -> option Z.

Variable w : world.

(** [str(v)] *)
Definition py_str (v : pyval) : string :=
  match v with
  | PNone => "None"
  | PBool true => "True"
  | PBool false => "False"
  | PInt n => str_of_Z n
  | PStr s => s
  | _ => py_repr v
  end.

(** [int(v)] *)
Definition py_int (v : pyval) : res Z :=
  match v with
  | PInt n => ok n
  | PBool b => ok (if b then 1 else 0)
  | PFloat f => float_trunc f
  | PStr s => match parse_int 10 s with Some n => ok n | None => raise ValueError end
  | _ => raise TypeError
  end.

(** [int(v, 16)] *)
Definition py_int16 (v : pyval) : res Z :=
  match v with
  | PStr s => match parse_int 16 s with Some n => ok n | None => raise ValueError end
  | _ => raise TypeError
  end.

(** *** Transport *)

(** One exchange with the network, logged in [sent]. *)
Definition exchange (r : request) : M outcome :=
  fun s => (ok (respond w (sent s) r), push_sent r s).

(** The [try]/[except] of [_make_request]. *)
Definition post_result (o : outcome) : pyval :=
  match o with
  | Body v => v
  | HTTPError code msg => error_response (PInt code) (str_HTTPError code msg)
  | URLError reason => error_response (PInt (-1)) reason
  | OtherException text => error_response (PInt (-1)) text
  end.

Definition _make_request (url : string) (payload : pyval) : M pyval :=
  o <- exchange (Post url payload) ;;
  ret (post_result o).

Definition _next_id : M Z :=
  fun s => (ok (rpc_id s + 1), bump_id s).

Definition get_node_url : M string := fun s => (ok (node_url s), s).
Definition get_faucet_url : M (option string) := fun s => (ok (faucet_url s), s).

(** The JSON-RPC envelope; [params or []] is the list given, [[]] when none
    or an empty one is. *)
Definition envelope (id : Z) (method : string) (params : option (list pyval))
  : pyval :=
  PDict [("jsonrpc", PStr "2.0");
         ("id", PInt id);
         ("method", PStr method);
         ("params", match params with
                    | Some l => PList l
                    | None => PList []
                    end)].

Definition rpc_call (method : string) (params : option (list pyval)) : M pyval :=
  id <- _next_id ;;
  let payload := envelope id method params in
  url <- get_node_url ;;
  _make_request url payload.

Inductive http_method : Type := GET | POST.

(** The [try]/[except] of the GET branch of [faucet_call]. *)
Definition get_result (o : outcome) : pyval :=
  match o with
  | Body v => v
  | HTTPError code msg => error_response (PInt (-1)) (str_HTTPError code msg)
  | URLError reason => error_response (PInt (-1)) (str_URLError reason)
  | OtherException text => error_response (PInt (-1)) text
  end.

Definition faucet_call (endpoint : string) (method : http_method)
    (data : option pyval) : M pyval :=
  fu <- get_faucet_url ;;
  match url_configured fu with
  | None =>
      ret (PDict [("error", PDict [("message", PStr "No faucet URL configured")])])
  | Some base =>
      let url := base ++ endpoint in
      match method with
      | GET =>
          o <- exchange (Get url) ;;
          ret (get_result o)
      | POST =>
          let payload := match data with
                         | Some d => py_or d (PDict [])
                         | None => PDict []
                         end in
          _make_request url payload
      end
  end.

Definition record (name0 : string) (passed0 : bool) (message0 : string)
    (details0 : pyval) : M unit :=
  fun s =>
    (ok tt,
     push_result {| name := name0; passed := passed0;
                    message := message0; details := details0 |} s).

(** *** Core RPC tests *)

Definition test_connection : M bool :=
  result <- rpc_call "system_health" None ;;
  has <- lift (py_in "result" result) ;;
  if has then
    health <- lift (py_getitem result "result") ;;
    peers <- lift (py_get health "peers" (PInt 0)) ;;
    syncing <- lift (py_get health "isSyncing" (PBool false)) ;;
    record "RPC Connection" true
      ("Connected - " ++ py_str peers ++ " peers, syncing=" ++ py_str syncing)
      health ;;
    ret true
  else
    err <- lift (py_get result "error" (PDict [])) ;;
    msg <- lift (py_get err "message" (PStr "Unknown error")) ;;
    record "RPC Connection" false ("Failed: " ++ py_str msg) PNone ;;
    ret false.

Definition test_chain_info : M pyval :=
  chain_result <- rpc_call "system_chain" None ;;
  chain_name <- lift (py_get chain_result "result" (PStr "Unknown")) ;;
  header_result <- rpc_call "chain_getHeader" None ;;
  has_header <- lift (py_in "result" header_result) ;;
  block_number <-
    (if has_header then
       header <- lift (py_getitem header_result "result") ;;
       number <- lift (py_get header "number" (PStr "0x0")) ;;
       lift (py_int16 number)
     else ret 0) ;;
  runtime_result <- rpc_call "state_getRuntimeVersion" None ;;
  has_runtime <- lift (py_in "result" runtime_result) ;;
  runtime_version <-
    (if has_runtime then
       runtime <- lift (py_getitem runtime_result "result") ;;
       spec_version <- lift (py_get runtime "specVersion" (PStr "?")) ;;
       ret ("v" ++ py_str spec_version)
     else ret "Unknown") ;;
  name_result <- rpc_call "system_name" None ;;
  node_name <- lift (py_get name_result "result" (PStr "Unknown")) ;;
  let info :=
    PDict [("chain", chain_name);
           ("block", PInt block_number);
           ("runtime", PStr runtime_version);
           ("node_name", node_name)] in
  record "Chain Info" true
    (py_str chain_name ++ " @ block #" ++ str_of_Z block_number ++
     " (" ++ runtime_version ++ ")")
    info ;;
  ret info.

Definition test_peers : M pyval :=
  result <- rpc_call "system_peers" None ;;
  has <- lift (py_in "result" result) ;;
  if has then
    peers <- lift (py_getitem result "result") ;;
    peer_count <- lift (py_len peers) ;;
    record "Peer Connections" (0 <? peer_count)
      (str_of_Z peer_count ++ " peers connected")
      (PDict [("peers", peers)]) ;;
    ret peers
  else
    record "Peer Connections" false "Failed to get peers" PNone ;;
    ret (PList []).

(** *** Faucet tests *)

Definition test_faucet_health : M bool :=
  fu <- get_faucet_url ;;
  match url_configured fu with
  | None =>
      record "Faucet Health" false "No faucet URL configured" PNone ;;
      ret false
  | Some _ =>
      result <- faucet_call "/health" GET None ;;
      has_error <- lift (py_in "error" result) ;;
      if has_error then
        err <- lift (py_getitem result "error") ;;
        error_msg <- lift (py_get err "message" (PStr "Unknown error")) ;;
        (if str_contains "502" (py_str error_msg)
            || str_contains "Bad Gateway" (py_str error_msg)
         then record "Faucet Health" false
                "502 Bad Gateway - Faucet service is down" PNone
         else if str_contains "Connection refused" (py_str error_msg)
         then record "Faucet Health" false
                "Connection refused - Faucet not running" PNone
         else record "Faucet Health" false
                ("Error: " ++ py_str error_msg) PNone) ;;
        ret false
      else
        status <- lift (py_get result "status" PNone) ;;
        healthy <-
          (if eq_str "ok" status then ret true
           else h <- lift (py_get result "healthy" PNone) ;; ret (truthy h)) ;;
        if healthy then
          record "Faucet Health" true "Faucet service is healthy" result ;;
          ret true
        else
          record "Faucet Health" true
            ("Faucet responded: " ++ py_str result) result ;;
          ret true
  end.

Definition test_faucet_drip (address : string) : M bool :=
  fu <- get_faucet_url ;;
  match url_configured fu with
  | None =>
      record "Faucet Drip" false "No faucet URL configured" PNone ;;
      ret false
  | Some _ =>
      result <- faucet_call "/drip" POST
                  (Some (PDict [("address", PStr address)])) ;;
      has_error <- lift (py_in "error" result) ;;
      if has_error then
        err <- lift (py_getitem result "error") ;;
        msg <- lift (py_get err "message" (PStr "Unknown")) ;;
        record "Faucet Drip" false ("Failed: " ++ py_str msg) PNone ;;
        ret false
      else
        success <- lift (py_get result "success" PNone) ;;
        sent_ok <-
          (if truthy success then ret true
           else h <- lift (py_get result "hash" PNone) ;; ret (truthy h)) ;;
        if sent_ok then
          tx <- lift (py_get result "hash" (PStr "pending")) ;;
          record "Faucet Drip" true ("Tokens sent! TX: " ++ py_str tx) result ;;
          ret true
        else
          record "Faucet Drip" false
            ("Unexpected response: " ++ py_str result) PNone ;;
          ret false
  end.

(** *** Account tests *)

Definition test_names : list string :=
  ["Bob"; "Charlie"; "Dave"; "Eve"; "Ferdie"].

(** [secrets.choice] takes the element at the index drawn below the
    length of the sequence. *)
Definition generate_test_account : M account :=
  let name0 :=
    nth (randbelow w (List.length test_names) mod List.length test_names)%nat
        test_names "Bob" in
  match assoc name0 DEV_ACCOUNTS with
  | None => lift (raise KeyError)
  | Some address =>
      record "Account Selection" true
        ("Using " ++ name0 ++ ": " ++ str_take 20 address ++ "...")
        (PDict [("address", PStr address); ("name", PStr name0)]) ;;
      ret {| acc_name := name0; acc_address := address; acc_type := "dev" |}
  end.

Definition test_account_balance (address : string) : M Z :=
  result <- rpc_call "system_account" (Some [PStr address]) ;;
  has <- lift (py_in "result" result) ;;
  found <-
    (if has then
       data <- lift (py_getitem result "result") ;;
       has_data <- (if truthy data then lift (py_in "data" data) else ret false) ;;
       if has_data then
         inner <- lift (py_getitem data "data") ;;
         free_v <- lift (py_get inner "free" (PInt 0)) ;;
         free <- lift (py_int free_v) ;;
         ret (Some free)
       else ret None
     else ret None) ;;
  match found with
  | Some free =>
      record "Account Balance" true
        ("Balance: " ++ str_of_Z free ++ " units")
        (PDict [("balance", PInt free)]) ;;
      ret free
  | None =>
      record "Account Balance" true "Balance: 0 (new account)"
        (PDict [("balance", PInt 0)]) ;;
      ret 0
  end.

(** *** QRNG tests *)

Definition test_qrng_config : M pyval :=
  result <- rpc_call "qrng_getConfig" None ;;
  has <- lift (py_in "result" result) ;;
  if has then
    config <- lift (py_getitem result "result") ;;
    k <- lift (py_get config "threshold_k" (PStr "?")) ;;
    m <- lift (py_get config "total_devices_m" (PStr "?")) ;;
    record "QRNG Config" true
      ("Threshold: " ++ py_str k ++ "-of-" ++ py_str m) config ;;
    ret config
  else
    record "QRNG Config" false "Failed to get config" PNone ;;
    ret (PDict []).

(** [len(v) if isinstance(v, list) else 0] *)
Definition list_count (v : pyval) : Z :=
  match v with
  | PList l => Z.of_nat (List.length l)
  | _ => 0
  end.

Definition test_qrng_device_queues : M pyval :=
  result <- rpc_call "qrng_getDeviceQueues" None ;;
  has <- lift (py_in "result" result) ;;
  if has then
    queues <- lift (py_getitem result "result") ;;
    let queue_count := list_count queues in
    record "QRNG Queues" true
      (str_of_Z queue_count ++ " device queues") queues ;;
    ret queues
  else
    record "QRNG Queues" false "Failed to get device queues" PNone ;;
    ret (PDict []).

Definition test_qrng_reconstruction : M pyval :=
  result <- rpc_call "qrng_getReconstructionHistory" (Some [PInt 10]) ;;
  has <- lift (py_in "result" result) ;;
  if has then
    history <- lift (py_getitem result "result") ;;
    let count := list_count history in
    record "QRNG History" true
      (str_of_Z count ++ " reconstructions") (PDict [("count", PInt count)]) ;;
    ret history
  else
    record "QRNG History" false "Failed to get history" PNone ;;
    ret (PList []).

(** *** Notarial tests *)

Definition test_notarial_service : M bool :=
  result <- rpc_call "notarial_getAttestationsByOwner" (Some [PStr alice]) ;;
  has <- lift (py_in "result" result) ;;
  if has then
    r <- lift (py_getitem result "result") ;;
    let attestations := py_or r (PList []) in
    let count := list_count attestations in
    record "Notarial Service" true
      (str_of_Z count ++ " attestations found")
      (PDict [("count", PInt count)]) ;;
    ret true
  else
    has_error <- lift (py_in "error" result) ;;
    if has_error then
      err <- lift (py_getitem result "error") ;;
      code <- lift (py_get err "code" PNone) ;;
      if eq_int (-32601) code then
        record "Notarial Service" false "Notarial RPC not available" PNone ;;
        ret false
      else
        record "Notarial Service" true "Notarial service responding" result ;;
        ret true
    else
      record "Notarial Service" false "Unexpected response" PNone ;;
      ret false.

(** *** Governance tests *)

Definition test_governance_stats : M pyval :=
  result <- rpc_call "quantumharmony_getGovernanceStats" None ;;
  has <- lift (py_in "result" result) ;;
  if has then
    stats <- lift (py_getitem result "result") ;;
    record "Governance Stats" true "Stats retrieved" stats ;;
    ret stats
  else
    record "Governance Stats" false "Failed to get governance stats" PNone ;;
    ret (PDict []).

Definition test_proposals : M pyval :=
  result <- rpc_call "quantumharmony_getProposals" None ;;
  has <- lift (py_in "result" result) ;;
  if has then
    r <- lift (py_getitem result "result") ;;
    let proposals := py_or r (PList []) in
    let count := list_count proposals in
    record "Proposals" true
      (str_of_Z count ++ " proposals") (PDict [("count", PInt count)]) ;;
    ret proposals
  else
    record "Proposals" false "Failed to get proposals" PNone ;;
    ret (PList []).

Definition test_validator_set : M pyval :=
  result <- rpc_call "quantumharmony_getValidatorSet" None ;;
  has <- lift (py_in "result" result) ;;
  if has then
    r <- lift (py_getitem result "result") ;;
    let validators := py_or r (PList []) in
    let count := list_count validators in
    record "Validator Set" true
      (str_of_Z count ++ " validators") (PDict [("count", PInt count)]) ;;
    ret validators
  else
    record "Validator Set" false "Failed to get validator set" PNone ;;
    ret (PList []).

Definition test_rewards_info (address : option string) : M pyval :=
  let address0 :=
    match address with
    | Some a => if String.eqb a EmptyString then alice else a
    | None => alice
    end in
  result <- rpc_call "quantumharmony_getRewardsInfo" (Some [PStr address0]) ;;
  has <- lift (py_in "result" result) ;;
  if has then
    rewards <- lift (py_getitem result "result") ;;
    pending <- lift (py_get rewards "pending_rewards" (PStr "0")) ;;
    multiplier <- lift (py_get rewards "reward_multiplier" (PStr "?")) ;;
    record "Rewards Info" true
      ("Pending: " ++ py_str pending ++ ", Multiplier: " ++ py_str multiplier)
      rewards ;;
    ret rewards
  else
    record "Rewards Info" false "Failed to get rewards info" PNone ;;
    ret (PDict []).

(** *** Gateway tests *)

Definition test_gateway_balance (address : string) : M pyval :=
  result <- rpc_call "gateway_balance" (Some [PStr address]) ;;
  has <- lift (py_in "result" result) ;;
  if has then
    balance <- lift (py_getitem result "result") ;;
    record "Gateway Balance" true ("Balance: " ++ py_str balance)
      (PDict [("balance", balance)]) ;;
    ret (if isinstance_int balance then balance else PInt 0)
  else
    record "Gateway Balance" false "Failed to get balance" PNone ;;
    ret (PInt 0).

Definition test_gateway_nonce (address : string) : M pyval :=
  result <- rpc_call "gateway_nonce" (Some [PStr address]) ;;
  has <- lift (py_in "result" result) ;;
  if has then
    nonce <- lift (py_getitem result "result") ;;
    record "Gateway Nonce" true ("Nonce: " ++ py_str nonce)
      (PDict [("nonce", nonce)]) ;;
    ret (if isinstance_int nonce then nonce else PInt 0)
  else
    record "Gateway Nonce" false "Failed to get nonce" PNone ;;
    ret (PInt 0).

(** *** Summary *)

Inductive status : Type := ONLINE | OFFLINE | UNKNOWN.

(** The [services] dict of [print_summary], in its order. *)
Definition services : list (string * string) :=
  [("RPC Connection", "RPC");
   ("Faucet Health", "Faucet");
   ("QRNG Config", "QRNG");
   ("Notarial Service", "Notarial");
   ("Governance Stats", "Governance");
   ("Validator Set", "Validators")].

(** [next((r for r in results if r.name == test_name), None)] and the status
    printed for it. *)
Definition service_status (log : list TestResult) (test_name : string)
  : status :=
  match find (fun r => String.eqb (name r) test_name) log with
  | Some r => if passed r then ONLINE else OFFLINE
  | None => UNKNOWN
  end.

(** What [print_summary] prints. *)
Record summary : Type := {
  sum_passed : nat;
  sum_failed : nat;
  sum_total : nat;
  sum_failures : list (string * string);
  sum_table : list (string * status)
}.

Definition summarize (log : list TestResult) : summary :=
  let failed := List.length (filter (fun r => negb (passed r)) log) in
  {| sum_passed := List.length (filter passed log);
     sum_failed := failed;
     sum_total := List.length log;
     sum_failures :=
       if (0 <? failed)%nat
       then map (fun r => (name r, message r))
                (filter (fun r => negb (passed r)) log)
       else [];
     sum_table :=
       map (fun '(test_name, display_name) =>
              (display_name, service_status log test_name))
           services |}.

Definition print_summary : M summary :=
  fun s => (ok (summarize (results s)), s).

(** *** Pipelines *)

(** Both pipelines return what they printed as summary, [None] when they
    aborted before it. *)
Definition run_health_check : M (option summary) :=
  connected <- test_connection ;;
  if negb connected then ret None
  else
    test_chain_info ;;
    test_peers ;;
    test_faucet_health ;;
    test_qrng_config ;;
    test_notarial_service ;;
    test_governance_stats ;;
    test_validator_set ;;
    sm <- print_summary ;;
    ret (Some sm).

Definition run_full_test : M (option summary) :=
  connected <- test_connection ;;
  if negb connected then ret None
  else
    test_chain_info ;;
    test_peers ;;
    faucet_healthy <- test_faucet_health ;;
    acct <- generate_test_account ;;
    test_account_balance (acc_address acct) ;;
    (if faucet_healthy then
       test_faucet_drip (acc_address acct) ;;
       (* time.sleep(2) *)
       test_account_balance (acc_address acct) ;;
       ret tt
     else ret tt) ;;
    test_gateway_balance alice ;;
    test_gateway_nonce alice ;;
    test_qrng_config ;;
    test_qrng_device_queues ;;
    test_qrng_reconstruction ;;
    test_notarial_service ;;
    test_governance_stats ;;
    test_proposals ;;
    test_validator_set ;;
    test_rewards_info None ;;
    sm <- print_summary ;;
    ret (Some sm).


(** ** The QRNG simulator *)

(** The module-level [stats] dict. *)
Record stats : Type := {
  requests : Z;
  bytes_generated : Z;
  start_time : float
}.

(** [request.args.get(key, default=d, type=int)]: the first value given for
    the key, converted; the default when the key is absent or the
    conversion raises. *)
Definition args_get_int (args : list (string * string)) (key : string)
    (default : Z) : Z :=
  match assoc key args with
  | None => default
  | Some raw =>
      match parse_int 10 raw with
      | Some n => n
      | None => default
      end
  end.

(** [secrets.token_bytes(n)]: the next [n] bytes of the system's entropy. *)
Definition token_bytes (entropy : nat -> byte) (n : nat) : list byte :=
  map entropy (seq 0 n).

(** [list(bs)] of a [bytes] *)
Definition list_of_bytes (bs : list byte) : list pyval :=
  map (fun b => PInt (Z.of_N (Byte.to_N b))) bs.

(** The handler of [GET /v1/random]: [args] is the query string, [entropy]
    the bytes the system delivers, [now_ms] the value of
    [int(time.time() * 1000)].  It returns the body given to [jsonify]. *)
Definition get_random (args : list (string * string)) (entropy : nat -> byte)
    (now_ms : Z) (st : stats) : pyval * stats :=
  let length0 := args_get_int args "length" 32 in
  let length1 := if length0 <? 1 then 1 else length0 in
  let length2 := if 1024 <? length1 then 1024 else length1 in
  let random_bytes := list_of_bytes (token_bytes entropy (Z.to_nat length2)) in
  (PDict [("random_bytes", PList random_bytes);
          ("length", PInt length2);
          ("source", PStr "crypto4a-simulator");
          ("timestamp", PInt now_ms);
          ("entropy_quality", PStr "simulated")],
   {| requests := requests st + 1;
      bytes_generated := bytes_generated st + length2;
      start_time := start_time st |}).

(** ** Notions the properties are stated with *)

(** The id of a JSON-RPC envelope, for a request that carries one. *)
Definition envelope_id (r : request) : option Z :=
  match r with
  | Post _ (PDict d) =>
      match lookup "jsonrpc" d, lookup "id" d with
      | Some _, Some (PInt i) => Some i
      | _, _ => None
      end
  | _ => None
  end.

(** The ids of the envelopes among the requests sent, in issue order. *)
Fixpoint issued_ids (l : list request) : list Z :=
  match l with
  | [] => []
  | r :: l' =>
      match envelope_id r with
      | Some i => i :: issued_ids l'
      | None => issued_ids l'
      end
  end.

(** The url of each envelope sent. *)
Fixpoint envelope_urls (l : list request) : list string :=
  match l with
  | [] => []
  | r :: l' =>
      match r, envelope_id r with
      | Post url _, Some _ => url :: envelope_urls l'
      | _, _ => envelope_urls l'
      end
  end.

(** The [params] of each envelope sent for [method]. *)
Fixpoint calls_of (method : string) (l : list request) : list pyval :=
  match l with
  | [] => []
  | Post _ (PDict d) :: l' =>
      match lookup "method" d, lookup "params" d with
      | Some m, Some p =>
          if eq_str method m then p :: calls_of method l'
          else calls_of method l'
      | _, _ => calls_of method l'
      end
  | _ :: l' => calls_of method l'
  end.

(** [1, 2, ..., n] *)
Definition ids_upto (n : nat) : list Z := map Z.of_nat (seq 1 n).

(** The ids issued are [1 .. rpc_id]. *)
Definition ids_inv (s : NodeAgent) : Prop :=
  0 <= rpc_id s /\ issued_ids (sent s) = ids_upto (Z.to_nat (rpc_id s)).

(** Every envelope went to [u], and [u] is still the node url. *)
Definition url_inv (u : string) (s : NodeAgent) : Prop :=
  node_url s = u /\ Forall (eq u) (envelope_urls (sent s)).

(** A method keeps a property of the agent, whether it returns or raises. *)
Definition preserves (P : NodeAgent -> Prop) {A : Type} (m : M A) : Prop :=
  forall s, P s -> P (snd (m s)).

(** [s'] is [s] with one more result [r], named [nm], and with the calls
    [q] of [system_account] sent. *)
Definition appended (nm : string) (q : list pyval) (s s' : NodeAgent)
    (r : TestResult) : Prop :=
  results s' = (results s ++ [r])%list /\
  name r = nm /\
  calls_of "system_account" (sent s') =
    (calls_of "system_account" (sent s) ++ q)%list.

Definition is_ok {A : Type} (r : res A) : bool :=
  match r with inr _ => true | inl _ => false end.

Definition is_dict (v : pyval) : bool :=
  match v with PDict _ => true | _ => false end.

Definition method_of (payload : pyval) : string :=
  match payload with
  | PDict d => match lookup "method" d with Some (PStr m) => m | _ => EmptyString end
  | _ => EmptyString
  end.

(** The default limit of [str] on the decimal digits of an int, above
    which it raises [ValueError] (Python 3.11 and later; earlier versions
    have none). *)
Definition max_str_digits : nat := 4300.

(** [str(n)] returns. *)
Definition int_printable (n : Z) : bool :=
  (String.length (str_of_Z (Z.abs n)) <=? max_str_digits)%nat.

Arguments int_printable : simpl never.

Definition byte_between (lo hi : nat) (c : ascii) : bool :=
  ((lo <=? nat_of_ascii c) && (nat_of_ascii c <=? hi))%nat.

(** The second byte of a three-byte and of a four-byte sequence led by
    [a]: the ranges that leave out the overlong forms, the surrogates
    ([ED A0..BF]) and what lies above U+10FFFF. *)
Definition second_of_three (a b : ascii) : bool :=
  if (nat_of_ascii a =? 224)%nat then byte_between 160 191 b
  else if (nat_of_ascii a =? 237)%nat then byte_between 128 159 b
  else byte_between 128 191 b.

Definition second_of_four (a b : ascii) : bool :=
  if (nat_of_ascii a =? 240)%nat then byte_between 144 191 b
  else if (nat_of_ascii a =? 244)%nat then byte_between 128 143 b
  else byte_between 128 191 b.

(** The text is well-formed UTF-8, the encoding of a [str] without a lone
    surrogate: what [print] can write to a UTF-8 console.  (A lone
    surrogate, which [json.loads] lets through, would be held as the three
    bytes [ED A0..BF 80..BF].) *)
Fixpoint well_formed (s : string) : bool :=
  match s with
  | EmptyString => true
  | String a t =>
      if byte_between 0 127 a then well_formed t
      else
        match t with
        | EmptyString => false
        | String b t1 =>
            if byte_between 194 223 a then continues b && well_formed t1
            else
              match t1 with
              | EmptyString => false
              | String c t2 =>
                  if byte_between 224 239 a then
                    second_of_three a b && continues c && well_formed t2
                  else
                    match t2 with
                    | EmptyString => false
                    | String d t3 =>
                        byte_between 240 244 a && second_of_four a b &&
                        continues c && continues d && well_formed t3
                    end
              end
        end
  end.

(** A value whose messages can be formatted and printed: every text in
    it, keys included, is well formed, and every int is within the limit
    of [str]. *)
Fixpoint printable (v : pyval) : bool :=
  match v with
  | PInt n => int_printable n
  | PStr s => well_formed s
  | PList l => forallb printable l
  | PDict d =>
      (fix members (d : list (string * pyval)) : bool :=
         match d with
         | [] => true
         | (k, x) :: d' => well_formed k && printable x && members d'
         end) d
  | _ => true
  end.

(** [convert v] returns an int that [str] can print. *)
Definition printable_int (r : res Z) : bool :=
  match r with
  | inr n => int_printable n
  | inl _ => false
  end.

(** A [result] of [system_account] the balance probe can read: a falsy
    value, or an object whose [data], when present, is an object whose
    [free], when present, converts to an int that can be printed. *)
Definition account_readable (v : pyval) : bool :=
  negb (truthy v) ||
  match v with
  | PDict d =>
      match lookup "data" d with
      | None => true
      | Some (PDict inner) =>
          match lookup "free" inner with
          | None => true
          | Some free => printable_int (py_int free)
          end
      | Some _ => false
      end
  | _ => false
  end.

(** The type at which the probes read the [result] of each method: an
    object for the methods whose fields they read (the [number] of a
    header, when present, a hexadecimal text worth an int that can be
    printed), a sized value for [system_peers], anything for the others. *)
Definition readable_result (method : string) (v : pyval) : bool :=
  if String.eqb method "system_health" then is_dict v
  else if String.eqb method "chain_getHeader" then
    match v with
    | PDict d =>
        match lookup "number" d with
        | None => true
        | Some n => printable_int (py_int16 n)
        end
    | _ => false
    end
  else if String.eqb method "state_getRuntimeVersion" then is_dict v
  else if String.eqb method "system_peers" then is_ok (py_len v)
  else if String.eqb method "system_account" then account_readable v
  else if String.eqb method "qrng_getConfig" then is_dict v
  else if String.eqb method "quantumharmony_getRewardsInfo" then is_dict v
  else true.

(** A decoded body the probes can read and report: a printable object
    whose [error], when present, is an object, and whose [result], when
    present, has the type the method is read at. *)
Definition readable (r : request) (v : pyval) : bool :=
  match v with
  | PDict d =>
      printable v &&
      match lookup "error" d with
      | None => true
      | Some e => is_dict e
      end &&
      match r, lookup "result" d with
      | Post _ payload, Some x => readable_result (method_of payload) x
      | _, _ => true
      end
  | _ => false
  end.

(** Every body the network delivers is readable (transport failures are
    not bodies and are unconstrained). *)
Definition readable_world : Prop :=
  forall l r v, respond w l r = Body v -> readable r v = true.

(** [p] returns, having appended exactly one result. *)
Definition once (p : M unit) : Prop :=
  forall s,
    exists r s', p s = (ok tt, s') /\ results s' = (results s ++ [r])%list.

(** [m] run for its effect only. *)
Definition ignore {A : Type} (m : M A) : M unit := _ <- m ;; ret tt.

(** Every probe of the agent. *)
Definition probes (address : string) (rewards_address : option string)
  : list (M unit) :=
  [ignore test_connection;
   ignore test_chain_info;
   ignore test_peers;
   ignore test_faucet_health;
   ignore (test_faucet_drip address);
   ignore generate_test_account;
   ignore (test_account_balance address);
   ignore test_qrng_config;
   ignore test_qrng_device_queues;
   ignore test_qrng_reconstruction;
   ignore test_notarial_service;
   ignore test_governance_stats;
   ignore test_proposals;
   ignore test_validator_set;
   ignore (test_rewards_info rewards_address);
   ignore (test_gateway_balance address);
   ignore (test_gateway_nonce address)].


(** [error.get("message", "Unknown error")] *)
Definition error_message (e : list (string * pyval)) : pyval :=
  match lookup "message" e with Some m => m | None => PStr "Unknown error" end.

(** The status the specification asks of the table: the entry recorded last
    under the name decides. *)
Definition most_recent_status (log : list TestResult) (test_name : string)
  : status :=
  match find (fun r => String.eqb (name r) test_name) (rev log) with
  | Some r => if passed r then ONLINE else OFFLINE
  | None => UNKNOWN
  end.

Definition clamp (n : Z) : Z := Z.max 1 (Z.min 1024 n).

Definition byte_valued (v : pyval) : Prop :=
  exists n, v = PInt n /\ 0 <= n <= 255.

(** The body of [/v1/random] for a requested length [n], the timestamp
    being carried under the key [ts_key]. *)
Definition random_body (ts_key : string) (n : Z) (body : pyval) : Prop :=
  exists d bytes,
    body = PDict d /\
    lookup "length" d = Some (PInt (clamp n)) /\
    lookup "random_bytes" d = Some (PList bytes) /\
    Z.of_nat (List.length bytes) = clamp n /\
    Forall byte_valued bytes /\
    has_key "source" d = true /\
    has_key ts_key d = true /\
    has_key "entropy_quality" d = true.

(** The names the full pipeline records when it runs to its end. *)
Definition full_names (faucet_healthy : bool) : list string :=
  (["RPC Connection"; "Chain Info"; "Peer Connections"; "Faucet Health";
    "Account Selection"; "Account Balance"] ++
   (if faucet_healthy then ["Faucet Drip"; "Account Balance"] else []) ++
   ["Gateway Balance"; "Gateway Nonce"; "QRNG Config"; "QRNG Queues";
    "QRNG History"; "Notarial Service"; "Governance Stats"; "Proposals";
    "Validator Set"; "Rewards Info"])%list.

(** ** Worlds and builtins used in the examples *)

(** A network that gives the same outcome to every request. *)
Definition always (o : outcome) : world :=
  {| respond := fun _ _ => o; randbelow := fun _ => O |}.

Definition refused : outcome := URLError "[Errno 111] Connection refused".

(** A network whose node answers every call with an empty object as
    [result] and whose faucet is the same server. *)
Definition empty_results : world :=
  always (Body (PDict [("result", PDict [])])).

(** A node that answers every call with [null] as [result]. *)
Definition null_results : world :=
  always (Body (PDict [("result", PNone)])).

(** A node that answers every call with the empty list as [result]. *)
Definition empty_lists : world :=
  always (Body (PDict [("result", PList [])])).


(** A faucet that answers with a text as [error]. *)
Definition rate_limited : world :=
  always (Body (PDict [("error", PStr "rate limited")])).

(** A faucet behind a proxy that answers 502. *)
Definition bad_gateway : world := always (HTTPError 502 "Bad Gateway").

(** An agent as [main] builds it for a local node. *)
Definition local_agent : NodeAgent :=
  __init__ "ws://localhost:9944" (Some "http://localhost:3000").

(** A log in which the connectivity probe was recorded twice, failing
    first and passing last. *)
Definition retry_log : list TestResult :=
  [{| name := "RPC Connection"; passed := false;
      message := "Failed: timed out"; details := PNone |};
   {| name := "RPC Connection"; passed := true;
      message := "Connected - 3 peers, syncing=False";
      details := PDict [("peers", PInt 3)] |}].

Definition repr_opaque : pyval -> string := fun _ => "<value>".

(** A parser that knows the literals ["0x0"] and ["0"] only. *)
Definition parse_zero : Z -> string -> option Z :=
  fun _ s => if String.eqb s "0x0" || String.eqb s "0" then Some 0 else None.

Definition entropy_zero : nat -> byte := fun _ => x00.

Definition fresh_stats : stats :=
  {| requests := 0; bytes_generated := 0; start_time := 0%float |}.

(** ** The command line and the other endpoints of the simulator *)

(** What [argparse] hands to [main]. *)
Record arguments : Type := {
  arg_node : string;
  arg_faucet : option string;
  arg_full_test : bool;
  arg_health : bool
}.

(** The faucet url [main] gives the agent: the one on the command line, or
    one guessed from the node url as typed. *)
Definition main_faucet_url (a : arguments) : option string :=
  match url_configured (arg_faucet a) with
  | Some _ => arg_faucet a
  | None =>
      if str_contains "localhost" (arg_node a)
         || str_contains "127.0.0.1" (arg_node a)
      then Some "http://localhost:3000"
      else if str_contains "51.79.26" (arg_node a)
      then Some "http://51.79.26.123:3000"
      else arg_faucet a
  end.

Definition main (a : arguments) : res (option summary) * NodeAgent :=
  let agent := __init__ (arg_node a) (main_faucet_url a) in
  if arg_full_test a then run_full_test agent else run_health_check agent.

Definition hex_digits : string := "0123456789abcdef".

Definition hex_digit (n : nat) : ascii :=
  match String.get n hex_digits with
  | Some c => c
  | None => "0"%char
  end.

(** The two lower-case digits [bytes.hex] writes for a byte. *)
Definition hex_of_byte (b : byte) : string :=
  let n := N.to_nat (Byte.to_N b) in
  String (hex_digit (n / 16)) (String (hex_digit (n mod 16)) EmptyString).

(** [secrets.token_hex(n)] is [token_bytes(n).hex()]. *)
Definition token_hex (entropy : nat -> byte) (n : nat) : string :=
  fold_right append EmptyString (map hex_of_byte (token_bytes entropy n)).

(** The handler of [GET /v1/random/hex]. *)
Definition get_random_hex (args : list (string * string))
    (entropy : nat -> byte) (now_ms : Z) (st : stats) : pyval * stats :=
  let length0 := args_get_int args "length" 32 in
  let length1 := if length0 <? 1 then 1 else length0 in
  let length2 := if 1024 <? length1 then 1024 else length1 in
  let random_hex := token_hex entropy (Z.to_nat length2) in
  (PDict [("random_hex", PStr random_hex);
          ("length", PInt length2);
          ("source", PStr "crypto4a-simulator");
          ("timestamp", PInt now_ms)],
   {| requests := requests st + 1;
      bytes_generated := bytes_generated st + length2;
      start_time := start_time st |}).

(** A request for random data, with the entropy and the clock it meets. *)
Inductive random_route : Type :=
| Random (args : list (string * string))
| RandomHex (args : list (string * string)).

Record arrival : Type := {
  route : random_route;
  entropy_then : nat -> byte;
  clock_ms : Z
}.

Definition serve (a : arrival) (st : stats) : pyval * stats :=
  match route a with
  | Random args => get_random args (entropy_then a) (clock_ms a) st
  | RandomHex args => get_random_hex args (entropy_then a) (clock_ms a) st
  end.

(** The statistics after the requests of [l], served one after the other. *)
Fixpoint serve_all (l : list arrival) (st : stats) : stats :=
  match l with
  | [] => st
  | a :: l' => serve_all l' (snd (serve a st))
  end.

(** The outcomes that are failures of the request. *)
Definition transport_failure (o : outcome) : bool :=
  match o with Body _ => false | _ => true end.

(** A network on which no request gets a body. *)
Definition unreachable : Prop :=
  forall l r, transport_failure (respond w l r) = true.

(** The names the health pipeline records when it runs to its end. *)
Definition health_names : list string :=
  ["RPC Connection"; "Chain Info"; "Peer Connections"; "Faucet Health";
   "QRNG Config"; "Notarial Service"; "Governance Stats"; "Validator Set"].

(** A JSON-RPC envelope posted to [u]. *)
Definition is_rpc_to (u : string) (r : request) : bool :=
  match r with
  | Post url _ =>
      String.eqb url u &&
      match envelope_id r with Some _ => true | None => false end
  | Get _ => false
  end.


(** The [code] and the [message] [_make_request] gives a failure. *)
Definition failure_code (o : outcome) : Z :=
  match o with
  | HTTPError code _ => code
  | _ => -1
  end.

Definition failure_text (o : outcome) : string :=
  match o with
  | Body _ => EmptyString
  | HTTPError code msg => str_HTTPError code msg
  | URLError reason => reason
  | OtherException text => text
  end.

(** [s'] has the endpoints of [s0]. *)
Definition same_endpoints (s0 s' : NodeAgent) : Prop :=
  node_url s' = node_url s0 /\ faucet_url s' = faucet_url s0.

(** Given the response object of its call, [probe] returns, and the one
    entry it records, named [nm], is passed exactly when the object has a
    [result] member. *)
Definition result_decides {A : Type} (method : string)
    (params : option (list pyval)) (nm : string) (probe : M A) : Prop :=
  forall s d s1,
    rpc_call method params s = (ok (PDict d), s1) ->
    exists a r,
      probe s = (ok a, push_result r s1) /\
      name r = nm /\ passed r = has_key "result" d.


(** A gateway that sends its numbers as text. *)
Definition text_results : world :=
  always (Body (PDict [("result", PStr "1000")])).

(** The command line [--node ws://localhost:9944]. *)
Definition local_arguments : arguments :=
  {| arg_node := "ws://localhost:9944"; arg_faucet := None;
     arg_full_test := false; arg_health := false |}.

(** An agent without faucet. *)
Definition bare_agent : NodeAgent := __init__ "http://node.example:9944" None.

(** The names the full pipeline records after the account tests. *)
Definition service_names : list string :=
  ["Gateway Balance"; "Gateway Nonce"; "QRNG Config"; "QRNG Queues";
   "QRNG History"; "Notarial Service"; "Governance Stats"; "Proposals";
   "Validator Set"; "Rewards Info"].

(** [run_full_test] from the gateway tests on. *)
Definition service_tests : M (option summary) :=
  test_gateway_balance alice ;;
  test_gateway_nonce alice ;;
  test_qrng_config ;;
  test_qrng_device_queues ;;
  test_qrng_reconstruction ;;
  test_notarial_service ;;
  test_governance_stats ;;
  test_proposals ;;
  test_validator_set ;;
  test_rewards_info None ;;
  sm <- print_summary ;;
  ret (Some sm).

(** Whether [m] returns or raises, it leaves the log it found followed by
    entries named by a prefix of [names], and it makes no [system_account]
    call; when it returns, the entries are named by all of [names] and it
    returns the summary of the log. *)
Definition records_within (names : list string) (m : M (option summary))
  : Prop :=
  forall s,
    exists rest k,
      results (snd (m s)) = (results s ++ rest)%list /\
      map name rest = firstn k names /\
      calls_of "system_account" (sent (snd (m s))) =
        calls_of "system_account" (sent s) /\
      (forall out,
          fst (m s) = ok out ->
          out = Some (summarize (results (snd (m s)))) /\
          map name rest = names).

(** A network whose faucet is healthy and pays, and whose node reports a
    [free] of 0 at the first balance query and [again] at the later ones;
    every other call is answered with an empty object as [result]. *)
Definition faucet_pays (again : pyval) : world :=
  {| respond := fun l r =>
       match r with
       | Get _ => Body (PDict [("status", PStr "ok")])
       | Post _ payload =>
           if String.eqb (method_of payload) "system_account" then
             Body (PDict [("result",
                           PDict [("data",
                                   PDict [("free",
                                           match calls_of "system_account" l with
                                           | [] => PInt 0
                                           | _ => again
                                           end)])])])
           else if String.eqb (method_of payload) EmptyString then
             Body (PDict [("success", PBool true); ("hash", PStr "0xabc")])
           else Body (PDict [("result", PDict [])])
       end;
     randbelow := fun _ => O |}.

(** ** Running a method *)

Lemma bind_ok_inv {A B : Type} (m : M A) (f : A -> M B) s b s' :
  bind m f s = (ok b, s') ->
  exists a s1, m s = (ok a, s1) /\ f a s1 = (ok b, s').
Proof.
  unfold bind. destruct (m s) as [[e | a] s1]; intros H.
  - discriminate H.
  - exists a, s1. split; [reflexivity | exact H].
Qed.

Lemma bind_ok {A B : Type} (m : M A) (f : A -> M B) s a s1 :
  m s = (ok a, s1) -> bind m f s = f a s1.
Proof. unfold bind. intros ->. reflexivity. Qed.

Lemma rpc_call_run method params s :
  rpc_call method params s =
  (ok (post_result
         (respond w (sent s)
            (Post (node_url s) (envelope (rpc_id s + 1) method params)))),
   push_sent (Post (node_url s) (envelope (rpc_id s + 1) method params))
     (bump_id s)).
Proof. reflexivity. Qed.

Lemma issued_ids_app l l' :
  issued_ids (l ++ l') = (issued_ids l ++ issued_ids l')%list.
Proof.
  induction l as [| r l IH]; cbn [issued_ids app]; [reflexivity |].
  destruct (envelope_id r); rewrite IH; reflexivity.
Qed.

Lemma envelope_urls_app l l' :
  envelope_urls (l ++ l') = (envelope_urls l ++ envelope_urls l')%list.
Proof.
  induction l as [| r l IH]; cbn [envelope_urls app]; [reflexivity |].
  destruct r as [url payload | url]; [| exact IH].
  destruct (envelope_id (Post url payload)); rewrite IH; reflexivity.
Qed.

Lemma calls_of_app method l l' :
  calls_of method (l ++ l') = (calls_of method l ++ calls_of method l')%list.
Proof.
  induction l as [| r l IH]; cbn [calls_of app]; [reflexivity |].
  destruct r as [url [| | | | | |d] | url]; try exact IH.
  destruct (lookup "method" d); [| exact IH].
  destruct (lookup "params" d); [| exact IH].
  destruct (eq_str method p); rewrite IH; reflexivity.
Qed.

Lemma ids_upto_succ n : ids_upto (S n) = (ids_upto n ++ [Z.of_nat (S n)])%list.
Proof. unfold ids_upto. rewrite seq_S, map_app. reflexivity. Qed.

Lemma ids_upto_length n : List.length (ids_upto n) = n.
Proof. unfold ids_upto. rewrite length_map, length_seq. reflexivity. Qed.

Lemma ids_from_sorted a n : StronglySorted Z.lt (map Z.of_nat (seq a n)).
Proof.
  revert a. induction n as [| n IH]; intros a; cbn [seq map].
  - constructor.
  - constructor; [apply IH |].
    apply Forall_forall. intros x Hx.
    apply in_map_iff in Hx. destruct Hx as (k & <- & Hk).
    apply in_seq in Hk. lia.
Qed.

Lemma ids_upto_NoDup n : NoDup (ids_upto n).
Proof.
  unfold ids_upto. apply Injective_map_NoDup.
  - intros x y H. apply Nat2Z.inj. exact H.
  - apply seq_NoDup.
Qed.

(** ** Properties every method keeps *)

Lemma preserves_ret P {A : Type} (a : A) : preserves P (ret a).
Proof. intros s Hs. exact Hs. Qed.

Lemma preserves_lift P {A : Type} (r : res A) : preserves P (lift r).
Proof. intros s Hs. exact Hs. Qed.

Lemma preserves_get_faucet_url P : preserves P get_faucet_url.
Proof. intros s Hs. exact Hs. Qed.

Lemma preserves_print_summary P : preserves P print_summary.
Proof. intros s Hs. exact Hs. Qed.

Lemma preserves_bind P {A B : Type} (m : M A) (f : A -> M B) :
  preserves P m -> (forall a, preserves P (f a)) -> preserves P (bind m f).
Proof.
  intros Hm Hf s Hs. unfold bind. specialize (Hm s Hs).
  destruct (m s) as [[e | a] s1]; cbn [snd] in *.
  - exact Hm.
  - apply Hf. exact Hm.
Qed.

Section Preservation.

(** A property kept by the three methods that change the agent is kept by
    every probe and by both pipelines. *)
Variable P : NodeAgent -> Prop.

Hypothesis P_record : forall nm p msg d, preserves P (record nm p msg d).
Hypothesis P_rpc_call : forall method params, preserves P (rpc_call method params).
Hypothesis P_health : preserves P (faucet_call "/health" GET None).
Hypothesis P_drip :
  forall address,
    preserves P (faucet_call "/drip" POST (Some (PDict [("address", PStr address)]))).

Ltac keep :=
  repeat first
    [ apply preserves_ret
    | apply preserves_lift
    | apply preserves_get_faucet_url
    | apply P_record
    | apply P_rpc_call
    | apply P_health
    | apply P_drip
    | apply preserves_bind; [| intros ?]
    | match goal with
      | |- preserves _ (if ?b then _ else _) => destruct b
      | |- preserves _ (match ?x with _ => _ end) => destruct x
      end
    | progress cbv zeta ].

Lemma test_connection_keeps : preserves P test_connection.
Proof. unfold test_connection. keep. Qed.

Lemma test_chain_info_keeps : preserves P test_chain_info.
Proof. unfold test_chain_info. keep. Qed.

Lemma test_peers_keeps : preserves P test_peers.
Proof. unfold test_peers. keep. Qed.

Lemma test_faucet_health_keeps : preserves P test_faucet_health.
Proof. unfold test_faucet_health. keep. Qed.

Lemma test_faucet_drip_keeps address : preserves P (test_faucet_drip address).
Proof. unfold test_faucet_drip. keep. Qed.

Lemma generate_test_account_keeps : preserves P generate_test_account.
Proof. unfold generate_test_account. keep. Qed.

Lemma test_account_balance_keeps address :
  preserves P (test_account_balance address).
Proof. unfold test_account_balance. keep. Qed.

Lemma test_qrng_config_keeps : preserves P test_qrng_config.
Proof. unfold test_qrng_config. keep. Qed.

Lemma test_qrng_device_queues_keeps : preserves P test_qrng_device_queues.
Proof. unfold test_qrng_device_queues. keep. Qed.

Lemma test_qrng_reconstruction_keeps : preserves P test_qrng_reconstruction.
Proof. unfold test_qrng_reconstruction. keep. Qed.

Lemma test_notarial_service_keeps : preserves P test_notarial_service.
Proof. unfold test_notarial_service. keep. Qed.

Lemma test_governance_stats_keeps : preserves P test_governance_stats.
Proof. unfold test_governance_stats. keep. Qed.

Lemma test_proposals_keeps : preserves P test_proposals.
Proof. unfold test_proposals. keep. Qed.

Lemma test_validator_set_keeps : preserves P test_validator_set.
Proof. unfold test_validator_set. keep. Qed.

Lemma test_rewards_info_keeps address : preserves P (test_rewards_info address).
Proof. unfold test_rewards_info. keep. Qed.

Lemma test_gateway_balance_keeps address :
  preserves P (test_gateway_balance address).
Proof. unfold test_gateway_balance. keep. Qed.

Lemma test_gateway_nonce_keeps address :
  preserves P (test_gateway_nonce address).
Proof. unfold test_gateway_nonce. keep. Qed.

Ltac keep_pipeline :=
  repeat lazymatch goal with
    | |- preserves _ (ret _) => apply preserves_ret
    | |- preserves _ print_summary => apply preserves_print_summary
    | |- preserves _ test_connection => apply test_connection_keeps
    | |- preserves _ test_chain_info => apply test_chain_info_keeps
    | |- preserves _ test_peers => apply test_peers_keeps
    | |- preserves _ test_faucet_health => apply test_faucet_health_keeps
    | |- preserves _ (test_faucet_drip _) => apply test_faucet_drip_keeps
    | |- preserves _ generate_test_account => apply generate_test_account_keeps
    | |- preserves _ (test_account_balance _) => apply test_account_balance_keeps
    | |- preserves _ test_qrng_config => apply test_qrng_config_keeps
    | |- preserves _ test_qrng_device_queues =>
        apply test_qrng_device_queues_keeps
    | |- preserves _ test_qrng_reconstruction =>
        apply test_qrng_reconstruction_keeps
    | |- preserves _ test_notarial_service => apply test_notarial_service_keeps
    | |- preserves _ test_governance_stats => apply test_governance_stats_keeps
    | |- preserves _ test_proposals => apply test_proposals_keeps
    | |- preserves _ test_validator_set => apply test_validator_set_keeps
    | |- preserves _ (test_rewards_info _) => apply test_rewards_info_keeps
    | |- preserves _ (test_gateway_balance _) => apply test_gateway_balance_keeps
    | |- preserves _ (test_gateway_nonce _) => apply test_gateway_nonce_keeps
    | |- preserves _ (bind _ _) => apply preserves_bind; [| intros ?]
    | |- preserves _ (if ?b then _ else _) => destruct b
    end.

Lemma run_health_check_keeps : preserves P run_health_check.
Proof. unfold run_health_check. keep_pipeline. Qed.

Lemma run_full_test_keeps : preserves P run_full_test.
Proof. unfold run_full_test. keep_pipeline. Qed.

End Preservation.

(** ** The id counter and the node url *)

Lemma envelope_id_envelope url id method params :
  envelope_id (Post url (envelope id method params)) = Some id.
Proof. reflexivity. Qed.

Lemma faucet_call_run endpoint method data s :
  faucet_call endpoint method data s =
  match url_configured (faucet_url s) with
  | None =>
      (ok (PDict [("error", PDict [("message", PStr "No faucet URL configured")])]),
       s)
  | Some base =>
      let r := match method with
               | GET => Get (base ++ endpoint)
               | POST =>
                   Post (base ++ endpoint)
                     match data with
                     | Some d => py_or d (PDict [])
                     | None => PDict []
                     end
               end in
      (ok (match method with
           | GET => get_result (respond w (sent s) r)
           | POST => post_result (respond w (sent s) r)
           end),
       push_sent r s)
  end.
Proof.
  unfold faucet_call, bind, get_faucet_url. cbn.
  destruct (url_configured (faucet_url s)) as [base |]; [| reflexivity].
  destruct method; reflexivity.
Qed.

Lemma ids_inv_record nm p msg d : preserves ids_inv (record nm p msg d).
Proof. intros s Hs. exact Hs. Qed.

Lemma ids_inv_rpc_call method params :
  preserves ids_inv (rpc_call method params).
Proof.
  intros s [Hpos Hids]. rewrite rpc_call_run. unfold ids_inv.
  cbn [snd push_sent bump_id rpc_id sent]. split; [lia |].
  rewrite issued_ids_app, Hids. cbn [issued_ids].
  rewrite envelope_id_envelope.
  replace (Z.to_nat (rpc_id s + 1)) with (S (Z.to_nat (rpc_id s))) by lia.
  rewrite ids_upto_succ. f_equal. f_equal. lia.
Qed.

Lemma ids_inv_health : preserves ids_inv (faucet_call "/health" GET None).
Proof.
  intros s Hs. rewrite faucet_call_run.
  destruct (url_configured (faucet_url s)) as [base |]; cbn; [| exact Hs].
  destruct Hs as [Hpos Hids]. split; [exact Hpos |].
  cbn [sent rpc_id push_sent]. rewrite issued_ids_app, Hids. cbn.
  apply app_nil_r.
Qed.

Lemma ids_inv_drip address :
  preserves ids_inv
    (faucet_call "/drip" POST (Some (PDict [("address", PStr address)]))).
Proof.
  intros s Hs. rewrite faucet_call_run.
  destruct (url_configured (faucet_url s)) as [base |]; cbn; [| exact Hs].
  destruct Hs as [Hpos Hids]. split; [exact Hpos |].
  cbn [sent rpc_id push_sent]. rewrite issued_ids_app, Hids. cbn.
  apply app_nil_r.
Qed.

Lemma ids_inv_init node faucet : ids_inv (__init__ node faucet).
Proof. split; [cbn; lia | reflexivity]. Qed.

Lemma ids_inv_distinct s :
  ids_inv s ->
  issued_ids (sent s) = ids_upto (List.length (issued_ids (sent s))) /\
  StronglySorted Z.lt (issued_ids (sent s)) /\
  NoDup (issued_ids (sent s)).
Proof.
  intros [_ H]. rewrite H. rewrite ids_upto_length. split; [reflexivity |].
  split; [apply ids_from_sorted | apply ids_upto_NoDup].
Qed.

Lemma url_inv_record u nm p msg d : preserves (url_inv u) (record nm p msg d).
Proof. intros s Hs. exact Hs. Qed.

Lemma url_inv_rpc_call u method params :
  preserves (url_inv u) (rpc_call method params).
Proof.
  intros s [Hu Hall]. rewrite rpc_call_run. unfold url_inv.
  cbn [snd push_sent bump_id node_url sent]. split; [exact Hu |].
  rewrite envelope_urls_app. apply Forall_app. split; [exact Hall |].
  cbn. constructor; [symmetry; exact Hu | constructor].
Qed.

Lemma url_inv_health u : preserves (url_inv u) (faucet_call "/health" GET None).
Proof.
  intros s Hs. rewrite faucet_call_run.
  destruct (url_configured (faucet_url s)) as [base |]; cbn; [| exact Hs].
  destruct Hs as [Hu Hall]. split; [exact Hu |].
  cbn [sent push_sent]. rewrite envelope_urls_app. cbn. rewrite app_nil_r.
  exact Hall.
Qed.

Lemma url_inv_drip u address :
  preserves (url_inv u)
    (faucet_call "/drip" POST (Some (PDict [("address", PStr address)]))).
Proof.
  intros s Hs. rewrite faucet_call_run.
  destruct (url_configured (faucet_url s)) as [base |]; cbn; [| exact Hs].
  destruct Hs as [Hu Hall]. split; [exact Hu |].
  cbn [sent push_sent]. rewrite envelope_urls_app. cbn. rewrite app_nil_r.
  exact Hall.
Qed.

Lemma url_inv_init node faucet :
  url_inv (node_url (__init__ node faucet)) (__init__ node faucet).
Proof. split; [reflexivity | constructor]. Qed.

Lemma replace_absent old new s :
  str_contains old s = false -> str_replace old new s = s.
Proof.
  unfold str_replace. induction s as [| c t IH]; intros H; [reflexivity |].
  cbn [str_contains] in H. apply orb_false_iff in H. destruct H as [H1 H2].
  cbn [replace_from]. rewrite H1, (IH H2). reflexivity.
Qed.

(** C5: the ids of the JSON-RPC envelopes of a run are [1, 2, ..., N] in
    issue order, hence strictly increasing and pairwise distinct: each call
    issues the counter plus one and leaves the counter at that value, and
    nothing else writes the counter.  It holds of the health pipeline and
    of the full pipeline, on every network, whether the run ends or
    raises. *)
Theorem rpc_ids_unique_and_increasing :
  (forall method params s,
      rpc_id (snd (rpc_call method params s)) = rpc_id s + 1 /\
      issued_ids (sent (snd (rpc_call method params s))) =
        (issued_ids (sent s) ++ [rpc_id s + 1])%list) /\
  (forall node faucet,
      let ids := issued_ids (sent (snd (run_health_check (__init__ node faucet)))) in
      ids = ids_upto (List.length ids) /\
      StronglySorted Z.lt ids /\ NoDup ids) /\
  (forall node faucet,
      let ids := issued_ids (sent (snd (run_full_test (__init__ node faucet)))) in
      ids = ids_upto (List.length ids) /\
      StronglySorted Z.lt ids /\ NoDup ids).
Proof.
  split; [| split].
  - intros method params s. rewrite rpc_call_run.
    cbn [snd push_sent bump_id rpc_id sent]. split; [reflexivity |].
    rewrite issued_ids_app. reflexivity.
  - intros node faucet ids. apply ids_inv_distinct.
    apply (run_health_check_keeps ids_inv ids_inv_record ids_inv_rpc_call
             ids_inv_health).
    apply ids_inv_init.
  - intros node faucet ids. apply ids_inv_distinct.
    apply (run_full_test_keeps ids_inv ids_inv_record ids_inv_rpc_call
             ids_inv_health ids_inv_drip).
    apply ids_inv_init.
Qed.

(** C10: the constructor rewrites a leading ["ws://"] to ["http://"] and a
    leading ["wss://"] to ["https://"] (the rest of the url goes through the
    same two replacements, which leave a text without these markers as it
    is) and stores the faucet url as given; [rpc_call] posts to the stored
    node url, and every envelope of either pipeline went to it. *)
Theorem node_url_normalized :
  (forall rest faucet,
      node_url (__init__ ("ws://" ++ rest) faucet) =
      "http://" ++ node_url (__init__ rest faucet)) /\
  (forall rest faucet,
      node_url (__init__ ("wss://" ++ rest) faucet) =
      "https://" ++ node_url (__init__ rest faucet)) /\
  (forall rest faucet,
      str_contains "ws://" rest = false ->
      str_contains "wss://" rest = false ->
      node_url (__init__ rest faucet) = rest) /\
  (forall node faucet, faucet_url (__init__ node faucet) = faucet) /\
  (forall method params s,
      exists payload,
        sent (snd (rpc_call method params s)) =
          (sent s ++ [Post (node_url s) payload])%list /\
        node_url (snd (rpc_call method params s)) = node_url s) /\
  (forall node faucet,
      let s0 := __init__ node faucet in
      Forall (eq (node_url s0)) (envelope_urls (sent (snd (run_health_check s0)))) /\
      Forall (eq (node_url s0)) (envelope_urls (sent (snd (run_full_test s0))))).
Proof.
  refine (conj _ (conj _ (conj _ (conj _ (conj _ _))))).
  - intros rest faucet. reflexivity.
  - intros rest faucet. reflexivity.
  - intros rest faucet H1 H2. cbn [__init__ node_url].
    rewrite (replace_absent _ _ _ H1). apply replace_absent. exact H2.
  - intros node faucet. reflexivity.
  - intros method params s. eexists. rewrite rpc_call_run.
    split; reflexivity.
  - intros node faucet s0. split.
    + apply (run_health_check_keeps _ (url_inv_record _) (url_inv_rpc_call _)
               (url_inv_health _)).
      apply url_inv_init.
    + apply (run_full_test_keeps _ (url_inv_record _) (url_inv_rpc_call _)
               (url_inv_health _) (url_inv_drip _)).
      apply url_inv_init.
Qed.

(** ** The status table *)

Lemma find_first (f : TestResult -> bool) pre r post :
  (forall x, In x pre -> f x = false) -> f r = true ->
  find f (pre ++ r :: post) = Some r.
Proof.
  intros Hpre Hr. induction pre as [| x pre IH]; cbn [app find].
  - rewrite Hr. reflexivity.
  - rewrite (Hpre x (or_introl eq_refl)). apply IH.
    intros y Hy. apply Hpre. right. exact Hy.
Qed.

Lemma find_none (f : TestResult -> bool) l :
  (forall x, In x l -> f x = false) -> find f l = None.
Proof.
  intros H. induction l as [| x l IH]; cbn [find]; [reflexivity |].
  rewrite (H x (or_introl eq_refl)). apply IH.
  intros y Hy. apply H. right. exact Hy.
Qed.

(** C1, as the code has it: each row of the status table is decided by the
    entry recorded first under the probe's name, ONLINE if it passed and
    OFFLINE if it failed, and is UNKNOWN when no entry has the name; the
    table lists the six services in their fixed order. *)
Theorem status_table_first_entry log :
  sum_table (summarize log) =
    [("RPC", service_status log "RPC Connection");
     ("Faucet", service_status log "Faucet Health");
     ("QRNG", service_status log "QRNG Config");
     ("Notarial", service_status log "Notarial Service");
     ("Governance", service_status log "Governance Stats");
     ("Validators", service_status log "Validator Set")] /\
  forall test_name,
    (forall pre r post,
        log = (pre ++ r :: post)%list ->
        name r = test_name ->
        (forall x, In x pre -> name x <> test_name) ->
        service_status log test_name = if passed r then ONLINE else OFFLINE) /\
    ((forall x, In x log -> name x <> test_name) ->
     service_status log test_name = UNKNOWN).
Proof.
  split; [reflexivity |]. intros test_name. split.
  - intros pre r post -> Hr Hpre. unfold service_status.
    rewrite (find_first _ pre r post); [reflexivity | |].
    + intros x Hx. apply String.eqb_neq. apply Hpre. exact Hx.
    + apply String.eqb_eq. exact Hr.
  - intros Hnone. unfold service_status. rewrite find_none; [reflexivity |].
    intros x Hx. apply String.eqb_neq. apply Hnone. exact Hx.
Qed.

(** ** The simulator *)

Lemma clamp_steps n :
  (if 1024 <? (if n <? 1 then 1 else n) then 1024
   else if n <? 1 then 1 else n) = clamp n.
Proof.
  unfold clamp. destruct (Z.ltb_spec n 1) as [H | H].
  - destruct (Z.ltb_spec 1024 1); lia.
  - destruct (Z.ltb_spec 1024 n); lia.
Qed.

Lemma clamp_range n : 1 <= clamp n <= 1024.
Proof. unfold clamp. lia. Qed.

Lemma list_of_bytes_valued bs : Forall byte_valued (list_of_bytes bs).
Proof.
  unfold list_of_bytes. apply Forall_forall. intros v Hv.
  apply in_map_iff in Hv. destruct Hv as (b & <- & _).
  exists (Z.of_N (Byte.to_N b)). split; [reflexivity |].
  pose proof (Byte.to_N_bounded b). lia.
Qed.

(** C9, as the code has it: [GET /v1/random] takes the requested length (32
    when the parameter is absent or is not an integer), clamps it to
    [1, 1024], and answers an object whose [length] is the clamped value,
    whose [random_bytes] is a list of that many integers of [0, 255], and
    which carries [source], [timestamp] (the time in milliseconds; there is
    no [timestamp_ms] member) and [entropy_quality]. *)
Theorem get_random_body args entropy now_ms st :
  let n := args_get_int args "length" 32 in
  let body := fst (get_random args entropy now_ms st) in
  random_body "timestamp" n body /\
  1 <= clamp n <= 1024 /\
  (assoc "length" args = None -> n = 32) /\
  (forall raw v,
      assoc "length" args = Some raw -> parse_int 10 raw = Some v -> n = v) /\
  py_getitem body "timestamp" = ok (PInt now_ms) /\
  py_in "timestamp_ms" body = ok false.
Proof.
  intros n body. split; [| split; [apply clamp_range | split; [| split; [| split]]]].
  - unfold body, get_random. cbn [fst]. fold n. rewrite clamp_steps.
    eexists. eexists. split; [reflexivity |].
    cbn [lookup has_key String.eqb Ascii.eqb Bool.eqb].
    repeat split.
    + unfold list_of_bytes, token_bytes.
      rewrite !length_map, length_seq. pose proof (clamp_range n). lia.
    + apply list_of_bytes_valued.
  - unfold n, args_get_int. intros ->. reflexivity.
  - unfold n, args_get_int. intros raw v -> ->. reflexivity.
  - reflexivity.
  - reflexivity.
Qed.

(** ** Single probes *)

Lemma get_faucet_url_run s : get_faucet_url s = (ok (faucet_url s), s).
Proof. reflexivity. Qed.

(** C3, as the code has it: a [result] that is the empty list makes the
    Notarial and the Proposals probes pass, with a count of 0; it makes the
    Peers probe record a failure with the message "0 peers connected",
    because Peers passes only on a count above zero.  A response without
    [result] makes Peers and Proposals record their "Failed to get"
    failure. *)
Theorem empty_list_result s d s1 :
  (rpc_call "notarial_getAttestationsByOwner" (Some [PStr alice]) s
     = (ok (PDict d), s1) ->
   lookup "result" d = Some (PList []) ->
   test_notarial_service s =
     (ok true,
      push_result {| name := "Notarial Service"; passed := true;
                     message := "0 attestations found";
                     details := PDict [("count", PInt 0)] |} s1)) /\
  (rpc_call "quantumharmony_getProposals" None s = (ok (PDict d), s1) ->
   lookup "result" d = Some (PList []) ->
   test_proposals s =
     (ok (PList []),
      push_result {| name := "Proposals"; passed := true;
                     message := "0 proposals";
                     details := PDict [("count", PInt 0)] |} s1)) /\
  (rpc_call "system_peers" None s = (ok (PDict d), s1) ->
   lookup "result" d = Some (PList []) ->
   test_peers s =
     (ok (PList []),
      push_result {| name := "Peer Connections"; passed := false;
                     message := "0 peers connected";
                     details := PDict [("peers", PList [])] |} s1)) /\
  (rpc_call "system_peers" None s = (ok (PDict d), s1) ->
   lookup "result" d = None ->
   test_peers s =
     (ok (PList []),
      push_result {| name := "Peer Connections"; passed := false;
                     message := "Failed to get peers";
                     details := PNone |} s1)) /\
  (rpc_call "quantumharmony_getProposals" None s = (ok (PDict d), s1) ->
   lookup "result" d = None ->
   test_proposals s =
     (ok (PList []),
      push_result {| name := "Proposals"; passed := false;
                     message := "Failed to get proposals";
                     details := PNone |} s1)).
Proof.
  refine (conj _ (conj _ (conj _ (conj _ _)))); intros Hcall Hres.
  - unfold test_notarial_service. rewrite (bind_ok _ _ _ _ _ Hcall).
    unfold bind, lift, py_in, py_getitem, has_key. rewrite Hres. reflexivity.
  - unfold test_proposals. rewrite (bind_ok _ _ _ _ _ Hcall).
    unfold bind, lift, py_in, py_getitem, has_key. rewrite Hres. reflexivity.
  - unfold test_peers. rewrite (bind_ok _ _ _ _ _ Hcall).
    unfold bind, lift, py_in, py_getitem, has_key. rewrite Hres. reflexivity.
  - unfold test_peers. rewrite (bind_ok _ _ _ _ _ Hcall).
    unfold bind, lift, py_in, py_getitem, has_key. rewrite Hres. reflexivity.
  - unfold test_proposals. rewrite (bind_ok _ _ _ _ _ Hcall).
    unfold bind, lift, py_in, py_getitem, has_key. rewrite Hres. reflexivity.
Qed.



(** C6, as the code has it: with a faucet url configured and a response
    of [GET /health] that is an object, an [error] object whose message
    text contains "502" or "Bad Gateway" is recorded as the service-down
    failure; else one whose text contains "Connection refused" as the
    not-running failure; any other [error] object as the generic failure
    carrying the text; and a response without [error] is recorded as
    passed, with or without a [status] or [healthy] member.  The probe
    catches nothing: an [error] that is not an object makes it raise
    [AttributeError], a response that is not an object makes it raise
    [TypeError] or [AttributeError], and in both cases it stops in the
    state the call left, with nothing recorded. *)
Theorem faucet_health_verdict s base v s1 :
  url_configured (faucet_url s) = Some base ->
  faucet_call "/health" GET None s = (ok v, s1) ->
  (forall d e,
      v = PDict d ->
      lookup "error" d = Some (PDict e) ->
      let text := py_str (error_message e) in
      (str_contains "502" text = true \/ str_contains "Bad Gateway" text = true ->
       test_faucet_health s =
         (ok false,
          push_result {| name := "Faucet Health"; passed := false;
                         message := "502 Bad Gateway - Faucet service is down";
                         details := PNone |} s1)) /\
      (str_contains "502" text = false ->
       str_contains "Bad Gateway" text = false ->
       str_contains "Connection refused" text = true ->
       test_faucet_health s =
         (ok false,
          push_result {| name := "Faucet Health"; passed := false;
                         message := "Connection refused - Faucet not running";
                         details := PNone |} s1)) /\
      (str_contains "502" text = false ->
       str_contains "Bad Gateway" text = false ->
       str_contains "Connection refused" text = false ->
       test_faucet_health s =
         (ok false,
          push_result {| name := "Faucet Health"; passed := false;
                         message := "Error: " ++ text;
                         details := PNone |} s1))) /\
  (forall d,
      v = PDict d ->
      lookup "error" d = None ->
      exists msg,
        test_faucet_health s =
          (ok true,
           push_result {| name := "Faucet Health"; passed := true;
                          message := msg; details := PDict d |} s1)) /\
  (forall d x,
      v = PDict d ->
      lookup "error" d = Some x ->
      is_dict x = false ->
      test_faucet_health s = (raise AttributeError, s1)) /\
  (is_dict v = false ->
   exists e,
     test_faucet_health s = (raise e, s1) /\
     (e = TypeError \/ e = AttributeError)).
Proof.
  intros Hcfg Hcall.
  assert (Hrun : forall k : pyval -> M bool,
             bind (faucet_call "/health" GET None) k s = k v s1)
    by (intros k; apply bind_ok; exact Hcall).
  unfold test_faucet_health.
  rewrite (bind_ok _ _ _ _ _ (get_faucet_url_run s)). rewrite Hcfg, Hrun.
  clear Hrun Hcall Hcfg.
  unfold bind, lift, py_in, py_getitem, py_get, record, ret, has_key,
    error_message, ok, raise.
  refine (conj _ (conj _ (conj _ _))).
  - intros d e -> He. rewrite He. cbn iota beta.
    destruct (lookup "message" e); cbn iota beta;
      (refine (conj _ (conj _ _));
       [ intros [H | H]; rewrite H; [| rewrite orb_true_r]; reflexivity
       | intros H1 H2 H3; rewrite H1, H2, H3; reflexivity
       | intros H1 H2 H3; rewrite H1, H2, H3; reflexivity ]).
  - intros d -> He. rewrite He. cbn iota beta.
    destruct (lookup "status" d) as [st |]; cbn iota beta.
    + destruct (eq_str "ok" st); cbn iota beta.
      * eexists. reflexivity.
      * destruct (lookup "healthy" d) as [h |]; cbn iota beta;
          [destruct (truthy h) |]; eexists; reflexivity.
    + destruct (lookup "healthy" d) as [h |]; cbn iota beta;
        [destruct (truthy h) |]; eexists; reflexivity.
  - intros d x -> He Hx. rewrite He. cbn iota beta.
    destruct x; try reflexivity. discriminate Hx.
  - intros Hv. destruct v as [| b | n | f | t | l | d]; cbn iota beta.
    + exists TypeError. split; [reflexivity | left; reflexivity].
    + exists TypeError. split; [reflexivity | left; reflexivity].
    + exists TypeError. split; [reflexivity | left; reflexivity].
    + exists TypeError. split; [reflexivity | left; reflexivity].
    + destruct (str_contains "error" t); cbn iota beta.
      * exists TypeError. split; [reflexivity | left; reflexivity].
      * exists AttributeError. split; [reflexivity | right; reflexivity].
    + destruct (existsb (eq_str "error") l); cbn iota beta.
      * exists TypeError. split; [reflexivity | left; reflexivity].
      * exists AttributeError. split; [reflexivity | right; reflexivity].
    + discriminate Hv.
Qed.

(** ** What a probe that returns has done *)

Ltac plain x :=
  lazymatch x with
  | context [match _ with _ => _ end] => fail
  | _ => idtac
  end.

(** Case analysis on every test the run in [H] makes, innermost first. *)
Ltac run_cases H :=
  repeat match type of H with
         | context [match ?x with _ => _ end] =>
             plain x; destruct x eqn:?; cbn in H
         end.

Ltac unfold_run :=
  unfold faucet_call, rpc_call, _make_request, exchange, _next_id,
    get_node_url, get_faucet_url, bind, lift, record, ret.

Ltac footprint :=
  unfold_run;
  let H := fresh "H" in
  intros H; cbn in H; run_cases H; try discriminate H;
  injection H as <- <-;
  eexists; unfold appended;
  cbn [results sent push_result push_sent bump_id name passed];
  rewrite ?calls_of_app;
  cbn [calls_of envelope lookup eq_str String.eqb Ascii.eqb Bool.eqb];
  rewrite ?app_nil_r; repeat split.

Lemma test_connection_footprint s a s' :
  test_connection s = (ok a, s') ->
  exists r, appended "RPC Connection" [] s s' r /\ passed r = a.
Proof. unfold test_connection. footprint. Qed.

Lemma test_connection_failed s s' :
  test_connection s = (ok false, s') ->
  exists msg,
    s' = push_result {| name := "RPC Connection"; passed := false;
                        message := msg; details := PNone |}
           (push_sent
              (Post (node_url s) (envelope (rpc_id s + 1) "system_health" None))
              (bump_id s)).
Proof.
  unfold test_connection. unfold_run. intros H. cbn in H. run_cases H;
    try discriminate H; injection H as <-; eexists; reflexivity.
Qed.

Lemma test_chain_info_footprint s a s' :
  test_chain_info s = (ok a, s') ->
  exists r, appended "Chain Info" [] s s' r.
Proof. unfold test_chain_info. footprint. Qed.

Lemma test_peers_footprint s a s' :
  test_peers s = (ok a, s') ->
  exists r, appended "Peer Connections" [] s s' r.
Proof. unfold test_peers. footprint. Qed.

Lemma test_faucet_health_footprint s a s' :
  test_faucet_health s = (ok a, s') ->
  exists r, appended "Faucet Health" [] s s' r /\ passed r = a.
Proof. unfold test_faucet_health. footprint. Qed.

Lemma test_faucet_drip_footprint address s a s' :
  test_faucet_drip address s = (ok a, s') ->
  exists r, appended "Faucet Drip" [] s s' r.
Proof. unfold test_faucet_drip. footprint. Qed.

Lemma generate_test_account_footprint s a s' :
  generate_test_account s = (ok a, s') ->
  exists r, appended "Account Selection" [] s s' r.
Proof. unfold generate_test_account. footprint. Qed.

Lemma test_account_balance_footprint address s a s' :
  test_account_balance address s = (ok a, s') ->
  exists r, appended "Account Balance" [PList [PStr address]] s s' r.
Proof. unfold test_account_balance. footprint. Qed.

Lemma test_qrng_config_footprint s a s' :
  test_qrng_config s = (ok a, s') ->
  exists r, appended "QRNG Config" [] s s' r.
Proof. unfold test_qrng_config. footprint. Qed.

Lemma test_qrng_device_queues_footprint s a s' :
  test_qrng_device_queues s = (ok a, s') ->
  exists r, appended "QRNG Queues" [] s s' r.
Proof. unfold test_qrng_device_queues. footprint. Qed.

Lemma test_qrng_reconstruction_footprint s a s' :
  test_qrng_reconstruction s = (ok a, s') ->
  exists r, appended "QRNG History" [] s s' r.
Proof. unfold test_qrng_reconstruction. footprint. Qed.

Lemma test_notarial_service_footprint s a s' :
  test_notarial_service s = (ok a, s') ->
  exists r, appended "Notarial Service" [] s s' r.
Proof. unfold test_notarial_service. footprint. Qed.

Lemma test_governance_stats_footprint s a s' :
  test_governance_stats s = (ok a, s') ->
  exists r, appended "Governance Stats" [] s s' r.
Proof. unfold test_governance_stats. footprint. Qed.

Lemma test_proposals_footprint s a s' :
  test_proposals s = (ok a, s') ->
  exists r, appended "Proposals" [] s s' r.
Proof. unfold test_proposals. footprint. Qed.

Lemma test_validator_set_footprint s a s' :
  test_validator_set s = (ok a, s') ->
  exists r, appended "Validator Set" [] s s' r.
Proof. unfold test_validator_set. footprint. Qed.

Lemma test_rewards_info_footprint address s a s' :
  test_rewards_info address s = (ok a, s') ->
  exists r, appended "Rewards Info" [] s s' r.
Proof. unfold test_rewards_info. footprint. Qed.

Lemma test_gateway_balance_footprint address s a s' :
  test_gateway_balance address s = (ok a, s') ->
  exists r, appended "Gateway Balance" [] s s' r.
Proof. unfold test_gateway_balance. footprint. Qed.

Lemma test_gateway_nonce_footprint address s a s' :
  test_gateway_nonce address s = (ok a, s') ->
  exists r, appended "Gateway Nonce" [] s s' r.
Proof. unfold test_gateway_nonce. footprint. Qed.

(** ** The pipelines *)

(** C4: when the first probe of a run records a failed connection, both
    pipelines stop there: they return without a summary in the very state
    the connectivity probe left, whose log holds the failed
    "RPC Connection" entry and nothing else, after the one request of that
    probe. *)
Theorem connectivity_failure_aborts node faucet s1 :
  test_connection (__init__ node faucet) = (ok false, s1) ->
  run_health_check (__init__ node faucet) = (ok None, s1) /\
  run_full_test (__init__ node faucet) = (ok None, s1) /\
  (exists msg,
      results s1 = [{| name := "RPC Connection"; passed := false;
                       message := msg; details := PNone |}]) /\
  List.length (sent s1) = 1%nat.
Proof.
  intros H. split; [| split; [| split]].
  - unfold run_health_check. rewrite (bind_ok _ _ _ _ _ H). reflexivity.
  - unfold run_full_test. rewrite (bind_ok _ _ _ _ _ H). reflexivity.
  - apply test_connection_failed in H. destruct H as [msg ->].
    exists msg. reflexivity.
  - apply test_connection_failed in H. destruct H as [msg ->]. reflexivity.
Qed.

Tactic Notation "step" hyp(H) "as" ident(a) ident(s) ident(Hm) :=
  apply bind_ok_inv in H; destruct H as (a & s & Hm & H).

(** Replace the log and the balance calls of every state by those of the
    state before, down to the first. *)
Ltac unwind :=
  repeat match goal with
         | H : appended _ _ _ _ _ /\ _ |- _ => destruct H as [H ?]
         | H : appended _ _ _ _ _ |- _ =>
             let Hres := fresh "Hres" in
             let Hname := fresh "Hname" in
             let Hcalls := fresh "Hcalls" in
             destruct H as (Hres & Hname & Hcalls)
         end;
  repeat match goal with
         | H : results ?x = _ |- context [results ?x] => rewrite H
         | H : calls_of _ (sent ?x) = _ |- context [sent ?x] => rewrite H
         end.

(** A full run that reaches its end has recorded, in this order, the names
    of [full_names]. *)
Lemma full_pipeline_log node faucet sm s' :
  run_full_test (__init__ node faucet) = (ok (Some sm), s') ->
  exists fh address,
    nth_error (results s') 3 = Some fh /\
    name fh = "Faucet Health" /\
    map name (results s') = full_names (passed fh) /\
    count_occ string_dec (map name (results s')) "Account Balance" =
      (if passed fh then 2%nat else 1%nat) /\
    calls_of "system_account" (sent s') =
      (if passed fh
       then [PList [PStr address]; PList [PStr address]]
       else [PList [PStr address]]).
Proof.
  unfold run_full_test. intros H.
  step H as connected s1 H1.
  destruct connected; cbn [negb] in H; [| discriminate H].
  step H as info s2 H2. step H as peers s3 H3.
  step H as healthy s4 H4. step H as acct s5 H5.
  step H as balance s6 H6. step H as gate s7 Hgate.
  apply test_faucet_health_footprint in H4. destruct H4 as (fh & Hfh & Hpass).
  apply test_connection_footprint in H1.
  apply test_chain_info_footprint in H2.
  apply test_peers_footprint in H3.
  apply generate_test_account_footprint in H5.
  apply test_account_balance_footprint in H6.
  destruct H1 as (r1 & [Hr1 _]). destruct H2 as (r2 & Hr2).
  destruct H3 as (r3 & Hr3). destruct H5 as (r5 & Hr5).
  destruct H6 as (r6 & Hr6).
  assert (Hmid :
    exists rs,
      results s7 = (results s6 ++ rs)%list /\
      calls_of "system_account" (sent s7) =
        (calls_of "system_account" (sent s6) ++
         if passed fh then [PList [PStr (acc_address acct)]] else [])%list /\
      ((passed fh = true /\
        exists d1 d2, rs = [d1; d2] /\ name d1 = "Faucet Drip" /\
                      name d2 = "Account Balance") \/
       (passed fh = false /\ rs = []))).
  { rewrite Hpass. destruct healthy.
    - step Hgate as dripped t1 Hd1. step Hgate as again t2 Hd2.
      injection Hgate as _ <-.
      apply test_faucet_drip_footprint in Hd1.
      apply test_account_balance_footprint in Hd2.
      destruct Hd1 as (d1 & Hres1 & Hn1 & Hc1).
      destruct Hd2 as (d2 & Hres2 & Hn2 & Hc2).
      exists [d1; d2]. rewrite Hres2, Hres1, Hc2, Hc1, <- !app_assoc.
      split; [reflexivity | split; [reflexivity |]].
      left. split; [reflexivity |]. exists d1, d2. repeat split; assumption.
    - injection Hgate as _ <-. exists []. rewrite !app_nil_r.
      split; [reflexivity | split; [reflexivity |]].
      right. split; reflexivity. }
  clear Hgate. destruct Hmid as (rs & Hrs & Hcalls & Hshape).
  step H as gb s8 H8. step H as gn s9 H9. step H as qc s10 H10.
  step H as qq s11 H11. step H as qh s12 H12. step H as nt s13 H13.
  step H as gs s14 H14. step H as pr s15 H15. step H as vs s16 H16.
  step H as rw s17 H17. step H as sm' s18 H18.
  apply test_gateway_balance_footprint in H8.
  apply test_gateway_nonce_footprint in H9.
  apply test_qrng_config_footprint in H10.
  apply test_qrng_device_queues_footprint in H11.
  apply test_qrng_reconstruction_footprint in H12.
  apply test_notarial_service_footprint in H13.
  apply test_governance_stats_footprint in H14.
  apply test_proposals_footprint in H15.
  apply test_validator_set_footprint in H16.
  apply test_rewards_info_footprint in H17.
  destruct H8 as (g8 & Hg8). destruct H9 as (g9 & Hg9).
  destruct H10 as (g10 & Hg10). destruct H11 as (g11 & Hg11).
  destruct H12 as (g12 & Hg12). destruct H13 as (g13 & Hg13).
  destruct H14 as (g14 & Hg14). destruct H15 as (g15 & Hg15).
  destruct H16 as (g16 & Hg16). destruct H17 as (g17 & Hg17).
  injection H18 as _ <-. injection H as _ <-.
  exists fh, (acc_address acct).
  unwind.
  change (results (__init__ node faucet)) with (@nil TestResult).
  change (sent (__init__ node faucet)) with (@nil request).
  destruct Hshape as [(Hp & d1 & d2 & -> & Hn1 & Hn2) | (Hp & ->)];
    rewrite Hp; cbn [app map nth_error calls_of];
    repeat match goal with Hn : name _ = _ |- _ => rewrite Hn; clear Hn end;
    repeat split.
Qed.

(** ** Probes on a readable network *)

Lemma post_result_readable (Hw : readable_world) l url payload :
  exists d,
    post_result (respond w l (Post url payload)) = PDict d /\
    match lookup "error" d with Some e => is_dict e | None => true end = true /\
    match lookup "result" d with
    | Some x => readable_result (method_of payload) x
    | None => true
    end = true.
Proof.
  destruct (respond w l (Post url payload)) as [v | code msg | reason | text]
    eqn:E; cbn [post_result].
  - apply Hw in E. unfold readable in E.
    destruct v as [| | | | | | d]; try discriminate E.
    apply andb_prop in E. destruct E as [E Hr].
    apply andb_prop in E. destruct E as [_ He].
    exists d. split; [reflexivity | split; assumption].
  - eexists. split; [reflexivity | split; reflexivity].
  - eexists. split; [reflexivity | split; reflexivity].
  - eexists. split; [reflexivity | split; reflexivity].
Qed.

Lemma get_result_readable (Hw : readable_world) l url :
  exists d,
    get_result (respond w l (Get url)) = PDict d /\
    match lookup "error" d with Some e => is_dict e | None => true end = true.
Proof.
  destruct (respond w l (Get url)) as [v | code msg | reason | text]
    eqn:E; cbn [get_result].
  - apply Hw in E. unfold readable in E.
    destruct v as [| | | | | | d]; try discriminate E.
    apply andb_prop in E. destruct E as [E _].
    apply andb_prop in E. destruct E as [_ He].
    exists d. split; [reflexivity | assumption].
  - eexists. split; reflexivity.
  - eexists. split; reflexivity.
  - eexists. split; reflexivity.
Qed.

Lemma selected_account_known k :
  exists address,
    assoc (nth (k mod List.length test_names)%nat test_names "Bob") DEV_ACCOUNTS
      = Some address.
Proof.
  cbn [test_names List.length].
  pose proof (Nat.mod_upper_bound k 5 ltac:(discriminate)) as Hk.
  destruct (k mod 5)%nat as [| [| [| [| [| i]]]]]; try (eexists; reflexivity).
  lia.
Qed.

(** Carry the outcome [E] of a test on [x] to the facts that mention [x]. *)
Ltac spread E x :=
  repeat match goal with
         | H : context [x] |- _ =>
             tryif constr_eq H E then fail else rewrite E in H
         end.

(** One step of a run on a readable network: drop an impossible case, bring
    in what is known of the next response, or split on the next test. *)
Ltac total_step Hw :=
  first
    [ match goal with
      | H : ?a = ?b |- _ => discriminate H
      end
    | match goal with
      | |- context [post_result (respond w ?l (Post ?u ?p))] =>
          let d := fresh "d" in
          let Hd := fresh "Hd" in
          let He := fresh "He" in
          let Hr := fresh "Hr" in
          destruct (post_result_readable Hw l u p) as (d & Hd & He & Hr);
          rewrite Hd; clear Hd; cbn in Hr;
          unfold account_readable, printable_int, is_ok, py_len, py_int16,
            py_int, float_trunc, ok, raise in Hr
      | |- context [get_result (respond w ?l (Get ?u))] =>
          let d := fresh "d" in
          let Hd := fresh "Hd" in
          let He := fresh "He" in
          destruct (get_result_readable Hw l u) as (d & Hd & He);
          rewrite Hd; clear Hd
      end
    | match goal with
      | |- context [match ?x with _ => _ end] =>
          plain x;
          let E := fresh "E" in
          destruct x eqn:E; spread E x; cbn in *
      end ].

Ltac total Hw :=
  unfold once, ignore; unfold_run; intros s;
  unfold py_in, py_getitem, py_get, py_len, py_int16, py_int, has_key,
    float_trunc, ok, raise;
  cbn;
  repeat total_step Hw;
  eexists; eexists; split; reflexivity.

Section Readable.

Hypothesis Hw : readable_world.
Hypothesis Hhex : parse_int 16 "0x0" = Some 0.

Lemma test_connection_once : once (ignore test_connection).
Proof. unfold test_connection. total Hw. Qed.

Lemma test_chain_info_once : once (ignore test_chain_info).
Proof. unfold test_chain_info. total Hw. Qed.

Lemma test_peers_once : once (ignore test_peers).
Proof. unfold test_peers. total Hw. Qed.

Lemma test_faucet_health_once : once (ignore test_faucet_health).
Proof. unfold test_faucet_health. total Hw. Qed.

Lemma test_faucet_drip_once address : once (ignore (test_faucet_drip address)).
Proof. unfold test_faucet_drip. total Hw. Qed.

Lemma generate_test_account_once : once (ignore generate_test_account).
Proof.
  unfold once, ignore, generate_test_account. intros s.
  destruct (selected_account_known (randbelow w (List.length test_names)))
    as [address ->].
  eexists. eexists. split; reflexivity.
Qed.

Lemma test_account_balance_once address :
  once (ignore (test_account_balance address)).
Proof. unfold test_account_balance. total Hw. Qed.

Lemma test_qrng_config_once : once (ignore test_qrng_config).
Proof. unfold test_qrng_config. total Hw. Qed.

Lemma test_qrng_device_queues_once : once (ignore test_qrng_device_queues).
Proof. unfold test_qrng_device_queues. total Hw. Qed.

Lemma test_qrng_reconstruction_once : once (ignore test_qrng_reconstruction).
Proof. unfold test_qrng_reconstruction. total Hw. Qed.

Lemma test_notarial_service_once : once (ignore test_notarial_service).
Proof. unfold test_notarial_service. total Hw. Qed.

Lemma test_governance_stats_once : once (ignore test_governance_stats).
Proof. unfold test_governance_stats. total Hw. Qed.

Lemma test_proposals_once : once (ignore test_proposals).
Proof. unfold test_proposals. total Hw. Qed.

Lemma test_validator_set_once : once (ignore test_validator_set).
Proof. unfold test_validator_set. total Hw. Qed.

Lemma test_rewards_info_once address :
  once (ignore (test_rewards_info address)).
Proof. unfold test_rewards_info. total Hw. Qed.

Lemma test_gateway_balance_once address :
  once (ignore (test_gateway_balance address)).
Proof. unfold test_gateway_balance. total Hw. Qed.

Lemma test_gateway_nonce_once address :
  once (ignore (test_gateway_nonce address)).
Proof. unfold test_gateway_nonce. total Hw. Qed.

Lemma once_returns {A : Type} (m : M A) :
  once (ignore m) -> forall s, exists a s', m s = (ok a, s').
Proof.
  intros H s. destruct (H s) as (r & s' & Hrun & _).
  unfold ignore in Hrun. apply bind_ok_inv in Hrun.
  destruct Hrun as (a & s1 & Hm & Hret). injection Hret as <-.
  exists a, s1. exact Hm.
Qed.

Lemma bind_assoc {A B C : Type} (m : M A) (f : A -> M B) (g : B -> M C) s :
  bind (bind m f) g s = bind m (fun a => bind (f a) g) s.
Proof. unfold bind. destruct (m s) as [[e | a] s1]; reflexivity. Qed.

Lemma bind_ret {A B : Type} (a : A) (f : A -> M B) s :
  bind (ret a) f s = f a s.
Proof. reflexivity. Qed.

Lemma bind_print_summary {B : Type} (f : summary -> M B) s :
  bind print_summary f s = f (summarize (results s)) s.
Proof. reflexivity. Qed.

Ltac probe_once m :=
  lazymatch m with
  | test_connection => constr:(test_connection_once)
  | test_chain_info => constr:(test_chain_info_once)
  | test_peers => constr:(test_peers_once)
  | test_faucet_health => constr:(test_faucet_health_once)
  | test_faucet_drip ?a => constr:(test_faucet_drip_once a)
  | generate_test_account => constr:(generate_test_account_once)
  | test_account_balance ?a => constr:(test_account_balance_once a)
  | test_qrng_config => constr:(test_qrng_config_once)
  | test_qrng_device_queues => constr:(test_qrng_device_queues_once)
  | test_qrng_reconstruction => constr:(test_qrng_reconstruction_once)
  | test_notarial_service => constr:(test_notarial_service_once)
  | test_governance_stats => constr:(test_governance_stats_once)
  | test_proposals => constr:(test_proposals_once)
  | test_validator_set => constr:(test_validator_set_once)
  | test_rewards_info ?a => constr:(test_rewards_info_once a)
  | test_gateway_balance ?a => constr:(test_gateway_balance_once a)
  | test_gateway_nonce ?a => constr:(test_gateway_nonce_once a)
  end.

(** Run the next probe of a pipeline, which returns. *)
Ltac advance :=
  lazymatch goal with
  | |- exists _ _, bind (bind _ _) _ _ = _ => rewrite bind_assoc
  | |- exists _ _, bind (ret _) _ _ = _ => rewrite bind_ret
  | |- exists _ _, bind print_summary _ _ = _ => rewrite bind_print_summary
  | |- exists _ _, bind (if ?b then _ else _) _ _ = _ => destruct b
  | |- exists _ _, bind ?m _ ?s = _ =>
      let L := probe_once m in
      let a := fresh "a" in
      let s' := fresh "s" in
      let H := fresh "H" in
      destruct (once_returns m L s) as (a & s' & H);
      rewrite (bind_ok _ _ _ _ _ H); clear H
  | |- exists _ _, (if ?b then _ else _) _ = _ => destruct b
  | |- exists _ _, _ = _ => eexists; eexists; reflexivity
  end.

(** On a readable network both pipelines run to their end. *)
Lemma run_health_check_returns s :
  exists out s', run_health_check s = (ok out, s').
Proof. unfold run_health_check. repeat advance. Qed.

Lemma run_full_test_returns s :
  exists out s', run_full_test s = (ok out, s').
Proof. unfold run_full_test. repeat advance. Qed.

End Readable.

(** ** The account tests of the full pipeline *)

Lemma bind_raise {A B : Type} (m : M A) (f : A -> M B) s e s1 :
  m s = (inl e, s1) -> bind m f s = (inl e, s1).
Proof. unfold bind. intros ->. reflexivity. Qed.

(** A probe that raises has recorded nothing and, the balance probe
    apart, has made no [system_account] call. *)
Ltac no_entry :=
  unfold_run;
  let H := fresh "H" in
  intros H; cbn in H; run_cases H; try discriminate H;
  injection H as <- <-;
  cbn [results sent push_result push_sent bump_id];
  rewrite ?calls_of_app;
  cbn [calls_of envelope lookup eq_str String.eqb Ascii.eqb Bool.eqb];
  rewrite ?app_nil_r; repeat split.

Lemma test_account_balance_raises address s e s' :
  test_account_balance address s = (inl e, s') -> results s' = results s.
Proof. unfold test_account_balance. no_entry. Qed.

Lemma test_faucet_drip_raises address s e s' :
  test_faucet_drip address s = (inl e, s') -> results s' = results s.
Proof. unfold test_faucet_drip. no_entry. Qed.

Lemma test_gateway_balance_raises address s e s' :
  test_gateway_balance address s = (inl e, s') ->
  results s' = results s /\
  calls_of "system_account" (sent s') = calls_of "system_account" (sent s).
Proof. unfold test_gateway_balance. no_entry. Qed.

Lemma test_gateway_nonce_raises address s e s' :
  test_gateway_nonce address s = (inl e, s') ->
  results s' = results s /\
  calls_of "system_account" (sent s') = calls_of "system_account" (sent s).
Proof. unfold test_gateway_nonce. no_entry. Qed.

Lemma test_qrng_config_raises s e s' :
  test_qrng_config s = (inl e, s') ->
  results s' = results s /\
  calls_of "system_account" (sent s') = calls_of "system_account" (sent s).
Proof. unfold test_qrng_config. no_entry. Qed.

Lemma test_qrng_device_queues_raises s e s' :
  test_qrng_device_queues s = (inl e, s') ->
  results s' = results s /\
  calls_of "system_account" (sent s') = calls_of "system_account" (sent s).
Proof. unfold test_qrng_device_queues. no_entry. Qed.

Lemma test_qrng_reconstruction_raises s e s' :
  test_qrng_reconstruction s = (inl e, s') ->
  results s' = results s /\
  calls_of "system_account" (sent s') = calls_of "system_account" (sent s).
Proof. unfold test_qrng_reconstruction. no_entry. Qed.

Lemma test_notarial_service_raises s e s' :
  test_notarial_service s = (inl e, s') ->
  results s' = results s /\
  calls_of "system_account" (sent s') = calls_of "system_account" (sent s).
Proof. unfold test_notarial_service. no_entry. Qed.

Lemma test_governance_stats_raises s e s' :
  test_governance_stats s = (inl e, s') ->
  results s' = results s /\
  calls_of "system_account" (sent s') = calls_of "system_account" (sent s).
Proof. unfold test_governance_stats. no_entry. Qed.

Lemma test_proposals_raises s e s' :
  test_proposals s = (inl e, s') ->
  results s' = results s /\
  calls_of "system_account" (sent s') = calls_of "system_account" (sent s).
Proof. unfold test_proposals. no_entry. Qed.

Lemma test_validator_set_raises s e s' :
  test_validator_set s = (inl e, s') ->
  results s' = results s /\
  calls_of "system_account" (sent s') = calls_of "system_account" (sent s).
Proof. unfold test_validator_set. no_entry. Qed.

Lemma test_rewards_info_raises address s e s' :
  test_rewards_info address s = (inl e, s') ->
  results s' = results s /\
  calls_of "system_account" (sent s') = calls_of "system_account" (sent s).
Proof. unfold test_rewards_info. no_entry. Qed.

Lemma records_within_summary :
  records_within [] (sm <- print_summary ;; ret (Some sm)).
Proof.
  intros s. exists [], O. cbn [fst snd bind print_summary ret].
  rewrite app_nil_r. repeat split.
  injection H as <-. reflexivity.
Qed.

Lemma records_within_step {A : Type} nm names (p : M A) m :
  (forall s a s', p s = (ok a, s') -> exists r, appended nm [] s s' r) ->
  (forall s e s',
      p s = (inl e, s') ->
      results s' = results s /\
      calls_of "system_account" (sent s') = calls_of "system_account" (sent s)) ->
  records_within names m ->
  records_within (nm :: names) (p ;; m).
Proof.
  intros Hok Hraise Hm s. unfold bind.
  destruct (p s) as [[e | a] s1] eqn:Hp.
  - destruct (Hraise _ _ _ Hp) as [Hres Hcalls].
    exists [], O. cbn [fst snd]. rewrite app_nil_r.
    split; [exact Hres | split; [reflexivity | split; [exact Hcalls |]]].
    intros out H. discriminate H.
  - destruct (Hok _ _ _ Hp) as (r & Hres & Hname & Hcalls).
    rewrite app_nil_r in Hcalls.
    destruct (Hm s1) as (rest & k & H1 & H2 & H3 & H4).
    exists (r :: rest), (S k).
    split; [rewrite H1, Hres, <- app_assoc; reflexivity |].
    split; [cbn [map firstn]; rewrite Hname, H2; reflexivity |].
    split; [rewrite H3; exact Hcalls |].
    intros out Hout. destruct (H4 out Hout) as [-> Hfull].
    split; [reflexivity |]. cbn [map]. rewrite Hname, Hfull. reflexivity.
Qed.

(** The service tests record a prefix of [service_names], the whole of it
    when they return. *)
Lemma service_tests_log : records_within service_names service_tests.
Proof.
  unfold service_names, service_tests.
  apply records_within_step;
    [apply test_gateway_balance_footprint
    | apply test_gateway_balance_raises |].
  apply records_within_step;
    [apply test_gateway_nonce_footprint | apply test_gateway_nonce_raises |].
  apply records_within_step;
    [apply test_qrng_config_footprint | apply test_qrng_config_raises |].
  apply records_within_step;
    [apply test_qrng_device_queues_footprint
    | apply test_qrng_device_queues_raises |].
  apply records_within_step;
    [apply test_qrng_reconstruction_footprint
    | apply test_qrng_reconstruction_raises |].
  apply records_within_step;
    [apply test_notarial_service_footprint
    | apply test_notarial_service_raises |].
  apply records_within_step;
    [apply test_governance_stats_footprint
    | apply test_governance_stats_raises |].
  apply records_within_step;
    [apply test_proposals_footprint | apply test_proposals_raises |].
  apply records_within_step;
    [apply test_validator_set_footprint | apply test_validator_set_raises |].
  apply records_within_step;
    [apply test_rewards_info_footprint | apply test_rewards_info_raises |].
  apply records_within_summary.
Qed.

Lemma service_names_balance k :
  count_occ string_dec (firstn k service_names) "Account Balance" = 0%nat /\
  count_occ string_dec (firstn k service_names) "Faucet Drip" = 0%nat.
Proof.
  unfold service_names.
  do 10 (destruct k as [| k]; [split; reflexivity |]).
  destruct k; split; reflexivity.
Qed.

Lemma generate_test_account_entry s acct s' :
  generate_test_account s = (ok acct, s') ->
  exists sel,
    s' = push_result sel s /\
    name sel = "Account Selection" /\
    details sel =
      PDict [("address", PStr (acc_address acct));
             ("name", PStr (acc_name acct))].
Proof.
  unfold generate_test_account.
  destruct (assoc _ DEV_ACCOUNTS) as [address |]; [| intros H; discriminate H].
  unfold bind, record, ret. intros H. injection H as <- <-.
  eexists. split; [reflexivity | split; reflexivity].
Qed.

(** What the account tests of a full run start from: the log of the four
    probes before them and of the selection, and no balance query yet. *)
Lemma account_tests_start node faucet s1 info s2 peers s3 healthy s4 acct s5 :
  test_connection (__init__ node faucet) = (ok true, s1) ->
  test_chain_info s1 = (ok info, s2) ->
  test_peers s2 = (ok peers, s3) ->
  test_faucet_health s3 = (ok healthy, s4) ->
  generate_test_account s4 = (ok acct, s5) ->
  (exists fh sel,
      nth_error (results s5) 3 = Some fh /\
      passed fh = healthy /\
      nth_error (results s5) 4 = Some sel /\
      details sel =
        PDict [("address", PStr (acc_address acct));
               ("name", PStr (acc_name acct))]) /\
  map name (results s5) =
    ["RPC Connection"; "Chain Info"; "Peer Connections"; "Faucet Health";
     "Account Selection"] /\
  calls_of "system_account" (sent s5) = [].
Proof.
  intros H1 H2 H3 H4 H5.
  destruct (generate_test_account_entry _ _ _ H5) as (sel & Hs5 & Hnsel & Hdsel).
  apply test_connection_footprint in H1.
  apply test_chain_info_footprint in H2.
  apply test_peers_footprint in H3.
  apply test_faucet_health_footprint in H4.
  destruct H1 as (r1 & (Hr1 & Hn1 & Hc1) & _).
  destruct H2 as (r2 & Hr2 & Hn2 & Hc2).
  destruct H3 as (r3 & Hr3 & Hn3 & Hc3).
  destruct H4 as (fh & (Hr4 & Hn4 & Hc4) & Hpass).
  change (results (__init__ node faucet)) with (@nil TestResult) in Hr1.
  change (sent (__init__ node faucet)) with (@nil request) in Hc1.
  rewrite Hs5. cbn [results sent push_result].
  rewrite Hr4, Hr3, Hr2, Hr1, Hc4, Hc3, Hc2, Hc1.
  cbn [app map nth_error calls_of]. rewrite Hn1, Hn2, Hn3, Hn4, Hnsel.
  split; [| split; reflexivity].
  exists fh, sel. repeat split; assumption.
Qed.

(** Where a full run stands once the account tests have returned. *)
Lemma full_run_unhealthy node faucet s1 info s2 peers s3 s4 acct s5 b1 s6 :
  test_connection (__init__ node faucet) = (ok true, s1) ->
  test_chain_info s1 = (ok info, s2) ->
  test_peers s2 = (ok peers, s3) ->
  test_faucet_health s3 = (ok false, s4) ->
  generate_test_account s4 = (ok acct, s5) ->
  test_account_balance (acc_address acct) s5 = (ok b1, s6) ->
  run_full_test (__init__ node faucet) = service_tests s6.
Proof.
  intros H1 H2 H3 H4 H5 H6. unfold run_full_test.
  rewrite (bind_ok _ _ _ _ _ H1). cbn [negb].
  rewrite (bind_ok _ _ _ _ _ H2), (bind_ok _ _ _ _ _ H3),
    (bind_ok _ _ _ _ _ H4), (bind_ok _ _ _ _ _ H5), (bind_ok _ _ _ _ _ H6).
  reflexivity.
Qed.

Lemma full_run_healthy
    node faucet s1 info s2 peers s3 s4 acct s5 b1 s6 dripped s7 b2 s8 :
  test_connection (__init__ node faucet) = (ok true, s1) ->
  test_chain_info s1 = (ok info, s2) ->
  test_peers s2 = (ok peers, s3) ->
  test_faucet_health s3 = (ok true, s4) ->
  generate_test_account s4 = (ok acct, s5) ->
  test_account_balance (acc_address acct) s5 = (ok b1, s6) ->
  test_faucet_drip (acc_address acct) s6 = (ok dripped, s7) ->
  test_account_balance (acc_address acct) s7 = (ok b2, s8) ->
  run_full_test (__init__ node faucet) = service_tests s8.
Proof.
  intros H1 H2 H3 H4 H5 H6 H7 H8. unfold run_full_test.
  rewrite (bind_ok _ _ _ _ _ H1). cbn [negb].
  rewrite (bind_ok _ _ _ _ _ H2), (bind_ok _ _ _ _ _ H3),
    (bind_ok _ _ _ _ _ H4), (bind_ok _ _ _ _ _ H5), (bind_ok _ _ _ _ _ H6).
  rewrite bind_assoc, (bind_ok _ _ _ _ _ H7).
  rewrite bind_assoc, (bind_ok _ _ _ _ _ H8).
  reflexivity.
Qed.

(** Where a full run stands when one of the account tests raises: there. *)
Lemma full_run_account_raise
    node faucet s1 info s2 peers s3 healthy s4 acct s5 :
  test_connection (__init__ node faucet) = (ok true, s1) ->
  test_chain_info s1 = (ok info, s2) ->
  test_peers s2 = (ok peers, s3) ->
  test_faucet_health s3 = (ok healthy, s4) ->
  generate_test_account s4 = (ok acct, s5) ->
  (forall e s6,
      test_account_balance (acc_address acct) s5 = (inl e, s6) ->
      run_full_test (__init__ node faucet) = (inl e, s6)) /\
  (healthy = true ->
   forall b1 s6 e s7,
     test_account_balance (acc_address acct) s5 = (ok b1, s6) ->
     test_faucet_drip (acc_address acct) s6 = (inl e, s7) ->
     run_full_test (__init__ node faucet) = (inl e, s7)) /\
  (healthy = true ->
   forall b1 s6 dripped s7 e s8,
     test_account_balance (acc_address acct) s5 = (ok b1, s6) ->
     test_faucet_drip (acc_address acct) s6 = (ok dripped, s7) ->
     test_account_balance (acc_address acct) s7 = (inl e, s8) ->
     run_full_test (__init__ node faucet) = (inl e, s8)).
Proof.
  intros H1 H2 H3 H4 H5. unfold run_full_test.
  rewrite (bind_ok _ _ _ _ _ H1). cbn [negb].
  rewrite (bind_ok _ _ _ _ _ H2), (bind_ok _ _ _ _ _ H3),
    (bind_ok _ _ _ _ _ H4), (bind_ok _ _ _ _ _ H5).
  refine (conj _ (conj _ _)).
  - intros e s6 H6. apply bind_raise. exact H6.
  - intros -> b1 s6 e s7 H6 H7. rewrite (bind_ok _ _ _ _ _ H6).
    apply bind_raise. apply bind_raise. exact H7.
  - intros -> b1 s6 dripped s7 e s8 H6 H7 H8. rewrite (bind_ok _ _ _ _ _ H6).
    apply bind_raise. rewrite (bind_ok _ _ _ _ _ H7).
    apply bind_raise. exact H8.
Qed.

(** C8, as the code has it.  Take a full run that reaches the account
    tests: the connectivity probe passed, the probes up to "Faucet Health"
    returned, and an account was selected, whose address is the one the
    selection entry shows.  If "Faucet Health" passed and the balance
    check, the drip and the second balance check return, the run goes on
    with the service tests, its log has two "Account Balance" entries with
    "Faucet Drip" between them, and [system_account] was called exactly
    twice, both times with the selected address.  If "Faucet Health"
    failed and the balance check returns, the run goes on with the service
    tests at once: the log has exactly one "Account Balance" entry and no
    "Faucet Drip" entry, and [system_account] was called once.  In both
    cases a run that returns has recorded [full_names].  The probes catch
    nothing: an account test that raises ends the run there with no entry
    of its own, so that a second balance check that raises leaves one
    "Account Balance" entry, followed by "Faucet Drip". *)
Theorem full_pipeline_balance_checks
    node faucet s1 info s2 peers s3 healthy s4 acct s5 :
  let final := run_full_test (__init__ node faucet) in
  let address := acc_address acct in
  test_connection (__init__ node faucet) = (ok true, s1) ->
  test_chain_info s1 = (ok info, s2) ->
  test_peers s2 = (ok peers, s3) ->
  test_faucet_health s3 = (ok healthy, s4) ->
  generate_test_account s4 = (ok acct, s5) ->
  (exists fh sel,
      nth_error (results s5) 3 = Some fh /\
      passed fh = healthy /\
      nth_error (results s5) 4 = Some sel /\
      details sel =
        PDict [("address", PStr address); ("name", PStr (acc_name acct))]) /\
  (healthy = true ->
   forall b1 s6 dripped s7 b2 s8,
     test_account_balance address s5 = (ok b1, s6) ->
     test_faucet_drip address s6 = (ok dripped, s7) ->
     test_account_balance address s7 = (ok b2, s8) ->
     final = service_tests s8 /\
     (exists k,
         map name (results (snd final)) =
           (["RPC Connection"; "Chain Info"; "Peer Connections";
             "Faucet Health"; "Account Selection"; "Account Balance";
             "Faucet Drip"; "Account Balance"] ++
            firstn k service_names)%list) /\
     count_occ string_dec (map name (results (snd final))) "Account Balance"
       = 2%nat /\
     calls_of "system_account" (sent (snd final)) =
       [PList [PStr address]; PList [PStr address]] /\
     (forall out,
         fst final = ok out ->
         out = Some (summarize (results (snd final))) /\
         map name (results (snd final)) = full_names true)) /\
  (healthy = false ->
   forall b1 s6,
     test_account_balance address s5 = (ok b1, s6) ->
     final = service_tests s6 /\
     (exists k,
         map name (results (snd final)) =
           (["RPC Connection"; "Chain Info"; "Peer Connections";
             "Faucet Health"; "Account Selection"; "Account Balance"] ++
            firstn k service_names)%list) /\
     count_occ string_dec (map name (results (snd final))) "Account Balance"
       = 1%nat /\
     count_occ string_dec (map name (results (snd final))) "Faucet Drip"
       = 0%nat /\
     calls_of "system_account" (sent (snd final)) = [PList [PStr address]] /\
     (forall out,
         fst final = ok out ->
         out = Some (summarize (results (snd final))) /\
         map name (results (snd final)) = full_names false)) /\
  (forall e s6,
      test_account_balance address s5 = (raise e, s6) ->
      final = (raise e, s6) /\
      map name (results s6) =
        ["RPC Connection"; "Chain Info"; "Peer Connections"; "Faucet Health";
         "Account Selection"]) /\
  (healthy = true ->
   forall b1 s6 e s7,
     test_account_balance address s5 = (ok b1, s6) ->
     test_faucet_drip address s6 = (raise e, s7) ->
     final = (raise e, s7) /\
     map name (results s7) =
       ["RPC Connection"; "Chain Info"; "Peer Connections"; "Faucet Health";
        "Account Selection"; "Account Balance"]) /\
  (healthy = true ->
   forall b1 s6 dripped s7 e s8,
     test_account_balance address s5 = (ok b1, s6) ->
     test_faucet_drip address s6 = (ok dripped, s7) ->
     test_account_balance address s7 = (raise e, s8) ->
     final = (raise e, s8) /\
     map name (results s8) =
       ["RPC Connection"; "Chain Info"; "Peer Connections"; "Faucet Health";
        "Account Selection"; "Account Balance"; "Faucet Drip"]).
Proof.
  intros final address H1 H2 H3 H4 H5.
  destruct (account_tests_start _ _ _ _ _ _ _ _ _ _ _ H1 H2 H3 H4 H5)
    as (Hentries & Hnames5 & Hcalls5).
  destruct (full_run_account_raise _ _ _ _ _ _ _ _ _ _ _ H1 H2 H3 H4 H5)
    as (Hraise1 & Hraise2 & Hraise3).
  fold address in Hentries, Hraise1, Hraise2, Hraise3.
  refine (conj Hentries (conj _ (conj _ (conj _ (conj _ _))))).
  - intros -> b1 s6 dripped s7 b2 s8 H6 H7 H8.
    assert (Hrun : final = service_tests s8)
      by exact (full_run_healthy _ _ _ _ _ _ _ _ _ _ _ _ _ _ _ _
                  H1 H2 H3 H4 H5 H6 H7 H8).
    apply test_account_balance_footprint in H6, H8.
    apply test_faucet_drip_footprint in H7.
    destruct H6 as (e6 & Hr6 & Hn6 & Hc6).
    destruct H7 as (e7 & Hr7 & Hn7 & Hc7).
    destruct H8 as (e8 & Hr8 & Hn8 & Hc8).
    assert (Hnames8 :
      map name (results s8) =
        ["RPC Connection"; "Chain Info"; "Peer Connections"; "Faucet Health";
         "Account Selection"; "Account Balance"; "Faucet Drip";
         "Account Balance"]).
    { rewrite Hr8, Hr7, Hr6, !map_app, Hnames5. cbn [map app].
      rewrite Hn6, Hn7, Hn8. reflexivity. }
    assert (Hcalls8 :
      calls_of "system_account" (sent s8) =
        [PList [PStr address]; PList [PStr address]]).
    { rewrite Hc8, Hc7, Hc6, Hcalls5. reflexivity. }
    destruct (service_tests_log s8) as (rest & k & Hres & Hrest & Hcalls & Hout).
    rewrite Hrun.
    assert (Hnames :
      map name (results (snd (service_tests s8))) =
        (["RPC Connection"; "Chain Info"; "Peer Connections"; "Faucet Health";
          "Account Selection"; "Account Balance"; "Faucet Drip";
          "Account Balance"] ++ firstn k service_names)%list)
      by (rewrite Hres, map_app, Hnames8, Hrest; reflexivity).
    split; [reflexivity |].
    split; [exists k; exact Hnames |].
    split; [rewrite Hnames, count_occ_app,
              (proj1 (service_names_balance k)); reflexivity |].
    split; [rewrite Hcalls; exact Hcalls8 |].
    intros out Hfst. destruct (Hout out Hfst) as [-> Hfull].
    split; [reflexivity |].
    rewrite Hres, map_app, Hnames8, Hfull. reflexivity.
  - intros -> b1 s6 H6.
    assert (Hrun : final = service_tests s6)
      by exact (full_run_unhealthy _ _ _ _ _ _ _ _ _ _ _ _
                  H1 H2 H3 H4 H5 H6).
    apply test_account_balance_footprint in H6.
    destruct H6 as (e6 & Hr6 & Hn6 & Hc6).
    assert (Hnames6 :
      map name (results s6) =
        ["RPC Connection"; "Chain Info"; "Peer Connections"; "Faucet Health";
         "Account Selection"; "Account Balance"]).
    { rewrite Hr6, !map_app, Hnames5. cbn [map app]. rewrite Hn6.
      reflexivity. }
    assert (Hcalls6 :
      calls_of "system_account" (sent s6) = [PList [PStr address]]).
    { rewrite Hc6, Hcalls5. reflexivity. }
    destruct (service_tests_log s6) as (rest & k & Hres & Hrest & Hcalls & Hout).
    rewrite Hrun.
    assert (Hnames :
      map name (results (snd (service_tests s6))) =
        (["RPC Connection"; "Chain Info"; "Peer Connections"; "Faucet Health";
          "Account Selection"; "Account Balance"] ++
         firstn k service_names)%list)
      by (rewrite Hres, map_app, Hnames6, Hrest; reflexivity).
    split; [reflexivity |].
    split; [exists k; exact Hnames |].
    split; [rewrite Hnames, count_occ_app,
              (proj1 (service_names_balance k)); reflexivity |].
    split; [rewrite Hnames, count_occ_app,
              (proj2 (service_names_balance k)); reflexivity |].
    split; [rewrite Hcalls; exact Hcalls6 |].
    intros out Hfst. destruct (Hout out Hfst) as [-> Hfull].
    split; [reflexivity |].
    rewrite Hres, map_app, Hnames6, Hfull. reflexivity.
  - intros e s6 H6. split; [exact (Hraise1 e s6 H6) |].
    rewrite (test_account_balance_raises _ _ _ _ H6). exact Hnames5.
  - intros Hh b1 s6 e s7 H6 H7. split; [exact (Hraise2 Hh b1 s6 e s7 H6 H7) |].
    rewrite (test_faucet_drip_raises _ _ _ _ H7).
    apply test_account_balance_footprint in H6.
    destruct H6 as (e6 & Hr6 & Hn6 & _).
    rewrite Hr6, map_app, Hnames5. cbn [map app]. rewrite Hn6. reflexivity.
  - intros Hh b1 s6 dripped s7 e s8 H6 H7 H8.
    split; [exact (Hraise3 Hh b1 s6 dripped s7 e s8 H6 H7 H8) |].
    rewrite (test_account_balance_raises _ _ _ _ H8).
    apply test_account_balance_footprint in H6.
    apply test_faucet_drip_footprint in H7.
    destruct H6 as (e6 & Hr6 & Hn6 & _).
    destruct H7 as (e7 & Hr7 & Hn7 & _).
    rewrite Hr7, Hr6, !map_app, Hnames5. cbn [map app].
    rewrite Hn6, Hn7. reflexivity.
Qed.

(** C2, as the code has it: the probes catch nothing themselves; the
    transport turns every failure of a request into an error object.  On a
    network whose bodies are readable (an object in which every text is
    well formed and every int within the limit of [str]; [error], when
    present, an object; [result], when present, of the type the probe
    reads it at, the [number] of a header and the [free] of an account
    converting to an int within that limit), every probe given a
    well-formed address returns having recorded exactly one result, and a
    missing member is read as its placeholder: a health object without
    [peers] and [isSyncing] is reported as 0 peers and not syncing. *)
Theorem probes_record_once :
  readable_world ->
  parse_int 16 "0x0" = Some 0 ->
  (forall address rewards_address p,
      well_formed address = true ->
      In p (probes address rewards_address) -> once p) /\
  (forall s d h s1,
      rpc_call "system_health" None s = (ok (PDict d), s1) ->
      lookup "result" d = Some (PDict h) ->
      lookup "peers" h = None ->
      lookup "isSyncing" h = None ->
      test_connection s =
        (ok true,
         push_result {| name := "RPC Connection"; passed := true;
                        message := "Connected - 0 peers, syncing=False";
                        details := PDict h |} s1)).
Proof.
  intros Hw Hhex. split.
  - intros address rewards_address p _ Hp. cbn [probes In] in Hp.
    repeat (destruct Hp as [<- | Hp];
            [auto using test_connection_once, test_chain_info_once,
               test_peers_once, test_faucet_health_once,
               test_faucet_drip_once, generate_test_account_once,
               test_account_balance_once, test_qrng_config_once,
               test_qrng_device_queues_once, test_qrng_reconstruction_once,
               test_notarial_service_once, test_governance_stats_once,
               test_proposals_once, test_validator_set_once,
               test_rewards_info_once, test_gateway_balance_once,
               test_gateway_nonce_once |]).
    contradiction.
  - intros s d h s1 Hcall Hres Hpeers Hsync.
    unfold test_connection. rewrite (bind_ok _ _ _ _ _ Hcall).
    unfold bind, lift, py_in, py_getitem, py_get, has_key, ok, raise.
    rewrite Hres. cbn iota beta. rewrite Hpeers. cbn iota beta.
    rewrite Hsync. reflexivity.
Qed.

(** ** Further properties: the summary *)

Lemma filter_partition_length {A : Type} (f : A -> bool) (l : list A) :
  (List.length (filter f l) + List.length (filter (fun x => negb (f x)) l)
   = List.length l)%nat.
Proof.
  induction l as [| x l IH]; [reflexivity |].
  cbn [filter]. destruct (f x); cbn [negb List.length]; lia.
Qed.

(** X1: in every summary the passed and the failed counts add up to the
    total, the failure list has one line per failed entry, and its lines
    are the name and message of the failed entries, no others. *)
Theorem summary_counts log :
  (sum_passed (summarize log) + sum_failed (summarize log)
   = sum_total (summarize log))%nat /\
  List.length (sum_failures (summarize log)) = sum_failed (summarize log) /\
  (forall nm msg,
      In (nm, msg) (sum_failures (summarize log)) <->
      exists r, In r log /\ passed r = false /\ name r = nm /\ message r = msg).
Proof.
  cbn [summarize sum_passed sum_failed sum_total sum_failures].
  assert (Hlist :
    (if (0 <? List.length (filter (fun r => negb (passed r)) log))%nat
     then map (fun r => (name r, message r))
            (filter (fun r => negb (passed r)) log)
     else []) =
    map (fun r => (name r, message r)) (filter (fun r => negb (passed r)) log)).
  { destruct (filter (fun r => negb (passed r)) log); reflexivity. }
  rewrite Hlist. split; [apply filter_partition_length | split].
  - apply length_map.
  - intros nm msg. rewrite in_map_iff. split.
    + intros (r & Heq & Hin). apply filter_In in Hin. destruct Hin as [Hin Hp].
      injection Heq as <- <-. exists r.
      apply negb_true_iff in Hp. repeat split; assumption.
    + intros (r & Hin & Hp & <- & <-). exists r. split; [reflexivity |].
      apply filter_In. split; [exact Hin | rewrite Hp; reflexivity].
Qed.

(** ** Further properties: what a run never touches *)

Section EveryProbe.

Variable P : NodeAgent -> Prop.

Hypothesis P_record : forall nm p msg d, preserves P (record nm p msg d).
Hypothesis P_rpc_call : forall method params, preserves P (rpc_call method params).
Hypothesis P_health : preserves P (faucet_call "/health" GET None).
Hypothesis P_drip :
  forall address,
    preserves P (faucet_call "/drip" POST (Some (PDict [("address", PStr address)]))).

Lemma ignore_keeps {A : Type} (m : M A) : preserves P m -> preserves P (ignore m).
Proof.
  intros H. unfold ignore. apply preserves_bind; [exact H |].
  intros a. apply preserves_ret.
Qed.

Lemma probes_keep address rewards_address p :
  In p (probes address rewards_address) -> preserves P p.
Proof.
  intros Hp. cbn [probes In] in Hp.
  repeat (destruct Hp as [<- | Hp];
          [apply ignore_keeps;
           first [ apply test_connection_keeps
                 | apply test_chain_info_keeps
                 | apply test_peers_keeps
                 | apply test_faucet_health_keeps
                 | apply test_faucet_drip_keeps
                 | apply generate_test_account_keeps
                 | apply test_account_balance_keeps
                 | apply test_qrng_config_keeps
                 | apply test_qrng_device_queues_keeps
                 | apply test_qrng_reconstruction_keeps
                 | apply test_notarial_service_keeps
                 | apply test_governance_stats_keeps
                 | apply test_proposals_keeps
                 | apply test_validator_set_keeps
                 | apply test_rewards_info_keeps
                 | apply test_gateway_balance_keeps
                 | apply test_gateway_nonce_keeps ]; assumption |]).
  contradiction.
Qed.

End EveryProbe.

Lemma faucet_call_state endpoint method data s :
  snd (faucet_call endpoint method data s) = s \/
  exists r, snd (faucet_call endpoint method data s) = push_sent r s.
Proof.
  rewrite faucet_call_run.
  destruct (url_configured (faucet_url s)); [right; eexists |left]; reflexivity.
Qed.

(** X2: the log only grows.  Whatever a probe or a pipeline does, and
    whether it returns or raises, the log it leaves is the log it found
    followed by new entries: no entry is removed, changed or reordered. *)
Theorem log_append_only :
  (forall address rewards_address p s,
      In p (probes address rewards_address) ->
      exists l, results (snd (p s)) = (results s ++ l)%list) /\
  (forall s, exists l, results (snd (run_health_check s)) = (results s ++ l)%list) /\
  (forall s, exists l, results (snd (run_full_test s)) = (results s ++ l)%list).
Proof.
  assert (Hrecord : forall s0 nm p msg d,
             preserves (fun s' => exists l, results s' = (results s0 ++ l)%list)
               (record nm p msg d)).
  { intros s0 nm p msg d s [l Hl]. cbn [record snd push_result results].
    exists (l ++ [{| name := nm; passed := p; message := msg; details := d |}])%list.
    rewrite Hl, app_assoc. reflexivity. }
  assert (Hrpc : forall s0 method params,
             preserves (fun s' => exists l, results s' = (results s0 ++ l)%list)
               (rpc_call method params)).
  { intros s0 method params s Hs. rewrite rpc_call_run. exact Hs. }
  assert (Hfaucet : forall s0 endpoint method data,
             preserves (fun s' => exists l, results s' = (results s0 ++ l)%list)
               (faucet_call endpoint method data)).
  { intros s0 endpoint method data s Hs.
    destruct (faucet_call_state endpoint method data s) as [-> | [r ->]];
      exact Hs. }
  refine (conj _ (conj _ _)).
  - intros address rewards_address p s Hp.
    apply (probes_keep _ (Hrecord s) (Hrpc s) (Hfaucet s _ _ _)
             (fun a => Hfaucet s _ _ _) address rewards_address p Hp).
    exists []. symmetry. apply app_nil_r.
  - intros s.
    apply (run_health_check_keeps _ (Hrecord s) (Hrpc s) (Hfaucet s _ _ _)).
    exists []. symmetry. apply app_nil_r.
  - intros s.
    apply (run_full_test_keeps _ (Hrecord s) (Hrpc s) (Hfaucet s _ _ _)
             (fun a => Hfaucet s _ _ _)).
    exists []. symmetry. apply app_nil_r.
Qed.

Lemma same_endpoints_record s0 nm p msg d :
  preserves (same_endpoints s0) (record nm p msg d).
Proof. intros s Hs. exact Hs. Qed.

Lemma same_endpoints_rpc_call s0 method params :
  preserves (same_endpoints s0) (rpc_call method params).
Proof. intros s Hs. rewrite rpc_call_run. exact Hs. Qed.

Lemma same_endpoints_faucet_call s0 endpoint method data :
  preserves (same_endpoints s0) (faucet_call endpoint method data).
Proof.
  intros s Hs.
  destruct (faucet_call_state endpoint method data s) as [-> | [r ->]]; exact Hs.
Qed.

Lemma pipelines_keep_endpoints s :
  same_endpoints s (snd (run_health_check s)) /\
  same_endpoints s (snd (run_full_test s)).
Proof.
  split.
  - apply (run_health_check_keeps _ (same_endpoints_record s)
             (same_endpoints_rpc_call s) (same_endpoints_faucet_call s _ _ _)).
    split; reflexivity.
  - apply (run_full_test_keeps _ (same_endpoints_record s)
             (same_endpoints_rpc_call s) (same_endpoints_faucet_call s _ _ _)
             (fun a => same_endpoints_faucet_call s _ _ _)).
    split; reflexivity.
Qed.

(** X3: the endpoints are fixed at construction: no probe and no pipeline
    changes the node url or the faucet url of the agent, whether it returns
    or raises. *)
Theorem endpoints_immutable :
  (forall address rewards_address p s,
      In p (probes address rewards_address) ->
      node_url (snd (p s)) = node_url s /\ faucet_url (snd (p s)) = faucet_url s) /\
  (forall s,
      node_url (snd (run_health_check s)) = node_url s /\
      faucet_url (snd (run_health_check s)) = faucet_url s) /\
  (forall s,
      node_url (snd (run_full_test s)) = node_url s /\
      faucet_url (snd (run_full_test s)) = faucet_url s).
Proof.
  refine (conj _ (conj _ _)).
  - intros address rewards_address p s Hp.
    apply (probes_keep _ (same_endpoints_record s) (same_endpoints_rpc_call s)
             (same_endpoints_faucet_call s _ _ _)
             (fun a => same_endpoints_faucet_call s _ _ _)
             address rewards_address p Hp).
    split; reflexivity.
  - intros s. exact (proj1 (pipelines_keep_endpoints s)).
  - intros s. exact (proj2 (pipelines_keep_endpoints s)).
Qed.

Lemma url_configured_some u f : url_configured u = Some f -> u = Some f.
Proof.
  destruct u as [url |]; cbn [url_configured]; [| discriminate].
  destruct (String.eqb url EmptyString); [discriminate |]. intros H. exact H.
Qed.

(** X4: the endpoints [main] runs on.  A non-empty faucet url on the command
    line is the one the run keeps; without one, a node url that mentions
    localhost or 127.0.0.1 gives the local faucet, else one that mentions
    51.79.26 gives the faucet of that host, else the run has no faucet.  The
    guess reads the node url as typed, before [ws] is rewritten. *)
Theorem main_endpoints a :
  node_url (snd (main a)) = node_url (__init__ (arg_node a) None) /\
  faucet_url (snd (main a)) = main_faucet_url a /\
  (forall f, url_configured (arg_faucet a) = Some f ->
             faucet_url (snd (main a)) = Some f) /\
  (url_configured (arg_faucet a) = None ->
   str_contains "localhost" (arg_node a) = true \/
   str_contains "127.0.0.1" (arg_node a) = true ->
   faucet_url (snd (main a)) = Some "http://localhost:3000") /\
  (url_configured (arg_faucet a) = None ->
   str_contains "localhost" (arg_node a) = false ->
   str_contains "127.0.0.1" (arg_node a) = false ->
   str_contains "51.79.26" (arg_node a) = true ->
   faucet_url (snd (main a)) = Some "http://51.79.26.123:3000") /\
  (url_configured (arg_faucet a) = None ->
   str_contains "localhost" (arg_node a) = false ->
   str_contains "127.0.0.1" (arg_node a) = false ->
   str_contains "51.79.26" (arg_node a) = false ->
   url_configured (faucet_url (snd (main a))) = None).
Proof.
  assert (Hkept : same_endpoints (__init__ (arg_node a) (main_faucet_url a))
                    (snd (main a))).
  { unfold main. cbv zeta.
    destruct (pipelines_keep_endpoints
                (__init__ (arg_node a) (main_faucet_url a))) as [Hh Hf].
    destruct (arg_full_test a); assumption. }
  destruct Hkept as [Hnode Hfaucet]. cbn [__init__ node_url faucet_url] in *.
  rewrite Hnode, Hfaucet. unfold main_faucet_url.
  refine (conj eq_refl (conj eq_refl (conj _ (conj _ (conj _ _))))).
  - intros f Hf. rewrite Hf. apply url_configured_some. exact Hf.
  - intros Hnone [H | H]; rewrite Hnone, H; [| rewrite orb_true_r]; reflexivity.
  - intros Hnone H1 H2 H3. rewrite Hnone, H1, H2, H3. reflexivity.
  - intros Hnone H1 H2 H3. rewrite Hnone, H1, H2, H3. exact Hnone.
Qed.

(** X5: without a faucet url (none, or the empty text) the faucet is never
    called: [faucet_call] answers its own error object, and the two faucet
    probes record their "No faucet URL configured" failure, each leaving the
    requests sent as they were. *)
Theorem faucet_unconfigured s :
  url_configured (faucet_url s) = None ->
  (forall endpoint method data,
      faucet_call endpoint method data s =
        (ok (PDict [("error",
                     PDict [("message", PStr "No faucet URL configured")])]),
         s)) /\
  test_faucet_health s =
    (ok false,
     push_result {| name := "Faucet Health"; passed := false;
                    message := "No faucet URL configured";
                    details := PNone |} s) /\
  (forall address,
      test_faucet_drip address s =
        (ok false,
         push_result {| name := "Faucet Drip"; passed := false;
                        message := "No faucet URL configured";
                        details := PNone |} s)).
Proof.
  intros Hnone. refine (conj _ (conj _ _)).
  - intros endpoint method data. rewrite faucet_call_run, Hnone. reflexivity.
  - unfold test_faucet_health.
    rewrite (bind_ok _ _ _ _ _ (get_faucet_url_run s)), Hnone. reflexivity.
  - intros address. unfold test_faucet_drip.
    rewrite (bind_ok _ _ _ _ _ (get_faucet_url_run s)), Hnone. reflexivity.
Qed.

(** ** Further properties: the verdict of single probes *)


Lemma test_account_balance_passes address s a s' :
  test_account_balance address s = (ok a, s') ->
  exists msg,
    s' = push_result {| name := "Account Balance"; passed := true;
                        message := msg;
                        details := PDict [("balance", PInt a)] |}
           (push_sent
              (Post (node_url s)
                 (envelope (rpc_id s + 1) "system_account"
                    (Some [PStr address])))
              (bump_id s)).
Proof.
  unfold test_account_balance. unfold_run. intros H. cbn in H. run_cases H;
    try discriminate H; injection H as <- <-; eexists; reflexivity.
Qed.

(** X7: the balance probe never records a failure.  Whenever it returns,
    its one entry is passed and carries the balance it returns; a response
    without [result] (every transport failure is one) or with a falsy
    [result] is reported as balance 0 of a new account, and an account
    object is reported with [int(free)], where a missing [free] counts 0. *)
Theorem account_balance_verdict address s :
  (forall a s',
      test_account_balance address s = (ok a, s') ->
      exists r,
        results s' = (results s ++ [r])%list /\
        passed r = true /\ details r = PDict [("balance", PInt a)]) /\
  (forall d s1,
      rpc_call "system_account" (Some [PStr address]) s = (ok (PDict d), s1) ->
      (lookup "result" d = None \/
       exists x, lookup "result" d = Some x /\ truthy x = false) ->
      test_account_balance address s =
        (ok 0,
         push_result {| name := "Account Balance"; passed := true;
                        message := "Balance: 0 (new account)";
                        details := PDict [("balance", PInt 0)] |} s1)) /\
  (forall o,
      respond w (sent s)
        (Post (node_url s)
           (envelope (rpc_id s + 1) "system_account" (Some [PStr address]))) = o ->
      transport_failure o = true ->
      fst (test_account_balance address s) = ok 0) /\
  (forall d s1 acct inner n,
      rpc_call "system_account" (Some [PStr address]) s = (ok (PDict d), s1) ->
      lookup "result" d = Some (PDict acct) ->
      lookup "data" acct = Some (PDict inner) ->
      py_int match lookup "free" inner with
             | Some free => free
             | None => PInt 0
             end = ok n ->
      test_account_balance address s =
        (ok n,
         push_result {| name := "Account Balance"; passed := true;
                        message := "Balance: " ++ str_of_Z n ++ " units";
                        details := PDict [("balance", PInt n)] |} s1)).
Proof.
  refine (conj _ (conj _ (conj _ _))).
  - intros a s' H. apply test_account_balance_passes in H.
    destruct H as [msg ->]. eexists. repeat split.
  - intros d s1 Hcall Hres. unfold test_account_balance.
    rewrite (bind_ok _ _ _ _ _ Hcall).
    unfold bind, lift, py_in, py_getitem, has_key, ok, raise.
    destruct Hres as [Hres | (x & Hres & Hx)]; rewrite Hres; cbn iota beta;
      [| rewrite Hx]; reflexivity.
  - intros o Ho Hfail. unfold test_account_balance.
    rewrite (bind_ok _ _ _ _ _ (rpc_call_run _ _ s)). rewrite Ho.
    destruct o; [discriminate Hfail | reflexivity ..].
  - intros d s1 acct inner n Hcall Hres Hdata Hfree.
    unfold test_account_balance. rewrite (bind_ok _ _ _ _ _ Hcall).
    unfold bind, lift, py_in, py_getitem, py_get, has_key, ok, raise.
    rewrite Hres. cbn iota beta.
    assert (Htruthy : truthy (PDict acct) = true)
      by (destruct acct; [discriminate Hdata | reflexivity]).
    rewrite Htruthy, Hdata. cbn iota beta.
    destruct (lookup "free" inner); cbn iota beta; rewrite Hfree; reflexivity.
Qed.

(** X8: given the response object of [system_peers], a list as [result]
    passes exactly when it is not empty and is reported with its length; a
    [result] that has no length ([null], a number, a boolean) makes the
    probe raise [TypeError] with nothing recorded. *)
Theorem peers_verdict s d s1 :
  rpc_call "system_peers" None s = (ok (PDict d), s1) ->
  (forall l,
      lookup "result" d = Some (PList l) ->
      test_peers s =
        (ok (PList l),
         push_result
           {| name := "Peer Connections";
              passed := match l with [] => false | _ => true end;
              message := str_of_Z (Z.of_nat (List.length l)) ++ " peers connected";
              details := PDict [("peers", PList l)] |} s1)) /\
  (forall x,
      lookup "result" d = Some x ->
      x = PNone \/ (exists b, x = PBool b) \/ (exists n, x = PInt n) \/
      (exists f, x = PFloat f) ->
      test_peers s = (raise TypeError, s1) /\ results s1 = results s).
Proof.
  intros Hcall. split.
  - intros l Hres. unfold test_peers. rewrite (bind_ok _ _ _ _ _ Hcall).
    unfold bind, lift, py_in, py_getitem, has_key. rewrite Hres.
    destruct l; reflexivity.
  - intros x Hres Hx. split.
    + unfold test_peers. rewrite (bind_ok _ _ _ _ _ Hcall).
      unfold bind, lift, py_in, py_getitem, has_key. rewrite Hres.
      destruct Hx as [-> | [[b ->] | [[n ->] | [f ->]]]]; reflexivity.
    + rewrite rpc_call_run in Hcall. injection Hcall as _ <-. reflexivity.
Qed.

(** X9: the account selected for the tests is never Alice, the account the
    faucet pays from: whatever index is drawn, it is one of the five other
    dev accounts with its genesis address, the selection is recorded as
    passed, and no request is sent. *)
Theorem account_selection s :
  exists acct r,
    generate_test_account s = (ok acct, push_result r s) /\
    In (acc_name acct) test_names /\
    assoc (acc_name acct) DEV_ACCOUNTS = Some (acc_address acct) /\
    acc_name acct <> "Alice" /\
    acc_address acct <> alice /\
    name r = "Account Selection" /\ passed r = true /\
    details r = PDict [("address", PStr (acc_address acct));
                       ("name", PStr (acc_name acct))].
Proof.
  unfold generate_test_account. cbn [test_names List.length].
  pose proof (Nat.mod_upper_bound (randbelow w 5) 5 ltac:(discriminate)) as Hk.
  destruct (randbelow w 5 mod 5)%nat as [| [| [| [| [| i]]]]]; [.. | lia];
    (eexists; eexists; split; [reflexivity |];
     cbn; repeat split; try discriminate; tauto).
Qed.

Ltac decide_by_result Hcall :=
  rewrite (bind_ok _ _ _ _ _ Hcall);
  unfold bind, lift, py_in, py_getitem, has_key;
  destruct (lookup "result" _);
  (eexists; eexists; split; [reflexivity | split; reflexivity]).

(** X10: the probes that only look for a [result] member.  Given a response
    object, the device-queue, reconstruction-history, governance-stats,
    proposals and validator-set probes return, and the one entry they
    record is passed exactly when the object has a [result] member,
    whatever its value ([null], a number, an object); a transport failure,
    which has none, is recorded as failed. *)
Theorem result_only_probes :
  result_decides "qrng_getDeviceQueues" None "QRNG Queues"
    test_qrng_device_queues /\
  result_decides "qrng_getReconstructionHistory" (Some [PInt 10]) "QRNG History"
    test_qrng_reconstruction /\
  result_decides "quantumharmony_getGovernanceStats" None "Governance Stats"
    test_governance_stats /\
  result_decides "quantumharmony_getProposals" None "Proposals"
    test_proposals /\
  result_decides "quantumharmony_getValidatorSet" None "Validator Set"
    test_validator_set /\
  (forall o, transport_failure o = true ->
             exists e, post_result o = PDict e /\ has_key "result" e = false).
Proof.
  refine (conj _ (conj _ (conj _ (conj _ (conj _ _)))));
    try (intros s d s1 Hcall).
  - unfold test_qrng_device_queues. decide_by_result Hcall.
  - unfold test_qrng_reconstruction. decide_by_result Hcall.
  - unfold test_governance_stats. decide_by_result Hcall.
  - unfold test_proposals. decide_by_result Hcall.
  - unfold test_validator_set. decide_by_result Hcall.
  - intros o Ho. destruct o; [discriminate Ho | ..];
      eexists; split; reflexivity.
Qed.

(** X11: the counts reported.  The proposals and validator-set probes
    report the length of a list [result] and 0 for any other [result]
    ([null], an object, a text), always as passed; they return the
    [result], or the empty list in place of a falsy one. *)
Theorem counted_results s d s1 x :
  lookup "result" d = Some x ->
  (rpc_call "quantumharmony_getProposals" None s = (ok (PDict d), s1) ->
   test_proposals s =
     (ok (py_or x (PList [])),
      push_result
        {| name := "Proposals"; passed := true;
           message := str_of_Z (list_count x) ++ " proposals";
           details := PDict [("count", PInt (list_count x))] |} s1)) /\
  (rpc_call "quantumharmony_getValidatorSet" None s = (ok (PDict d), s1) ->
   test_validator_set s =
     (ok (py_or x (PList [])),
      push_result
        {| name := "Validator Set"; passed := true;
           message := str_of_Z (list_count x) ++ " validators";
           details := PDict [("count", PInt (list_count x))] |} s1)) /\
  (forall l, x = PList l -> list_count x = Z.of_nat (List.length l)) /\
  ((forall l, x <> PList l) -> list_count x = 0).
Proof.
  intros Hres.
  assert (Hcount : list_count (py_or x (PList [])) = list_count x).
  { unfold py_or. destruct (truthy x) eqn:Hx; [reflexivity |].
    destruct x as [| | | | | l |]; try reflexivity.
    destruct l; [reflexivity | discriminate Hx]. }
  refine (conj _ (conj _ (conj _ _))).
  - intros Hcall. unfold test_proposals. rewrite (bind_ok _ _ _ _ _ Hcall).
    unfold bind, lift, py_in, py_getitem, has_key, ok, raise. rewrite Hres.
    cbn iota beta zeta. rewrite Hcount. reflexivity.
  - intros Hcall. unfold test_validator_set. rewrite (bind_ok _ _ _ _ _ Hcall).
    unfold bind, lift, py_in, py_getitem, has_key, ok, raise. rewrite Hres.
    cbn iota beta zeta. rewrite Hcount. reflexivity.
  - intros l ->. reflexivity.
  - intros Hnot. destruct x as [| | | | | l |]; try reflexivity.
    exfalso. apply (Hnot l). reflexivity.
Qed.

(** X12: the gateway probes pass exactly when the response object has a
    [result] member, keep the raw [result] in the details, and return it
    only when it is an int: a balance or nonce sent as text, as a float or
    as [null] is returned as 0, and so is a missing one. *)
Theorem gateway_verdict address s d s1 :
  (rpc_call "gateway_balance" (Some [PStr address]) s = (ok (PDict d), s1) ->
   (forall x,
       lookup "result" d = Some x ->
       test_gateway_balance address s =
         (ok (if isinstance_int x then x else PInt 0),
          push_result
            {| name := "Gateway Balance"; passed := true;
               message := "Balance: " ++ py_str x;
               details := PDict [("balance", x)] |} s1)) /\
   (lookup "result" d = None ->
    test_gateway_balance address s =
      (ok (PInt 0),
       push_result
         {| name := "Gateway Balance"; passed := false;
            message := "Failed to get balance"; details := PNone |} s1))) /\
  (rpc_call "gateway_nonce" (Some [PStr address]) s = (ok (PDict d), s1) ->
   (forall x,
       lookup "result" d = Some x ->
       test_gateway_nonce address s =
         (ok (if isinstance_int x then x else PInt 0),
          push_result
            {| name := "Gateway Nonce"; passed := true;
               message := "Nonce: " ++ py_str x;
               details := PDict [("nonce", x)] |} s1)) /\
   (lookup "result" d = None ->
    test_gateway_nonce address s =
      (ok (PInt 0),
       push_result
         {| name := "Gateway Nonce"; passed := false;
            message := "Failed to get nonce"; details := PNone |} s1))) /\
  (forall t f,
      isinstance_int (PStr t) = false /\ isinstance_int (PFloat f) = false /\
      isinstance_int PNone = false).
Proof.
  refine (conj _ (conj _ _)).
  - intros Hcall. unfold test_gateway_balance.
    rewrite (bind_ok _ _ _ _ _ Hcall).
    unfold bind, lift, py_in, py_getitem, has_key.
    split; [intros x Hres | intros Hres]; rewrite Hres; reflexivity.
  - intros Hcall. unfold test_gateway_nonce.
    rewrite (bind_ok _ _ _ _ _ Hcall).
    unfold bind, lift, py_in, py_getitem, has_key.
    split; [intros x Hres | intros Hres]; rewrite Hres; reflexivity.
  - intros t f. repeat split.
Qed.

(** X13: the gate of the pipelines.  What [test_connection] returns is the
    verdict it recorded; and on a transport failure it returns [False],
    having recorded "Failed: " followed by the text of the failure (the
    [str] of an HTTP error, the reason of a URL error). *)
Theorem connection_gate s :
  (forall a s',
      test_connection s = (ok a, s') ->
      exists r,
        results s' = (results s ++ [r])%list /\
        name r = "RPC Connection" /\ passed r = a) /\
  (forall o,
      respond w (sent s)
        (Post (node_url s) (envelope (rpc_id s + 1) "system_health" None)) = o ->
      transport_failure o = true ->
      test_connection s =
        (ok false,
         push_result
           {| name := "RPC Connection"; passed := false;
              message := "Failed: " ++ failure_text o; details := PNone |}
           (push_sent
              (Post (node_url s) (envelope (rpc_id s + 1) "system_health" None))
              (bump_id s)))).
Proof.
  split.
  - intros a s' H. apply test_connection_footprint in H.
    destruct H as (r & (Hres & Hname & _) & Hpass). exists r.
    repeat split; assumption.
  - intros o Ho Hfail. unfold test_connection.
    rewrite (bind_ok _ _ _ _ _ (rpc_call_run _ _ s)). rewrite Ho.
    destruct o; [discriminate Hfail | reflexivity ..].
Qed.

(** X14: an unreachable node does not fail the notarial probe.  On a
    transport failure whose code is not -32601 (a URL error and any other
    exception have code -1, an HTTP error its status) the probe records
    "Notarial service responding" as passed, with the error object as
    details. *)
Theorem notarial_on_failure s o :
  respond w (sent s)
    (Post (node_url s)
       (envelope (rpc_id s + 1) "notarial_getAttestationsByOwner"
          (Some [PStr alice]))) = o ->
  transport_failure o = true ->
  failure_code o <> -32601 ->
  test_notarial_service s =
    (ok true,
     push_result
       {| name := "Notarial Service"; passed := true;
          message := "Notarial service responding";
          details := post_result o |}
       (push_sent
          (Post (node_url s)
             (envelope (rpc_id s + 1) "notarial_getAttestationsByOwner"
                (Some [PStr alice])))
          (bump_id s))) /\
  (forall reason text,
      failure_code (URLError reason) = -1 /\
      failure_code (OtherException text) = -1).
Proof.
  intros Ho Hfail Hcode. split; [| intros reason text; split; reflexivity].
  unfold test_notarial_service.
  rewrite (bind_ok _ _ _ _ _ (rpc_call_run _ _ s)). rewrite Ho.
  destruct o as [v | code msg | reason | text];
    [discriminate Hfail | | reflexivity | reflexivity].
  cbn [failure_code] in Hcode.
  unfold bind, lift. cbn.
  destruct (Z.eqb_spec code (-32601)) as [Heq | Hne];
    [contradiction | reflexivity].
Qed.

Lemma test_chain_info_passes s a s' :
  test_chain_info s = (ok a, s') ->
  exists r,
    results s' = (results s ++ [r])%list /\
    name r = "Chain Info" /\ passed r = true /\ details r = a /\
    rpc_id s' = rpc_id s + 4.
Proof.
  unfold test_chain_info. unfold_run. intros H. cbn in H. run_cases H;
    try discriminate H; injection H as <- <-; eexists;
    cbn [results rpc_id push_result push_sent bump_id name passed details];
    repeat split; lia.
Qed.

(** X15: chain info is best effort.  Whenever the probe returns it has made
    its four calls and its one entry is passed, with the gathered object as
    details; on a node that answers nothing every part falls back to its
    placeholder, "Unknown @ block #0 (Unknown)". *)
Theorem chain_info_best_effort s :
  (forall a s',
      test_chain_info s = (ok a, s') ->
      exists r,
        results s' = (results s ++ [r])%list /\
        name r = "Chain Info" /\ passed r = true /\ details r = a /\
        rpc_id s' = rpc_id s + 4) /\
  (unreachable ->
   exists s',
     test_chain_info s =
       (ok (PDict [("chain", PStr "Unknown"); ("block", PInt 0);
                   ("runtime", PStr "Unknown"); ("node_name", PStr "Unknown")]),
        s') /\
     results s' =
       (results s ++
        [{| name := "Chain Info"; passed := true;
            message := "Unknown @ block #0 (Unknown)";
            details :=
              PDict [("chain", PStr "Unknown"); ("block", PInt 0);
                     ("runtime", PStr "Unknown");
                     ("node_name", PStr "Unknown")] |}])%list).
Proof.
  split; [intros a s' H; exact (test_chain_info_passes s a s' H) |].
  intros Hdown. unfold test_chain_info. unfold_run. cbn.
  repeat match goal with
         | |- context [respond w ?l ?r] =>
             let Hf := fresh "Hf" in
             pose proof (Hdown l r) as Hf;
             destruct (respond w l r); [discriminate Hf | ..]; clear Hf; cbn
         end;
    (eexists; split; reflexivity).
Qed.

Lemma starts_with_app n s q :
  starts_with n s = true -> starts_with n (s ++ q) = true.
Proof.
  revert s. induction n as [| a n IH]; intros s H; [reflexivity |].
  destruct s as [| b s]; [discriminate H |].
  cbn [starts_with append] in *. apply andb_prop in H. destruct H as [H1 H2].
  rewrite H1, (IH s H2). reflexivity.
Qed.

Lemma str_contains_app_r n s q :
  str_contains n s = true -> str_contains n (s ++ q) = true.
Proof.
  induction s as [| c s IH]; intros H.
  - cbn [str_contains] in H. rewrite orb_false_r in H.
    destruct n; [| discriminate H].
    destruct q; reflexivity.
  - cbn [str_contains append] in *. apply orb_prop in H. destruct H as [H | H].
    + change (String c (s ++ q)) with (String c s ++ q).
      rewrite (starts_with_app _ _ _ H). reflexivity.
    + rewrite (IH H). apply orb_true_r.
Qed.

Lemma str_contains_app_l n p s :
  str_contains n s = true -> str_contains n (p ++ s) = true.
Proof.
  intros H. induction p as [| c p IH]; [exact H |].
  cbn [append str_contains]. rewrite IH. apply orb_true_r.
Qed.

(** X16: the failures of the faucet that get their own message.  Every
    HTTP 502 on [GET /health] is recorded as "502 Bad Gateway - Faucet
    service is down", whatever the status text; and a refused connection (a
    URL error whose reason mentions "Connection refused") is recorded with
    one of the two specific messages, never with the generic "Error: ..."
    one. *)
Theorem faucet_health_transport s base :
  url_configured (faucet_url s) = Some base ->
  (forall msg,
      respond w (sent s) (Get (base ++ "/health")) = HTTPError 502 msg ->
      test_faucet_health s =
        (ok false,
         push_result
           {| name := "Faucet Health"; passed := false;
              message := "502 Bad Gateway - Faucet service is down";
              details := PNone |}
           (push_sent (Get (base ++ "/health")) s))) /\
  (forall reason,
      respond w (sent s) (Get (base ++ "/health")) = URLError reason ->
      str_contains "Connection refused" reason = true ->
      exists msg,
        test_faucet_health s =
          (ok false,
           push_result
             {| name := "Faucet Health"; passed := false;
                message := msg; details := PNone |}
             (push_sent (Get (base ++ "/health")) s)) /\
        (msg = "502 Bad Gateway - Faucet service is down" \/
         msg = "Connection refused - Faucet not running")).
Proof.
  intros Hcfg.
  assert (Hcall : forall o,
             respond w (sent s) (Get (base ++ "/health")) = o ->
             faucet_call "/health" GET None s =
               (ok (get_result o), push_sent (Get (base ++ "/health")) s)).
  { intros o Ho. rewrite faucet_call_run, Hcfg. cbn zeta. rewrite Ho.
    reflexivity. }
  split.
  - intros msg Ho. unfold test_faucet_health.
    rewrite (bind_ok _ _ _ _ _ (get_faucet_url_run s)), Hcfg.
    rewrite (bind_ok _ _ _ _ _ (Hcall _ Ho)). reflexivity.
  - intros reason Ho Hrefused. unfold test_faucet_health.
    rewrite (bind_ok _ _ _ _ _ (get_faucet_url_run s)), Hcfg.
    rewrite (bind_ok _ _ _ _ _ (Hcall _ Ho)).
    assert (Htext : str_contains "Connection refused" (str_URLError reason) = true).
    { unfold str_URLError. apply str_contains_app_l, str_contains_app_r.
      exact Hrefused. }
    unfold bind, lift. cbn [get_result error_response py_in has_key lookup
      String.eqb Ascii.eqb Bool.eqb py_getitem py_get ok py_str].
    cbn iota beta.
    destruct (str_contains "502" (str_URLError reason)
              || str_contains "Bad Gateway" (str_URLError reason)).
    + eexists. split; [reflexivity | left; reflexivity].
    + rewrite Htext. eexists. split; [reflexivity | right; reflexivity].
Qed.

(** X23: the two probes that read members of an object [result].  The
    QRNG-config and rewards probes pass on an object, reporting "?" (and
    "0" for the pending rewards) for a missing member; a [result] that is
    not an object ([null], a list, a number, a text) makes them raise
    [AttributeError] with nothing recorded; a missing [result] is recorded as
    failed.  The rewards probe asks for Alice when it is given no address or
    an empty one. *)
Theorem object_result_probes s d s1 :
  (rpc_call "qrng_getConfig" None s = (ok (PDict d), s1) ->
   (forall c,
       lookup "result" d = Some (PDict c) ->
       test_qrng_config s =
         (ok (PDict c),
          push_result
            {| name := "QRNG Config"; passed := true;
               message :=
                 "Threshold: " ++
                 py_str match lookup "threshold_k" c with
                        | Some k => k
                        | None => PStr "?"
                        end ++
                 "-of-" ++
                 py_str match lookup "total_devices_m" c with
                        | Some m => m
                        | None => PStr "?"
                        end;
               details := PDict c |} s1)) /\
   (forall x,
       lookup "result" d = Some x -> is_dict x = false ->
       test_qrng_config s = (raise AttributeError, s1)) /\
   (lookup "result" d = None ->
    test_qrng_config s =
      (ok (PDict []),
       push_result {| name := "QRNG Config"; passed := false;
                      message := "Failed to get config";
                      details := PNone |} s1))) /\
  (forall address,
      rpc_call "quantumharmony_getRewardsInfo"
        (Some [PStr match address with
                    | Some a => if String.eqb a EmptyString then alice else a
                    | None => alice
                    end]) s = (ok (PDict d), s1) ->
      (forall c,
          lookup "result" d = Some (PDict c) ->
          test_rewards_info address s =
            (ok (PDict c),
             push_result
               {| name := "Rewards Info"; passed := true;
                  message :=
                    "Pending: " ++
                    py_str match lookup "pending_rewards" c with
                           | Some p => p
                           | None => PStr "0"
                           end ++
                    ", Multiplier: " ++
                    py_str match lookup "reward_multiplier" c with
                           | Some m => m
                           | None => PStr "?"
                           end;
                  details := PDict c |} s1)) /\
      (forall x,
          lookup "result" d = Some x -> is_dict x = false ->
          test_rewards_info address s = (raise AttributeError, s1)) /\
      (lookup "result" d = None ->
       test_rewards_info address s =
         (ok (PDict []),
          push_result {| name := "Rewards Info"; passed := false;
                         message := "Failed to get rewards info";
                         details := PNone |} s1))).
Proof.
  split.
  - intros Hcall. unfold test_qrng_config. rewrite (bind_ok _ _ _ _ _ Hcall).
    unfold bind, lift, py_in, py_getitem, py_get, has_key, ok, raise.
    refine (conj _ (conj _ _)).
    + intros c Hres. rewrite Hres. cbn iota beta.
      destruct (lookup "threshold_k" c); destruct (lookup "total_devices_m" c);
        reflexivity.
    + intros x Hres Hx. rewrite Hres.
      destruct x; try discriminate Hx; reflexivity.
    + intros Hres. rewrite Hres. reflexivity.
  - intros address Hcall. unfold test_rewards_info. cbv zeta.
    rewrite (bind_ok _ _ _ _ _ Hcall).
    unfold bind, lift, py_in, py_getitem, py_get, has_key, ok, raise.
    refine (conj _ (conj _ _)).
    + intros c Hres. rewrite Hres. cbn iota beta.
      destruct (lookup "pending_rewards" c);
        destruct (lookup "reward_multiplier" c); reflexivity.
    + intros x Hres Hx. rewrite Hres.
      destruct x; try discriminate Hx; reflexivity.
    + intros Hres. rewrite Hres. reflexivity.
Qed.

(** ** Further properties: whole runs *)

(** Invert every bind of the run in [H]. *)
Ltac steps H :=
  repeat (let a := fresh "a" in
          let s := fresh "s" in
          let Hm := fresh "Hm" in
          apply bind_ok_inv in H; destruct H as (a & s & Hm & H)).

Ltac footprints :=
  repeat match goal with
    | H : test_connection _ = (ok _, _) |- _ =>
        apply test_connection_footprint in H; destruct H as (? & H & _)
    | H : test_chain_info _ = (ok _, _) |- _ =>
        apply test_chain_info_footprint in H; destruct H as (? & H)
    | H : test_peers _ = (ok _, _) |- _ =>
        apply test_peers_footprint in H; destruct H as (? & H)
    | H : test_faucet_health _ = (ok _, _) |- _ =>
        apply test_faucet_health_footprint in H; destruct H as (? & H & _)
    | H : test_qrng_config _ = (ok _, _) |- _ =>
        apply test_qrng_config_footprint in H; destruct H as (? & H)
    | H : test_notarial_service _ = (ok _, _) |- _ =>
        apply test_notarial_service_footprint in H; destruct H as (? & H)
    | H : test_governance_stats _ = (ok _, _) |- _ =>
        apply test_governance_stats_footprint in H; destruct H as (? & H)
    | H : test_validator_set _ = (ok _, _) |- _ =>
        apply test_validator_set_footprint in H; destruct H as (? & H)
    end.

Lemma health_pipeline_log node faucet sm s' :
  run_health_check (__init__ node faucet) = (ok (Some sm), s') ->
  map name (results s') = health_names /\ sm = summarize (results s').
Proof.
  unfold run_health_check. intros H. steps H.
  destruct a; cbn [negb] in H; [| discriminate H].
  steps H.
  match goal with
  | Hp : print_summary _ = _ |- _ =>
      unfold print_summary in Hp; injection Hp as <- <-
  end.
  unfold ret in H. injection H as <- <-.
  footprints. unwind.
  change (results (__init__ node faucet)) with (@nil TestResult).
  cbn [app map].
  repeat match goal with Hn : name _ = _ |- _ => rewrite Hn; clear Hn end.
  split; reflexivity.
Qed.

Lemma full_pipeline_summary s sm s' :
  run_full_test s = (ok (Some sm), s') -> sm = summarize (results s').
Proof.
  unfold run_full_test. intros H. steps H.
  destruct a; cbn [negb] in H; [| discriminate H].
  steps H.
  match goal with
  | Hp : print_summary _ = _ |- _ =>
      unfold print_summary in Hp; injection Hp as <- <-
  end.
  unfold ret in H. injection H as <- <-. reflexivity.
Qed.

Lemma service_status_known log n :
  In n (map name log) -> service_status log n <> UNKNOWN.
Proof.
  intros Hin. unfold service_status.
  destruct (find (fun r => String.eqb (name r) n) log) as [r |] eqn:Hfind.
  - destruct (passed r); discriminate.
  - apply in_map_iff in Hin. destruct Hin as (r & Hr & Hin).
    pose proof (List.find_none _ _ Hfind r Hin) as Hno. cbn beta in Hno.
    rewrite Hr, String.eqb_refl in Hno. discriminate Hno.
Qed.

Lemma table_known log :
  (forall n, In n (map fst services) -> In n (map name log)) ->
  Forall (fun row => snd row <> UNKNOWN) (sum_table (summarize log)).
Proof.
  intros H. cbn [summarize sum_table services map].
  repeat constructor; cbn [snd]; apply service_status_known; apply H;
    cbn; tauto.
Qed.

(** X17: a health check that runs to its end has recorded eight entries,
    one per probe in the order of the pipeline, and its summary counts
    eight results and shows no service as UNKNOWN. *)
Theorem health_run_complete node faucet sm s' :
  run_health_check (__init__ node faucet) = (ok (Some sm), s') ->
  map name (results s') = health_names /\
  sum_total sm = 8%nat /\
  Forall (fun row => snd row <> UNKNOWN) (sum_table sm).
Proof.
  intros H. apply health_pipeline_log in H. destruct H as [Hnames ->].
  split; [exact Hnames | split].
  - cbn [summarize sum_total]. rewrite <- (length_map name), Hnames.
    reflexivity.
  - apply table_known. intros n Hn. rewrite Hnames.
    cbn in Hn. cbn. tauto.
Qed.

(** X18: a full run that reaches its end shows no service as UNKNOWN
    either, and its summary counts 18 results when the "Faucet Health"
    entry, the fourth of the log, is passed, and 16 when it is failed. *)
Theorem full_run_table node faucet sm s' :
  run_full_test (__init__ node faucet) = (ok (Some sm), s') ->
  Forall (fun row => snd row <> UNKNOWN) (sum_table sm) /\
  (exists fh,
      nth_error (results s') 3 = Some fh /\
      name fh = "Faucet Health" /\
      sum_total sm = (if passed fh then 18 else 16)%nat) /\
  sum_total sm = List.length (results s').
Proof.
  intros H. pose proof (full_pipeline_summary _ _ _ H) as ->.
  apply full_pipeline_log in H.
  destruct H as (fh & address & Hnth & Hname & Hnames & _).
  split; [| split].
  - apply table_known. intros n Hn. rewrite Hnames.
    cbn in Hn. unfold full_names. destruct (passed fh); cbn; tauto.
  - exists fh. split; [exact Hnth | split; [exact Hname |]].
    cbn [summarize sum_total]. rewrite <- (length_map name), Hnames.
    destruct (passed fh); reflexivity.
  - reflexivity.
Qed.

(** What a probe that returns has cost: [k] JSON-RPC calls and one entry. *)
Ltac cost :=
  unfold_run;
  let H := fresh "H" in
  intros H; cbn in H; run_cases H; try discriminate H;
  injection H as <- <-;
  cbn [results rpc_id push_result push_sent bump_id];
  rewrite ?length_app; cbn [List.length]; split; lia.

Lemma test_connection_cost s a s' :
  test_connection s = (ok a, s') ->
  rpc_id s' = rpc_id s + 1 /\
  List.length (results s') = S (List.length (results s)).
Proof. unfold test_connection. cost. Qed.

Lemma test_chain_info_cost s a s' :
  test_chain_info s = (ok a, s') ->
  rpc_id s' = rpc_id s + 4 /\
  List.length (results s') = S (List.length (results s)).
Proof. unfold test_chain_info. cost. Qed.

Lemma test_peers_cost s a s' :
  test_peers s = (ok a, s') ->
  rpc_id s' = rpc_id s + 1 /\
  List.length (results s') = S (List.length (results s)).
Proof. unfold test_peers. cost. Qed.

Lemma test_faucet_health_cost s a s' :
  test_faucet_health s = (ok a, s') ->
  rpc_id s' = rpc_id s + 0 /\
  List.length (results s') = S (List.length (results s)).
Proof. unfold test_faucet_health. cost. Qed.

Lemma test_faucet_drip_cost address s a s' :
  test_faucet_drip address s = (ok a, s') ->
  rpc_id s' = rpc_id s + 0 /\
  List.length (results s') = S (List.length (results s)).
Proof. unfold test_faucet_drip. cost. Qed.

Lemma generate_test_account_cost s a s' :
  generate_test_account s = (ok a, s') ->
  rpc_id s' = rpc_id s + 0 /\
  List.length (results s') = S (List.length (results s)).
Proof. unfold generate_test_account. cost. Qed.

Lemma test_account_balance_cost address s a s' :
  test_account_balance address s = (ok a, s') ->
  rpc_id s' = rpc_id s + 1 /\
  List.length (results s') = S (List.length (results s)).
Proof. unfold test_account_balance. cost. Qed.

Lemma test_qrng_config_cost s a s' :
  test_qrng_config s = (ok a, s') ->
  rpc_id s' = rpc_id s + 1 /\
  List.length (results s') = S (List.length (results s)).
Proof. unfold test_qrng_config. cost. Qed.

Lemma test_qrng_device_queues_cost s a s' :
  test_qrng_device_queues s = (ok a, s') ->
  rpc_id s' = rpc_id s + 1 /\
  List.length (results s') = S (List.length (results s)).
Proof. unfold test_qrng_device_queues. cost. Qed.

Lemma test_qrng_reconstruction_cost s a s' :
  test_qrng_reconstruction s = (ok a, s') ->
  rpc_id s' = rpc_id s + 1 /\
  List.length (results s') = S (List.length (results s)).
Proof. unfold test_qrng_reconstruction. cost. Qed.

Lemma test_notarial_service_cost s a s' :
  test_notarial_service s = (ok a, s') ->
  rpc_id s' = rpc_id s + 1 /\
  List.length (results s') = S (List.length (results s)).
Proof. unfold test_notarial_service. cost. Qed.

Lemma test_governance_stats_cost s a s' :
  test_governance_stats s = (ok a, s') ->
  rpc_id s' = rpc_id s + 1 /\
  List.length (results s') = S (List.length (results s)).
Proof. unfold test_governance_stats. cost. Qed.

Lemma test_proposals_cost s a s' :
  test_proposals s = (ok a, s') ->
  rpc_id s' = rpc_id s + 1 /\
  List.length (results s') = S (List.length (results s)).
Proof. unfold test_proposals. cost. Qed.

Lemma test_validator_set_cost s a s' :
  test_validator_set s = (ok a, s') ->
  rpc_id s' = rpc_id s + 1 /\
  List.length (results s') = S (List.length (results s)).
Proof. unfold test_validator_set. cost. Qed.

Lemma test_rewards_info_cost address s a s' :
  test_rewards_info address s = (ok a, s') ->
  rpc_id s' = rpc_id s + 1 /\
  List.length (results s') = S (List.length (results s)).
Proof. unfold test_rewards_info. cost. Qed.

Lemma test_gateway_balance_cost address s a s' :
  test_gateway_balance address s = (ok a, s') ->
  rpc_id s' = rpc_id s + 1 /\
  List.length (results s') = S (List.length (results s)).
Proof. unfold test_gateway_balance. cost. Qed.

Lemma test_gateway_nonce_cost address s a s' :
  test_gateway_nonce address s = (ok a, s') ->
  rpc_id s' = rpc_id s + 1 /\
  List.length (results s') = S (List.length (results s)).
Proof. unfold test_gateway_nonce. cost. Qed.

Ltac costs :=
  repeat match goal with
    | H : test_connection _ = (ok _, _) |- _ =>
        apply test_connection_cost in H
    | H : test_chain_info _ = (ok _, _) |- _ =>
        apply test_chain_info_cost in H
    | H : test_peers _ = (ok _, _) |- _ => apply test_peers_cost in H
    | H : test_faucet_health _ = (ok _, _) |- _ =>
        apply test_faucet_health_cost in H
    | H : test_faucet_drip _ _ = (ok _, _) |- _ =>
        apply test_faucet_drip_cost in H
    | H : generate_test_account _ = (ok _, _) |- _ =>
        apply generate_test_account_cost in H
    | H : test_account_balance _ _ = (ok _, _) |- _ =>
        apply test_account_balance_cost in H
    | H : test_qrng_config _ = (ok _, _) |- _ =>
        apply test_qrng_config_cost in H
    | H : test_qrng_device_queues _ = (ok _, _) |- _ =>
        apply test_qrng_device_queues_cost in H
    | H : test_qrng_reconstruction _ = (ok _, _) |- _ =>
        apply test_qrng_reconstruction_cost in H
    | H : test_notarial_service _ = (ok _, _) |- _ =>
        apply test_notarial_service_cost in H
    | H : test_governance_stats _ = (ok _, _) |- _ =>
        apply test_governance_stats_cost in H
    | H : test_proposals _ = (ok _, _) |- _ =>
        apply test_proposals_cost in H
    | H : test_validator_set _ = (ok _, _) |- _ =>
        apply test_validator_set_cost in H
    | H : test_rewards_info _ _ = (ok _, _) |- _ =>
        apply test_rewards_info_cost in H
    | H : test_gateway_balance _ _ = (ok _, _) |- _ =>
        apply test_gateway_balance_cost in H
    | H : test_gateway_nonce _ _ = (ok _, _) |- _ =>
        apply test_gateway_nonce_cost in H
    | H : print_summary _ = (ok _, _) |- _ =>
        unfold print_summary in H; injection H as _ <-
    | H : ret _ _ = (ok _, _) |- _ => unfold ret in H; injection H as _ <-
    | H : _ /\ _ |- _ => destruct H
    end.

Lemma ids_of_run s' :
  ids_inv s' -> issued_ids (sent s') = ids_upto (Z.to_nat (rpc_id s')).
Proof. intros [_ H]. exact H. Qed.

(** X19: the JSON-RPC calls of a run.  A health check that reaches its end
    has made exactly 10 calls; a full run that reaches its end has made
    exactly 18 with 18 entries in the log when its "Faucet Health" entry,
    the fourth of the log, is passed, and 17 with 16 entries when that
    entry is failed; an aborted run exactly one.  In each case the ids sent
    are 1 up to that number. *)
Theorem rpc_call_counts node faucet :
  (forall sm s',
      run_health_check (__init__ node faucet) = (ok (Some sm), s') ->
      rpc_id s' = 10 /\ issued_ids (sent s') = ids_upto 10) /\
  (forall sm s',
      run_full_test (__init__ node faucet) = (ok (Some sm), s') ->
      exists fh,
        nth_error (results s') 3 = Some fh /\
        name fh = "Faucet Health" /\
        rpc_id s' = (if passed fh then 18 else 17) /\
        List.length (results s') = (if passed fh then 18 else 16)%nat /\
        issued_ids (sent s') =
          ids_upto (if passed fh then 18 else 17)) /\
  (forall s',
      run_health_check (__init__ node faucet) = (ok None, s') \/
      run_full_test (__init__ node faucet) = (ok None, s') ->
      rpc_id s' = 1 /\ issued_ids (sent s') = ids_upto 1).
Proof.
  assert (Hh : forall r s',
             run_health_check (__init__ node faucet) = (r, s') -> ids_inv s').
  { intros r s' H.
    change s' with (snd (r, s')). rewrite <- H.
    apply (run_health_check_keeps ids_inv ids_inv_record ids_inv_rpc_call
             ids_inv_health).
    apply ids_inv_init. }
  assert (Hf : forall r s',
             run_full_test (__init__ node faucet) = (r, s') -> ids_inv s').
  { intros r s' H.
    change s' with (snd (r, s')). rewrite <- H.
    apply (run_full_test_keeps ids_inv ids_inv_record ids_inv_rpc_call
             ids_inv_health ids_inv_drip).
    apply ids_inv_init. }
  refine (conj _ (conj _ _)).
  - intros sm s' H. pose proof (ids_of_run _ (Hh _ _ H)) as Hids.
    assert (Hid : rpc_id s' = 10).
    { unfold run_health_check in H. steps H.
      destruct a; cbn [negb] in H; [| discriminate H].
      steps H. costs.
      change (rpc_id (__init__ node faucet)) with 0 in *. lia. }
    rewrite Hid in Hids. split; [exact Hid | exact Hids].
  - intros sm s' H. pose proof (ids_of_run _ (Hf _ _ H)) as Hids.
    assert (Hid : (rpc_id s' = 18 /\ List.length (results s') = 18%nat) \/
                  (rpc_id s' = 17 /\ List.length (results s') = 16%nat)).
    { unfold run_full_test in H. steps H.
      destruct a; cbn [negb] in H; [| discriminate H].
      steps H.
      match goal with
      | Hg : (if ?b then _ else _) _ = _ |- _ => destruct b; steps Hg
      end; costs;
        change (rpc_id (__init__ node faucet)) with 0 in *;
        change (results (__init__ node faucet)) with (@nil TestResult) in *;
        cbn [List.length] in *; [left | right]; split; lia. }
    apply full_pipeline_log in H.
    destruct H as (fh & address & Hnth & Hname & Hnames & _).
    exists fh. split; [exact Hnth | split; [exact Hname |]].
    assert (Hcount : List.length (results s') =
                     (if passed fh then 18 else 16)%nat).
    { rewrite <- (length_map name), Hnames. destruct (passed fh); reflexivity. }
    destruct (passed fh); destruct Hid as [[Hid Hlen] | [Hid Hlen]];
      try (rewrite Hlen in Hcount; discriminate Hcount);
      rewrite Hid in Hids; repeat split; assumption.
  - intros s' [H | H].
    + pose proof (ids_of_run _ (Hh _ _ H)) as Hids.
      assert (Hid : rpc_id s' = 1).
      { unfold run_health_check in H. steps H.
        destruct a; cbn [negb] in H.
        - steps H. discriminate H.
        - unfold ret in H. injection H as <-. costs.
          change (rpc_id (__init__ node faucet)) with 0 in *. lia. }
      rewrite Hid in Hids. split; [exact Hid | exact Hids].
    + pose proof (ids_of_run _ (Hf _ _ H)) as Hids.
      assert (Hid : rpc_id s' = 1).
      { unfold run_full_test in H. steps H.
        destruct a; cbn [negb] in H.
        - steps H. discriminate H.
        - unfold ret in H. injection H as <-. costs.
          change (rpc_id (__init__ node faucet)) with 0 in *. lia. }
      rewrite Hid in Hids. split; [exact Hid | exact Hids].
Qed.

(** X20: without a faucet url a run talks to the node only: every request
    either pipeline sends is a JSON-RPC envelope posted to the node url,
    whether the run ends or raises. *)
Theorem no_faucet_traffic node faucet :
  url_configured faucet = None ->
  Forall (fun r => is_rpc_to (node_url (__init__ node faucet)) r = true)
    (sent (snd (run_health_check (__init__ node faucet)))) /\
  Forall (fun r => is_rpc_to (node_url (__init__ node faucet)) r = true)
    (sent (snd (run_full_test (__init__ node faucet)))).
Proof.
  intros Hnone.
  set (u := node_url (__init__ node faucet)).
  set (P := fun s : NodeAgent =>
              node_url s = u /\ url_configured (faucet_url s) = None /\
              Forall (fun r => is_rpc_to u r = true) (sent s)).
  assert (Hrecord : forall nm p msg d, preserves P (record nm p msg d)).
  { intros nm p msg d s Hs. exact Hs. }
  assert (Hrpc : forall method params, preserves P (rpc_call method params)).
  { intros method params s (Hu & Hf & Hall). rewrite rpc_call_run.
    unfold P. cbn [snd push_sent bump_id node_url faucet_url sent].
    split; [exact Hu | split; [exact Hf |]].
    apply Forall_app. split; [exact Hall |].
    constructor; [| constructor].
    cbn [is_rpc_to]. rewrite envelope_id_envelope, Hu, String.eqb_refl.
    reflexivity. }
  assert (Hfaucet : forall endpoint method data,
             preserves P (faucet_call endpoint method data)).
  { intros endpoint method data s (Hu & Hf & Hall).
    rewrite faucet_call_run, Hf. cbn [snd]. split; [exact Hu | split; assumption]. }
  assert (H0 : P (__init__ node faucet)).
  { split; [reflexivity | split; [exact Hnone | constructor]]. }
  split.
  - apply (run_health_check_keeps P Hrecord Hrpc (Hfaucet _ _ _)). exact H0.
  - apply (run_full_test_keeps P Hrecord Hrpc (Hfaucet _ _ _)
             (fun a => Hfaucet _ _ _)). exact H0.
Qed.

(** ** Further properties: the simulator *)

Lemma string_length_app a b :
  String.length (a ++ b) = (String.length a + String.length b)%nat.
Proof. induction a as [| c a IH]; cbn; [reflexivity | rewrite IH; reflexivity]. Qed.

Lemma chars_app a b :
  list_ascii_of_string (a ++ b) =
  (list_ascii_of_string a ++ list_ascii_of_string b)%list.
Proof. induction a as [| c a IH]; cbn; [reflexivity | rewrite IH; reflexivity]. Qed.

Lemma hex_digit_known k : In (hex_digit k) (list_ascii_of_string hex_digits).
Proof.
  do 16 (destruct k as [| k]; [cbn; tauto |]). cbn. tauto.
Qed.

Lemma hex_of_bytes_length bs :
  String.length (fold_right append EmptyString (map hex_of_byte bs))
  = (2 * List.length bs)%nat.
Proof.
  induction bs as [| b bs IH]; [reflexivity |].
  cbn [map fold_right List.length]. rewrite string_length_app, IH.
  cbn [hex_of_byte String.length]. lia.
Qed.

Lemma hex_of_bytes_chars bs :
  Forall (fun c => In c (list_ascii_of_string hex_digits))
    (list_ascii_of_string (fold_right append EmptyString (map hex_of_byte bs))).
Proof.
  induction bs as [| b bs IH]; [constructor |].
  cbn [map fold_right]. rewrite chars_app. apply Forall_app. split; [| exact IH].
  cbn [hex_of_byte list_ascii_of_string].
  constructor; [apply hex_digit_known |].
  constructor; [apply hex_digit_known | constructor].
Qed.

(** X21: [GET /v1/random/hex] clamps the requested length like
    [/v1/random] and answers an object with [random_hex], [length],
    [source] and [timestamp] only.  The text has two characters per byte,
    all among 0-9 and a-f; it is the hex writing of the very bytes
    [/v1/random] lists on the same entropy, and both endpoints update the
    statistics alike. *)
Theorem get_random_hex_body args entropy now_ms st :
  let n := clamp (args_get_int args "length" 32) in
  let bytes := token_bytes entropy (Z.to_nat n) in
  exists hex,
    fst (get_random_hex args entropy now_ms st) =
      PDict [("random_hex", PStr hex); ("length", PInt n);
             ("source", PStr "crypto4a-simulator");
             ("timestamp", PInt now_ms)] /\
    Z.of_nat (String.length hex) = 2 * n /\
    Forall (fun c => In c (list_ascii_of_string hex_digits))
      (list_ascii_of_string hex) /\
    hex = fold_right append EmptyString (map hex_of_byte bytes) /\
    py_getitem (fst (get_random args entropy now_ms st)) "random_bytes"
      = ok (PList (list_of_bytes bytes)) /\
    snd (get_random_hex args entropy now_ms st)
      = snd (get_random args entropy now_ms st).
Proof.
  intros n bytes. unfold get_random_hex, get_random. cbn [fst snd].
  rewrite clamp_steps. fold n. fold bytes.
  exists (token_hex entropy (Z.to_nat n)).
  refine (conj eq_refl (conj _ (conj _ (conj eq_refl (conj eq_refl eq_refl))))).
  - unfold token_hex. rewrite hex_of_bytes_length.
    unfold token_bytes. rewrite length_map, length_seq.
    pose proof (clamp_range (args_get_int args "length" 32)). fold n in H. lia.
  - apply hex_of_bytes_chars.
Qed.

Lemma serve_stats a st :
  requests (snd (serve a st)) = requests st + 1 /\
  bytes_generated st + 1 <= bytes_generated (snd (serve a st))
    <= bytes_generated st + 1024 /\
  start_time (snd (serve a st)) = start_time st.
Proof.
  unfold serve.
  destruct (route a) as [args | args];
    unfold get_random, get_random_hex; cbn [snd requests bytes_generated start_time];
    rewrite clamp_steps;
    pose proof (clamp_range (args_get_int args "length" 32));
    repeat split; lia.
Qed.

(** X22: the statistics of the simulator over any sequence of requests for
    random data: [requests] has grown by the number of requests, and
    [bytes_generated] by at least one and at most 1024 bytes for each of
    them, whatever lengths were asked; [start_time] is as it was. *)
Theorem stats_accounting l st :
  requests (serve_all l st) = requests st + Z.of_nat (List.length l) /\
  bytes_generated st + Z.of_nat (List.length l)
    <= bytes_generated (serve_all l st)
    <= bytes_generated st + 1024 * Z.of_nat (List.length l) /\
  start_time (serve_all l st) = start_time st.
Proof.
  revert st. induction l as [| a l IH]; intros st.
  - cbn [serve_all List.length]. repeat split; lia.
  - cbn [serve_all List.length].
    destruct (IH (snd (serve a st))) as (Hr & Hb & Ht).
    destruct (serve_stats a st) as (Hr1 & Hb1 & Ht1).
    rewrite Hr, Ht, Hr1, Ht1. repeat split; lia.
Qed.

End Embedding.

(** ** The theorems at concrete inputs *)

Lemma readable_result_empty_object parse_int method :
  readable_result parse_int method (PDict []) = true.
Proof.
  unfold readable_result.
  repeat match goal with
         | |- context [String.eqb method ?m] => destruct (String.eqb method m)
         end; reflexivity.
Qed.

Lemma empty_results_readable : readable_world parse_zero empty_results.
Proof.
  intros l r v H. injection H as <-. unfold readable.
  change (printable (PDict [("result", PDict [])])) with true.
  cbn [lookup String.eqb andb].
  destruct r as [url payload | url]; [| reflexivity].
  cbn. apply readable_result_empty_object.
Qed.

(** C1 at [retry_log]: the failed entry comes first and decides. *)
Lemma status_table_first_entry_witness :
  (exists r post,
      retry_log = ([] ++ r :: post)%list /\
      name r = "RPC Connection" /\ passed r = false) /\
  (forall x : TestResult, In x [] -> name x <> "RPC Connection") /\
  service_status retry_log "RPC Connection" = OFFLINE.
Proof.
  split; [| split].
  - eexists. eexists. split; [reflexivity | split; reflexivity].
  - intros x [].
  - apply (proj1 (proj2 (status_table_first_entry retry_log) "RPC Connection")
             [] _ _ eq_refl eq_refl).
    intros x [].
Defined.

(** C1 as the specification words it fails at [retry_log]: the entry
    recorded last passed, and the row of the table says OFFLINE. *)
Lemma status_table_most_recent_counterexample :
  most_recent_status retry_log "RPC Connection" = ONLINE /\
  service_status retry_log "RPC Connection" = OFFLINE /\
  In ("RPC", OFFLINE) (sum_table (summarize retry_log)).
Proof. split; [reflexivity | split; [reflexivity | left; reflexivity]]. Qed.

(** C2 at a network that answers every request with an empty object as
    [result]. *)
Lemma probes_record_once_witness :
  readable_world parse_zero empty_results /\
  parse_zero 16 "0x0" = Some 0 /\
  well_formed alice = true /\
  once (ignore (test_chain_info repr_opaque parse_zero empty_results)).
Proof.
  split; [exact empty_results_readable | split; [reflexivity |]].
  split; [reflexivity |].
  apply (proj1 (probes_record_once repr_opaque parse_zero empty_results
                  empty_results_readable eq_refl) alice None _ eq_refl).
  right. left. reflexivity.
Defined.

(** C2 as stated fails when [system_health] answers [{"result": null}]:
    [health.get] raises and the probe records nothing. *)
Lemma connection_null_result_counterexample :
  fst (test_connection repr_opaque null_results local_agent)
    = raise AttributeError /\
  results (snd (test_connection repr_opaque null_results local_agent)) = [].
Proof. split; reflexivity. Qed.

(** C3 at a node that answers every call with the empty list. *)
Lemma empty_list_result_witness :
  let run := rpc_call empty_lists "system_peers" None local_agent in
  run = (ok (PDict [("result", PList [])]), snd run) /\
  lookup "result" [("result", PList [])] = Some (PList []) /\
  test_peers empty_lists local_agent =
    (ok (PList []),
     push_result {| name := "Peer Connections"; passed := false;
                    message := "0 peers connected";
                    details := PDict [("peers", PList [])] |} (snd run)).
Proof.
  intros run. split; [reflexivity | split; [reflexivity |]].
  apply (proj1 (proj2 (proj2
           (empty_list_result empty_lists local_agent
              [("result", PList [])] (snd run)))));
    reflexivity.
Defined.

(** C3 as stated fails for the Peers probe: the empty list is recorded as
    a failure. *)
Lemma peers_empty_list_counterexample :
  map passed (results (snd (test_peers empty_lists local_agent))) = [false].
Proof. reflexivity. Qed.

(** C4 at a node that refuses the connection. *)
Lemma connectivity_failure_aborts_witness :
  let s1 := snd (test_connection repr_opaque (always refused) local_agent) in
  test_connection repr_opaque (always refused) local_agent = (ok false, s1) /\
  run_health_check repr_opaque parse_zero (always refused) local_agent
    = (ok None, s1) /\
  run_full_test repr_opaque parse_zero (always refused) local_agent
    = (ok None, s1).
Proof.
  intros s1. split; [reflexivity |].
  destruct (connectivity_failure_aborts repr_opaque parse_zero (always refused)
              "ws://localhost:9944" (Some "http://localhost:3000") s1 eq_refl)
    as (Hh & Hf & _).
  split; [exact Hh | exact Hf].
Defined.

(** C6 at a faucet that answers 502. *)
Lemma faucet_health_verdict_witness :
  let run := faucet_call bad_gateway "/health" GET None local_agent in
  let e := [("code", PInt (-1)); ("message", PStr "HTTP Error 502: Bad Gateway")] in
  url_configured (faucet_url local_agent) = Some "http://localhost:3000" /\
  run = (ok (PDict [("error", PDict e)]), snd run) /\
  str_contains "502" (py_str repr_opaque (error_message e)) = true /\
  test_faucet_health repr_opaque bad_gateway local_agent =
    (ok false,
     push_result {| name := "Faucet Health"; passed := false;
                    message := "502 Bad Gateway - Faucet service is down";
                    details := PNone |} (snd run)).
Proof.
  intros run e.
  split; [reflexivity | split; [reflexivity | split; [reflexivity |]]].
  apply (proj1 (proj1
           (faucet_health_verdict repr_opaque bad_gateway local_agent
              "http://localhost:3000" (PDict [("error", PDict e)]) (snd run)
              eq_refl eq_refl) [("error", PDict e)] e eq_refl eq_refl)).
  left. reflexivity.
Defined.

(** C6 as stated fails when the faucet answers
    [{"error": "rate limited"}]: the error is a text, [.get] raises
    [AttributeError] and the probe records nothing, where the claim asks
    for the generic failure message. *)
Lemma faucet_health_text_error_counterexample :
  fst (test_faucet_health repr_opaque rate_limited local_agent)
    = raise AttributeError /\
  results (snd (test_faucet_health repr_opaque rate_limited local_agent)) = [].
Proof. split; reflexivity. Qed.


(** C8 at a faucet that is healthy and pays: balance, drip, balance, both
    queries for Bob's address; and at an agent without faucet url, whose
    "Faucet Health" entry is failed: one balance entry, no drip. *)
Lemma full_pipeline_balance_checks_witness :
  let bob := "5FHneW46xGXgs5mUiveU4sbTyGBzmstUspZC92UhjJM694ty" in
  let pays := faucet_pays (PInt 1000) in
  let s1 := snd (test_connection repr_opaque pays local_agent) in
  let s2 := snd (test_chain_info repr_opaque parse_zero pays s1) in
  let s3 := snd (test_peers pays s2) in
  let s4 := snd (test_faucet_health repr_opaque pays s3) in
  let s5 := snd (generate_test_account pays s4) in
  let s6 := snd (test_account_balance parse_zero pays bob s5) in
  let s7 := snd (test_faucet_drip repr_opaque pays bob s6) in
  let s8 := snd (test_account_balance parse_zero pays bob s7) in
  let run := run_full_test repr_opaque parse_zero pays local_agent in
  let t1 := snd (test_connection repr_opaque empty_results bare_agent) in
  let t2 := snd (test_chain_info repr_opaque parse_zero empty_results t1) in
  let t3 := snd (test_peers empty_results t2) in
  let t4 := snd (test_faucet_health repr_opaque empty_results t3) in
  let t5 := snd (generate_test_account empty_results t4) in
  let t6 := snd (test_account_balance parse_zero empty_results bob t5) in
  let bare := run_full_test repr_opaque parse_zero empty_results bare_agent in
  (test_faucet_health repr_opaque pays s3 = (ok true, s4) /\
   test_account_balance parse_zero pays bob s5 = (ok 0, s6) /\
   test_faucet_drip repr_opaque pays bob s6 = (ok true, s7) /\
   test_account_balance parse_zero pays bob s7 = (ok 1000, s8) /\
   run = service_tests repr_opaque pays s8 /\
   map name (results (snd run)) = full_names true /\
   count_occ string_dec (map name (results (snd run))) "Account Balance"
     = 2%nat /\
   calls_of "system_account" (sent (snd run)) =
     [PList [PStr bob]; PList [PStr bob]]) /\
  (test_faucet_health repr_opaque empty_results t3 = (ok false, t4) /\
   test_account_balance parse_zero empty_results bob t5 = (ok 0, t6) /\
   bare = service_tests repr_opaque empty_results t6 /\
   map name (results (snd bare)) = full_names false /\
   count_occ string_dec (map name (results (snd bare))) "Account Balance"
     = 1%nat /\
   count_occ string_dec (map name (results (snd bare))) "Faucet Drip"
     = 0%nat /\
   calls_of "system_account" (sent (snd bare)) = [PList [PStr bob]]).
Proof.
  intros bob pays s1 s2 s3 s4 s5 s6 s7 s8 run t1 t2 t3 t4 t5 t6 bare.
  split.
  - assert (H1 : test_connection repr_opaque pays
                   (__init__ "ws://localhost:9944" (Some "http://localhost:3000"))
                 = (ok true, s1))
      by (vm_compute; reflexivity).
    assert (H2 : test_chain_info repr_opaque parse_zero pays s1 =
                 (ok (PDict [("chain", PDict []); ("block", PInt 0);
                             ("runtime", PStr "v?"); ("node_name", PDict [])]),
                  s2))
      by (vm_compute; reflexivity).
    assert (H3 : test_peers pays s2 = (ok (PDict []), s3))
      by (vm_compute; reflexivity).
    assert (H4 : test_faucet_health repr_opaque pays s3 = (ok true, s4))
      by (vm_compute; reflexivity).
    assert (H5 : generate_test_account pays s4 =
                 (ok {| acc_name := "Bob"; acc_address := bob;
                        acc_type := "dev" |}, s5))
      by (vm_compute; reflexivity).
    assert (H6 : test_account_balance parse_zero pays bob s5 = (ok 0, s6))
      by (vm_compute; reflexivity).
    assert (H7 : test_faucet_drip repr_opaque pays bob s6 = (ok true, s7))
      by (vm_compute; reflexivity).
    assert (H8 : test_account_balance parse_zero pays bob s7 = (ok 1000, s8))
      by (vm_compute; reflexivity).
    assert (Hfst : fst run = ok (Some (summarize (results (snd run)))))
      by (vm_compute; reflexivity).
    destruct (full_pipeline_balance_checks repr_opaque parse_zero pays
                "ws://localhost:9944" (Some "http://localhost:3000")
                s1 _ s2 _ s3 true s4 _ s5 H1 H2 H3 H4 H5)
      as (_ & Hhealthy & _).
    destruct (Hhealthy eq_refl 0 s6 true s7 1000 s8 H6 H7 H8)
      as (Hrun & _ & Hcount & Hcalls & Hout).
    destruct (Hout _ Hfst) as [_ Hnames].
    exact (conj H4 (conj H6 (conj H7 (conj H8 (conj Hrun
             (conj Hnames (conj Hcount Hcalls))))))).
  - assert (H1 : test_connection repr_opaque empty_results
                   (__init__ "http://node.example:9944" None)
                 = (ok true, t1))
      by (vm_compute; reflexivity).
    assert (H2 : test_chain_info repr_opaque parse_zero empty_results t1 =
                 (ok (PDict [("chain", PDict []); ("block", PInt 0);
                             ("runtime", PStr "v?"); ("node_name", PDict [])]),
                  t2))
      by (vm_compute; reflexivity).
    assert (H3 : test_peers empty_results t2 = (ok (PDict []), t3))
      by (vm_compute; reflexivity).
    assert (H4 : test_faucet_health repr_opaque empty_results t3
                 = (ok false, t4))
      by (vm_compute; reflexivity).
    assert (H5 : generate_test_account empty_results t4 =
                 (ok {| acc_name := "Bob"; acc_address := bob;
                        acc_type := "dev" |}, t5))
      by (vm_compute; reflexivity).
    assert (H6 : test_account_balance parse_zero empty_results bob t5
                 = (ok 0, t6))
      by (vm_compute; reflexivity).
    assert (Hfst : fst bare = ok (Some (summarize (results (snd bare)))))
      by (vm_compute; reflexivity).
    destruct (full_pipeline_balance_checks repr_opaque parse_zero
                empty_results "http://node.example:9944" None
                t1 _ t2 _ t3 false t4 _ t5 H1 H2 H3 H4 H5)
      as (_ & _ & Hunhealthy & _).
    destruct (Hunhealthy eq_refl 0 t6 H6)
      as (Hrun & _ & Hcount & Hdrip & Hcalls & Hout).
    destruct (Hout _ Hfst) as [_ Hnames].
    exact (conj H4 (conj H6 (conj Hrun (conj Hnames (conj Hcount
             (conj Hdrip Hcalls)))))).
Defined.

(** C8 as stated fails when the second balance check raises.  The faucet
    is healthy and has paid; the node then reports the account with a null
    [free], [int(None)] raises [TypeError], and the run ends there: the
    "Faucet Health" entry is passed and the log holds a single
    "Account Balance" entry, with "Faucet Drip" after it. *)
Lemma second_balance_raises_counterexample :
  let final :=
    run_full_test repr_opaque parse_zero (faucet_pays PNone) local_agent in
  fst final = raise TypeError /\
  map (fun r => (name r, passed r)) (results (snd final)) =
    [("RPC Connection", true); ("Chain Info", true);
     ("Peer Connections", false); ("Faucet Health", true);
     ("Account Selection", true); ("Account Balance", true);
     ("Faucet Drip", true)] /\
  count_occ string_dec (map name (results (snd final))) "Account Balance"
    = 1%nat.
Proof. vm_compute. split; [reflexivity | split; reflexivity]. Qed.

(** C9 at [?length=0]: the length is clamped to 1. *)
Lemma get_random_body_witness :
  assoc "length" [("length", "0")] = Some "0" /\
  parse_zero 10 "0" = Some 0 /\
  args_get_int parse_zero [("length", "0")] "length" 32 = 0 /\
  random_body "timestamp" 0
    (fst (get_random parse_zero [("length", "0")] entropy_zero 1700000000000
            fresh_stats)).
Proof.
  split; [reflexivity | split; [reflexivity |]].
  destruct (get_random_body parse_zero [("length", "0")] entropy_zero
              1700000000000 fresh_stats) as (Hbody & _ & _ & Hn & _).
  split; [apply (Hn "0" 0); reflexivity | exact Hbody].
Defined.

(** C9 as stated fails on every request: the body has no [timestamp_ms]
    member. *)
Lemma get_random_timestamp_ms_counterexample :
  ~ random_body "timestamp_ms" 32
      (fst (get_random parse_zero [] entropy_zero 1700000000000 fresh_stats)).
Proof.
  intros (d & bytes & Hd & _ & _ & _ & _ & _ & Hts & _).
  injection Hd as <-. discriminate Hts.
Qed.

(** C10 at [ws://localhost:9944]. *)
Lemma node_url_normalized_witness :
  str_contains "ws://" "localhost:9944" = false /\
  str_contains "wss://" "localhost:9944" = false /\
  node_url (__init__ ("ws://" ++ "localhost:9944") None)
    = "http://" ++ "localhost:9944".
Proof.
  split; [reflexivity | split; [reflexivity |]].
  destruct (node_url_normalized repr_opaque parse_zero empty_results)
    as (Hws & _ & Hplain & _).
  rewrite (Hws "localhost:9944" None).
  rewrite (Hplain "localhost:9944" None eq_refl eq_refl). reflexivity.
Defined.

(** Chain info against a node that answers every call with an empty
    object: each missing part is reported by its placeholder. *)
Example chain_info_placeholders :
  map message
    (results (snd (test_chain_info repr_opaque parse_zero
                     (always (Body (PDict []))) local_agent)))
    = ["Unknown @ block #0 (Unknown)"].
Proof. reflexivity. Qed.

(** ** The further properties at concrete inputs *)

(** X1 at [retry_log]: its failed entry is listed. *)
Lemma summary_counts_witness :
  (exists r, In r retry_log /\ passed r = false /\
             name r = "RPC Connection" /\ message r = "Failed: timed out") /\
  In ("RPC Connection", "Failed: timed out")
    (sum_failures (summarize retry_log)).
Proof.
  assert (H : exists r, In r retry_log /\ passed r = false /\
                        name r = "RPC Connection" /\
                        message r = "Failed: timed out").
  { eexists. split; [left; reflexivity | repeat split]. }
  split; [exact H |].
  apply (proj2 (proj2 (proj2 (summary_counts retry_log)) _ _)). exact H.
Defined.

(** X2 at the peers probe against empty lists. *)
Lemma log_append_only_witness :
  In (ignore (test_peers empty_lists))
     (probes repr_opaque parse_zero empty_lists alice None) /\
  exists l,
    results (snd (ignore (test_peers empty_lists) local_agent))
      = (results local_agent ++ l)%list.
Proof.
  assert (H : In (ignore (test_peers empty_lists))
                (probes repr_opaque parse_zero empty_lists alice None)).
  { right. right. left. reflexivity. }
  split; [exact H |].
  exact (proj1 (log_append_only repr_opaque parse_zero empty_lists)
           alice None _ local_agent H).
Defined.

(** X3 at the peers probe against empty lists. *)
Lemma endpoints_immutable_witness :
  In (ignore (test_peers empty_lists))
     (probes repr_opaque parse_zero empty_lists alice None) /\
  node_url (snd (ignore (test_peers empty_lists) local_agent))
    = node_url local_agent /\
  faucet_url (snd (ignore (test_peers empty_lists) local_agent))
    = faucet_url local_agent.
Proof.
  assert (H : In (ignore (test_peers empty_lists))
                (probes repr_opaque parse_zero empty_lists alice None)).
  { right. right. left. reflexivity. }
  split; [exact H |].
  exact (proj1 (endpoints_immutable repr_opaque parse_zero empty_lists)
           alice None _ local_agent H).
Defined.

(** X4 at [--node ws://localhost:9944]: the local faucet is guessed. *)
Lemma main_endpoints_witness :
  url_configured (arg_faucet local_arguments) = None /\
  str_contains "localhost" (arg_node local_arguments) = true /\
  faucet_url (snd (main repr_opaque parse_zero empty_results local_arguments))
    = Some "http://localhost:3000".
Proof.
  split; [reflexivity | split; [reflexivity |]].
  apply (proj1 (proj2 (proj2 (proj2
           (main_endpoints repr_opaque parse_zero empty_results
              local_arguments))))); [reflexivity | left; reflexivity].
Defined.

(** X5 at an agent without faucet. *)
Lemma faucet_unconfigured_witness :
  url_configured (faucet_url bare_agent) = None /\
  test_faucet_health repr_opaque empty_results bare_agent =
    (ok false,
     push_result {| name := "Faucet Health"; passed := false;
                    message := "No faucet URL configured";
                    details := PNone |} bare_agent).
Proof.
  split; [reflexivity |].
  exact (proj1 (proj2 (faucet_unconfigured repr_opaque empty_results
                         bare_agent eq_refl))).
Defined.


(** X7 at a node that refuses the connection: balance 0. *)
Lemma account_balance_verdict_witness :
  transport_failure refused = true /\
  fst (test_account_balance parse_zero (always refused) alice local_agent)
    = ok 0.
Proof.
  split; [reflexivity |].
  exact (proj1 (proj2 (proj2
           (account_balance_verdict parse_zero (always refused) alice
              local_agent))) refused eq_refl eq_refl).
Defined.

(** X8 at a node that answers [null]. *)
Lemma peers_verdict_witness :
  let run := rpc_call null_results "system_peers" None local_agent in
  run = (ok (PDict [("result", PNone)]), snd run) /\
  test_peers null_results local_agent = (raise TypeError, snd run) /\
  results (snd run) = results local_agent.
Proof.
  intros run. split; [reflexivity |].
  exact (proj2 (peers_verdict null_results local_agent
                  [("result", PNone)] (snd run) eq_refl)
           PNone eq_refl (or_introl eq_refl)).
Defined.

(** X10 at the validator set of a node that answers empty lists. *)
Lemma result_only_probes_witness :
  let run := rpc_call empty_lists "quantumharmony_getValidatorSet" None
               local_agent in
  run = (ok (PDict [("result", PList [])]), snd run) /\
  exists a r,
    test_validator_set empty_lists local_agent = (ok a, push_result r (snd run)) /\
    name r = "Validator Set" /\
    passed r = has_key "result" [("result", PList [])].
Proof.
  intros run. split; [reflexivity |].
  exact (proj1 (proj2 (proj2 (proj2 (proj2 (result_only_probes empty_lists)))))
           local_agent _ (snd run) eq_refl).
Defined.

(** X11 at a node that answers [null]: no proposal is counted. *)
Lemma counted_results_witness :
  let run := rpc_call null_results "quantumharmony_getProposals" None
               local_agent in
  lookup "result" [("result", PNone)] = Some PNone /\
  run = (ok (PDict [("result", PNone)]), snd run) /\
  test_proposals null_results local_agent =
    (ok (PList []),
     push_result {| name := "Proposals"; passed := true;
                    message := "0 proposals";
                    details := PDict [("count", PInt 0)] |} (snd run)).
Proof.
  intros run. split; [reflexivity | split; [reflexivity |]].
  exact (proj1 (counted_results null_results local_agent
                  [("result", PNone)] (snd run) PNone eq_refl) eq_refl).
Defined.

(** X12 at a gateway that sends the balance as text: 0 is returned. *)
Lemma gateway_verdict_witness :
  let run := rpc_call text_results "gateway_balance" (Some [PStr alice])
               local_agent in
  run = (ok (PDict [("result", PStr "1000")]), snd run) /\
  test_gateway_balance repr_opaque text_results alice local_agent =
    (ok (PInt 0),
     push_result {| name := "Gateway Balance"; passed := true;
                    message := "Balance: 1000";
                    details := PDict [("balance", PStr "1000")] |} (snd run)).
Proof.
  intros run. split; [reflexivity |].
  exact (proj1 (proj1 (gateway_verdict repr_opaque text_results alice
                         local_agent [("result", PStr "1000")] (snd run))
                  eq_refl) (PStr "1000") eq_refl).
Defined.

(** X13 at a node that refuses the connection. *)
Lemma connection_gate_witness :
  transport_failure refused = true /\
  fst (test_connection repr_opaque (always refused) local_agent) = ok false /\
  map message
    (results (snd (test_connection repr_opaque (always refused) local_agent)))
    = ["Failed: [Errno 111] Connection refused"].
Proof.
  split; [reflexivity |].
  rewrite (proj2 (connection_gate repr_opaque (always refused) local_agent)
             refused eq_refl eq_refl).
  split; reflexivity.
Defined.

(** X14 at a node that refuses the connection: the probe passes. *)
Lemma notarial_on_failure_witness :
  transport_failure refused = true /\
  failure_code refused <> -32601 /\
  fst (test_notarial_service (always refused) local_agent) = ok true.
Proof.
  assert (Hcode : failure_code refused <> -32601) by discriminate.
  split; [reflexivity | split; [exact Hcode |]].
  rewrite (proj1 (notarial_on_failure (always refused) local_agent refused
                    eq_refl eq_refl Hcode)).
  reflexivity.
Defined.

Lemma refused_unreachable : unreachable (always refused).
Proof. intros l r. reflexivity. Qed.

(** X15 at a node that refuses the connection. *)
Lemma chain_info_best_effort_witness :
  unreachable (always refused) /\
  exists s',
    test_chain_info repr_opaque parse_zero (always refused) local_agent =
      (ok (PDict [("chain", PStr "Unknown"); ("block", PInt 0);
                  ("runtime", PStr "Unknown"); ("node_name", PStr "Unknown")]),
       s') /\
    results s' =
      (results local_agent ++
       [{| name := "Chain Info"; passed := true;
           message := "Unknown @ block #0 (Unknown)";
           details :=
             PDict [("chain", PStr "Unknown"); ("block", PInt 0);
                    ("runtime", PStr "Unknown");
                    ("node_name", PStr "Unknown")] |}])%list.
Proof.
  split; [exact refused_unreachable |].
  exact (proj2 (chain_info_best_effort repr_opaque parse_zero (always refused)
                  local_agent) refused_unreachable).
Defined.

(** X16 at a faucet that refuses the connection. *)
Lemma faucet_health_transport_witness :
  url_configured (faucet_url local_agent) = Some "http://localhost:3000" /\
  str_contains "Connection refused" "[Errno 111] Connection refused" = true /\
  exists msg,
    test_faucet_health repr_opaque (always refused) local_agent =
      (ok false,
       push_result {| name := "Faucet Health"; passed := false;
                      message := msg; details := PNone |}
         (push_sent (Get ("http://localhost:3000" ++ "/health")) local_agent)) /\
    (msg = "502 Bad Gateway - Faucet service is down" \/
     msg = "Connection refused - Faucet not running").
Proof.
  split; [reflexivity | split; [reflexivity |]].
  exact (proj2 (faucet_health_transport repr_opaque (always refused)
                  local_agent "http://localhost:3000" eq_refl)
           "[Errno 111] Connection refused" eq_refl eq_refl).
Defined.

(** X17 at a node that answers empty objects. *)
Lemma health_run_complete_witness :
  let run := run_health_check repr_opaque parse_zero empty_results local_agent in
  run = (ok (Some (summarize (results (snd run)))), snd run) /\
  map name (results (snd run)) = health_names /\
  sum_total (summarize (results (snd run))) = 8%nat /\
  Forall (fun row => snd row <> UNKNOWN)
    (sum_table (summarize (results (snd run)))).
Proof.
  intros run.
  assert (Hrun : run = (ok (Some (summarize (results (snd run)))), snd run))
    by (vm_compute; reflexivity).
  split; [exact Hrun |].
  exact (health_run_complete repr_opaque parse_zero empty_results
           "ws://localhost:9944" (Some "http://localhost:3000") _ _ Hrun).
Defined.

(** X18 at a node that answers empty objects: without a faucet url the
    "Faucet Health" entry is failed and the summary counts 16 results; with
    one it is passed and the summary counts 18. *)
Lemma full_run_table_witness :
  let bare := run_full_test repr_opaque parse_zero empty_results bare_agent in
  let run := run_full_test repr_opaque parse_zero empty_results local_agent in
  (bare = (ok (Some (summarize (results (snd bare)))), snd bare) /\
   exists fh,
     nth_error (results (snd bare)) 3 = Some fh /\
     passed fh = false /\
     sum_total (summarize (results (snd bare))) = 16%nat) /\
  (run = (ok (Some (summarize (results (snd run)))), snd run) /\
   exists fh,
     nth_error (results (snd run)) 3 = Some fh /\
     passed fh = true /\
     sum_total (summarize (results (snd run))) = 18%nat).
Proof.
  intros bare run.
  assert (Hbare : bare = (ok (Some (summarize (results (snd bare)))), snd bare))
    by (vm_compute; reflexivity).
  assert (Hrun : run = (ok (Some (summarize (results (snd run)))), snd run))
    by (vm_compute; reflexivity).
  split.
  - split; [exact Hbare |].
    destruct (full_run_table repr_opaque parse_zero empty_results
                "http://node.example:9944" None _ _ Hbare)
      as (_ & (fh & Hnth & _ & Hsum) & _).
    exists fh. split; [exact Hnth |].
    assert (Hp : passed fh = false)
      by (vm_compute in Hnth; injection Hnth as <-; reflexivity).
    rewrite Hp in Hsum. split; [exact Hp | exact Hsum].
  - split; [exact Hrun |].
    destruct (full_run_table repr_opaque parse_zero empty_results
                "ws://localhost:9944" (Some "http://localhost:3000") _ _ Hrun)
      as (_ & (fh & Hnth & _ & Hsum) & _).
    exists fh. split; [exact Hnth |].
    assert (Hp : passed fh = true)
      by (vm_compute in Hnth; injection Hnth as <-; reflexivity).
    rewrite Hp in Hsum. split; [exact Hp | exact Hsum].
Defined.

(** X19 at a node that answers empty objects: a full run without a faucet
    url has a failed "Faucet Health" entry, 17 calls and 16 entries; with a
    faucet url the entry is passed and the run has 18 calls and 18
    entries. *)
Lemma rpc_call_counts_witness :
  let bare := run_full_test repr_opaque parse_zero empty_results bare_agent in
  let run := run_full_test repr_opaque parse_zero empty_results local_agent in
  (bare = (ok (Some (summarize (results (snd bare)))), snd bare) /\
   exists fh,
     nth_error (results (snd bare)) 3 = Some fh /\
     passed fh = false /\
     rpc_id (snd bare) = 17 /\
     List.length (results (snd bare)) = 16%nat /\
     issued_ids (sent (snd bare)) = ids_upto 17) /\
  (run = (ok (Some (summarize (results (snd run)))), snd run) /\
   exists fh,
     nth_error (results (snd run)) 3 = Some fh /\
     passed fh = true /\
     rpc_id (snd run) = 18 /\
     List.length (results (snd run)) = 18%nat /\
     issued_ids (sent (snd run)) = ids_upto 18).
Proof.
  intros bare run.
  assert (Hbare : bare = (ok (Some (summarize (results (snd bare)))), snd bare))
    by (vm_compute; reflexivity).
  assert (Hrun : run = (ok (Some (summarize (results (snd run)))), snd run))
    by (vm_compute; reflexivity).
  split.
  - split; [exact Hbare |].
    destruct (proj1 (proj2 (rpc_call_counts repr_opaque parse_zero
                              empty_results "http://node.example:9944" None))
                _ _ Hbare)
      as (fh & Hnth & _ & Hid & Hlen & Hids).
    exists fh. split; [exact Hnth |].
    assert (Hp : passed fh = false)
      by (vm_compute in Hnth; injection Hnth as <-; reflexivity).
    rewrite Hp in Hid, Hlen, Hids. repeat split; assumption.
  - split; [exact Hrun |].
    destruct (proj1 (proj2 (rpc_call_counts repr_opaque parse_zero
                              empty_results "ws://localhost:9944"
                              (Some "http://localhost:3000")))
                _ _ Hrun)
      as (fh & Hnth & _ & Hid & Hlen & Hids).
    exists fh. split; [exact Hnth |].
    assert (Hp : passed fh = true)
      by (vm_compute in Hnth; injection Hnth as <-; reflexivity).
    rewrite Hp in Hid, Hlen, Hids. repeat split; assumption.
Defined.

(** X20 at an agent without faucet. *)
Lemma no_faucet_traffic_witness :
  url_configured None = None /\
  Forall (fun r => is_rpc_to (node_url bare_agent) r = true)
    (sent (snd (run_full_test repr_opaque parse_zero empty_results bare_agent))).
Proof.
  split; [reflexivity |].
  exact (proj2 (no_faucet_traffic repr_opaque parse_zero empty_results
                  "http://node.example:9944" None eq_refl)).
Defined.

(** X23 at a node that answers [null]: the config probe raises. *)
Lemma object_result_probes_witness :
  let run := rpc_call null_results "qrng_getConfig" None local_agent in
  run = (ok (PDict [("result", PNone)]), snd run) /\
  is_dict PNone = false /\
  test_qrng_config repr_opaque null_results local_agent
    = (raise AttributeError, snd run).
Proof.
  intros run. split; [reflexivity | split; [reflexivity |]].
  exact (proj1 (proj2 (proj1 (object_result_probes repr_opaque null_results
                                local_agent [("result", PNone)] (snd run))
                         eq_refl)) PNone eq_refl eq_refl).
Defined.
